(** * Cloud-Hypervisor process supervisor (src/ch/ch_process.c)

    A shallow embedding of the start/stop orchestration, the per-thread
    resource placement and the reconnection task of the Cloud-Hypervisor
    driver, together with the properties of its specification.

    The functions of ch_process.c are written as state-passing programs
    over a [World]: the domain object they mutate and the chronological
    record of the calls they make to their collaborators (monitor, cgroup
    backend, host-device code, libc).  The collaborators are not part of
    ch_process.c; what they answer is given by a [Host], an arbitrary
    function of the call and of everything that happened before it, so
    every theorem holds whatever the collaborators do.

    C integers (int, pid_t, size_t, long long) are integers of [Z]; the
    code compares them with 0 and -1 and otherwise only counts the retries
    of one loop up to 6, so no arithmetic on them can wrap around.  NULL
    pointers are [None].

    The version parser of src/ch/ch_conf.c is embedded as well, as pure
    functions on strings; its 32-bit arithmetic is written out. *)

From Stdlib Require Import ZArith List Ascii String Bool Lia.
From stdpp Require Import base list strings pretty.
From Equations Require Import Equations.
Import ListNotations.
Local Open Scope Z_scope.

(** ** Data model *)

(** A CPU or NUMA-node bitmap: bit [i] set means that CPU [i] belongs to it. *)
Definition virBitmap := N.

(** A cgroup scope, known to this file only as a handle. *)
Inductive virCgroup := Cgroup (handle : Z).

Inductive virCgroupController :=
| VIR_CGROUP_CONTROLLER_CPU
| VIR_CGROUP_CONTROLLER_CPUSET.

Inductive virCgroupThreadName :=
| VIR_CGROUP_THREAD_VCPU
| VIR_CGROUP_THREAD_EMULATOR
| VIR_CGROUP_THREAD_IOTHREAD.

Inductive virErrorNumber :=
| VIR_ERR_INTERNAL_ERROR
| VIR_ERR_CONFIG_UNSUPPORTED
| VIR_ERR_OPERATION_INVALID.

Inductive virDomainState :=
| VIR_DOMAIN_NOSTATE
| VIR_DOMAIN_RUNNING
| VIR_DOMAIN_BLOCKED
| VIR_DOMAIN_PAUSED
| VIR_DOMAIN_SHUTDOWN
| VIR_DOMAIN_SHUTOFF
| VIR_DOMAIN_CRASHED
| VIR_DOMAIN_PMSUSPENDED.

Inductive virDomainShutoffReason :=
| VIR_DOMAIN_SHUTOFF_UNKNOWN
| VIR_DOMAIN_SHUTOFF_SHUTDOWN
| VIR_DOMAIN_SHUTOFF_DESTROYED
| VIR_DOMAIN_SHUTOFF_CRASHED
| VIR_DOMAIN_SHUTOFF_MIGRATED
| VIR_DOMAIN_SHUTOFF_SAVED
| VIR_DOMAIN_SHUTOFF_FAILED
| VIR_DOMAIN_SHUTOFF_FROM_SNAPSHOT
| VIR_DOMAIN_SHUTOFF_DAEMON.

(** The reason is stored in the domain object as a C int; the enumerators
    have the values of the public header libvirt-domain.h. *)
Definition shutoff_reason_int (r : virDomainShutoffReason) : Z :=
  match r with
  | VIR_DOMAIN_SHUTOFF_UNKNOWN => 0
  | VIR_DOMAIN_SHUTOFF_SHUTDOWN => 1
  | VIR_DOMAIN_SHUTOFF_DESTROYED => 2
  | VIR_DOMAIN_SHUTOFF_CRASHED => 3
  | VIR_DOMAIN_SHUTOFF_MIGRATED => 4
  | VIR_DOMAIN_SHUTOFF_SAVED => 5
  | VIR_DOMAIN_SHUTOFF_FAILED => 6
  | VIR_DOMAIN_SHUTOFF_FROM_SNAPSHOT => 7
  | VIR_DOMAIN_SHUTOFF_DAEMON => 8
  end.

Definition VIR_DOMAIN_PAUSED_SHUTTING_DOWN : Z := 8.

Inductive virDomainCpuPlacementMode :=
| VIR_DOMAIN_CPU_PLACEMENT_MODE_STATIC
| VIR_DOMAIN_CPU_PLACEMENT_MODE_AUTO.

Inductive virDomainNumatuneMemMode :=
| VIR_DOMAIN_NUMATUNE_MEM_STRICT
| VIR_DOMAIN_NUMATUNE_MEM_PREFERRED
| VIR_DOMAIN_NUMATUNE_MEM_INTERLEAVE
| VIR_DOMAIN_NUMATUNE_MEM_RESTRICTIVE.

(** errno values (Linux). *)
Definition ENOENT : Z := 2.
Definition EBUSY : Z := 16.
Definition ENOTDIR : Z := 20.

Record virDomainThreadSchedParam := {
  policy : Z;
  priority : Z
}.

(** One vCPU of the definition, with the thread id of its private data
    (CH_DOMAIN_VCPU_PRIVATE(vcpu)->tid). *)
Record virDomainVcpuDef := {
  online : bool;
  vcpu_cpumask : option virBitmap;
  sched : virDomainThreadSchedParam;
  tid : Z
}.

Record virDomainCputune := {
  period : Z;
  quota : Z;
  emulator_period : Z;
  emulator_quota : Z;
  iothread_period : Z;
  iothread_quota : Z;
  emulatorpin : option virBitmap;
  emulatorsched : option virDomainThreadSchedParam
}.

(** vm->def->numa, as far as this file looks at it: the node count and
    what virDomainNumatuneGetMode(numa, -1, &mode) answers ([None] when it
    returns a negative value, [Some mode] when it returns 0). *)
Record virDomainNuma := {
  node_count : Z;
  numatune_mode : option virDomainNumatuneMemMode
}.

(** A network device; [queues] is driver.virtio.queues. *)
Record virDomainNetDef := {
  queues : Z
}.

(** A character device; [source] is absent when chr->source is NULL and
    otherwise holds chr->source->data.file.path. *)
Record virDomainChrDef := {
  source : option (option string)
}.

Record virDomainDef := {
  def_name : string;
  def_id : Z;
  placement_mode : virDomainCpuPlacementMode;
  cpumask : option virBitmap;
  cputune : virDomainCputune;
  numa : virDomainNuma;
  vcpus : list virDomainVcpuDef;
  nets : list virDomainNetDef;
  consoles : list virDomainChrDef;
  serials : list virDomainChrDef
}.

Inductive virCHThreadType :=
| virCHThreadTypeEmulator
| virCHThreadTypeVcpu
| virCHThreadTypeIO
| virCHThreadTypeUnknown.

(** A thread record of the monitor; [cpuid] is vcpuInfo.cpuid and
    [thrName] is emuInfo.thrName (overlapping members of a C union). *)
Record virCHMonitorThreadInfo := {
  thr_type : virCHThreadType;
  thr_tid : Z;
  cpuid : nat;
  thrName : string
}.

Record virCHMonitor := {
  socketpath : string;
  threads : list virCHMonitorThreadInfo
}.

Record virDomainIOThreadInfo := {
  iothread_id : Z
}.

Record virCHDomainObjPrivate := {
  monitor : option virCHMonitor;
  cgroup : option virCgroup;
  autoCpuset : option virBitmap;
  autoNodeset : option virBitmap;
  machineName : option string;
  pidfile : option string
}.

Record virDomainObj := {
  pid : Z;
  def : virDomainDef;
  state : virDomainState;
  reason : Z;
  privateData : virCHDomainObjPrivate
}.

(** The driver configuration, cfg->stateDir. *)
Record virCHDriver := {
  stateDir : string
}.

#[warnings="-register-all"]
Inductive virJSONValue :=
| VIR_JSON_TYPE_STRING (s : string)
| VIR_JSON_TYPE_OBJECT (members : list (string * virJSONValue))
| VIR_JSON_TYPE_OTHER.

#[global] Instance virCgroupThreadName_eq_dec : EqDecision virCgroupThreadName.
Proof. solve_decision. Defined.
#[global] Instance virCHThreadType_eq_dec : EqDecision virCHThreadType.
Proof. solve_decision. Defined.
#[global] Instance virDomainNumatuneMemMode_eq_dec :
  EqDecision virDomainNumatuneMemMode.
Proof. solve_decision. Defined.
#[global] Instance virDomainState_eq_dec : EqDecision virDomainState.
Proof. solve_decision. Defined.

(** ** Calls to collaborators *)

(** Every call that leaves ch_process.c and acts on the host, with the
    arguments that matter.  VIR_DEBUG and VIR_INFO lines and the release of
    memory are not recorded. *)
Inductive Event :=
| chHostdevPrepareDomainDevices
| chHostdevReAttachDomainDevices
| chHostdevUpdateActiveDomainDevices
| virCHMonitorNew
| virCHMonitorOpen
| virCHMonitorCreateVM
| virCHMonitorBootVM
| virCHMonitorClose
| virCHMonitorRefreshThreadInfo
| virCHMonitorGetInfo
| virCHMonitorGetIOThreads
| virCHDomainGetMachineName
| socket
| connect (sockfd : Z)
| perror (msg : string)
| close (fd : Z)
| virCHMonitorBuildNetJson (net : nat)
| virSocketSendMsgWithFD (sockfd : Z) (payload : string)
                         (fds : list Z) (fd_len : Z)
| virSocketRecvHttpResponse (sockfd : Z)
| chSetupCgroup
| chConnectCgroup
| chSetupGlobalCpuCgroup
| chRemoveCgroup
| chInterfaceStartDevices
| virCgroupNewThread (nameval : virCgroupThreadName) (id : Z)
| chSetupCgroupCpusetCpus (group : option virCgroup) (mask : virBitmap)
| virCgroupSetCpusetMems (group : option virCgroup) (mems : string)
| chSetupCgroupVcpuBW (group : option virCgroup) (period quota : Z)
| virCgroupAddThread (group : option virCgroup) (pid : Z)
| virCgroupRemove (group : virCgroup)
| virProcessSetAffinity (pid : Z) (map : virBitmap)
| virProcessSetScheduler (pid : Z) (policy priority : Z)
| virDomainObjSave
| unlink (path : string)
| g_usleep (usec : Z)
| virCHDomainObjRestoreJob
| virCHDomainObjBeginJob
| virCHDomainObjEndJob
| virCHDomainRemoveInactive
| virCHDomainRemoveInactiveJob
| virDomainObjEndAPI
| virIdentitySetCurrent
| virReportError (code : virErrorNumber) (msg : string)
| virReportSystemError (msg : string)
| VIR_ERROR (msg : string)
| VIR_WARN (msg : string).

(** A call together with the integer it returned (0 for a call whose
    result is void, a pointer or not an integer). *)
Record Entry := {
  ev : Event;
  res : Z
}.

(** What the collaborators answer.  [outcome e tr] is the integer call [e]
    returns after the calls [tr], and [errno tr] the value of errno after
    them; the members from [monitor_new] to [thread_cgroup] give the data
    a call hands back besides (the new monitor, the thread records, the
    JSON payload and descriptors of a network device, the cgroup handle
    stored in priv->cgroup or in the local [cgroup]), again as a function
    of the calls made so far, the call itself included; the others are
    helpers of libvirt that only read their arguments. *)
Record Host := {
  outcome : Event -> list Entry -> Z;
  errno : list Entry -> Z;
  monitor_new : list Entry -> option virCHMonitor;
  monitor_open : list Entry -> option virCHMonitor;
  monitor_threads : list Entry -> list virCHMonitorThreadInfo;
  monitor_info : list Entry -> virJSONValue;
  monitor_iothreads : list Entry -> list virDomainIOThreadInfo;
  machine_name : list Entry -> option string;
  net_json : list Entry -> string * list Z;
  domain_cgroup : list Entry -> option virCgroup;
  thread_cgroup : list Entry -> option virCgroup;
  virCgroupHasController : option virCgroup -> virCgroupController -> bool;
  virHostCPUHasBitmap : bool;
  virHostCPUGetOnlineBitmap : option virBitmap;
  virBitmapEqual : option virBitmap -> option virBitmap -> bool;
  virDomainNumatuneMaybeGetNodeset :
    virDomainNuma -> option virBitmap -> Z * option virBitmap;
  virNumaNodesetToCPUset : option virBitmap -> Z * option virBitmap;
  virDomainNumatuneMaybeFormatNodeset :
    virDomainNuma -> option virBitmap -> Z * option string;
  virCHMonitorGetThreadInfo :
    option virCHMonitor -> list virCHMonitorThreadInfo;
  virCHDomainHasVcpuPids : virDomainObj -> bool;
  virDomainObjIsActive : virDomainObj -> bool;
  virStrcpyStatic_sun_path : string -> Z;
  virJSONValueObjectGet : virJSONValue -> string -> option virJSONValue;
  virJSONValueGetString : virJSONValue -> option string;
  HAVE_CPU_AFFINITY : bool
}.

(** ** The world and the program monad *)

Record World := {
  vm : virDomainObj;
  trace : list Entry
}.

(** How a statement ends: it falls through to the next one, or the
    enclosing function returns.  A [goto label] is written as the code at
    the label, which ends in a return, applied to the locals it reads. *)
Inductive Flow (A : Type) :=
| Next (a : A)
| Return (r : Z).
Arguments Next {A} a.
Arguments Return {A} r.

Definition Stmt (A : Type) : Type := World -> Flow A * World.

(** A whole C function returning int. *)
Definition Fn : Type := World -> Z * World.

Definition pure {A} (a : A) : Stmt A := fun w => (Next a, w).

Definition bind {A B} (m : Stmt A) (k : A -> Stmt B) : Stmt B :=
  fun w =>
    match m w with
    | (Next a, w') => k a w'
    | (Return r, w') => (Return r, w')
    end.

Declare Scope stmt_scope.
Delimit Scope stmt_scope with stmt.
Notation "x <- m ;; k" := (bind m (fun x => k))
  (at level 100, m at next level, right associativity) : stmt_scope.
Notation "m ;; k" := (bind m (fun _ => k))
  (at level 100, right associativity) : stmt_scope.
Local Open Scope stmt_scope.

Definition return_ {A} (r : Z) : Stmt A := fun w => (Return r, w).

(** [if (c) s;] *)
Definition when (c : bool) (s : Stmt unit) : Stmt unit :=
  if c then s else pure tt.

(** [for] over the indices or elements [l], in order. *)
Fixpoint for_each {A} (l : list A) (s : A -> Stmt unit) : Stmt unit :=
  match l with
  | [] => pure tt
  | x :: l' => s x ;; for_each l' s
  end.

(** A function body.  Every body of this file ends in [return_]; the value
    for falling off its end is never produced. *)
Definition body (b : Stmt unit) : Fn :=
  fun w =>
    match b w with
    | (Return r, w') => (r, w')
    | (Next _, w') => (0, w')
    end.

Definition read {A} (f : virDomainObj -> A) : Stmt A :=
  fun w => (Next (f (vm w)), w).

Definition write (f : virDomainObj -> virDomainObj) : Stmt unit :=
  fun w => (Next tt, {| vm := f (vm w); trace := trace w |}).

Definition record (e : Event) (r : Z) (w : World) : World :=
  {| vm := vm w; trace := trace w ++ [{| ev := e; res := r |}] |}.

(** ** Field updates of the domain object *)

Definition set_priv (f : virCHDomainObjPrivate -> virCHDomainObjPrivate)
    (d : virDomainObj) : virDomainObj :=
  {| pid := pid d; def := def d; state := state d; reason := reason d;
     privateData := f (privateData d) |}.

Definition set_def (f : virDomainDef -> virDomainDef)
    (d : virDomainObj) : virDomainObj :=
  {| pid := pid d; def := f (def d); state := state d; reason := reason d;
     privateData := privateData d |}.

Definition set_pid (p : Z) (d : virDomainObj) : virDomainObj :=
  {| pid := p; def := def d; state := state d; reason := reason d;
     privateData := privateData d |}.

Definition with_monitor (m : option virCHMonitor)
    (p : virCHDomainObjPrivate) : virCHDomainObjPrivate :=
  {| monitor := m; cgroup := cgroup p; autoCpuset := autoCpuset p;
     autoNodeset := autoNodeset p; machineName := machineName p;
     pidfile := pidfile p |}.

Definition with_cgroup (c : option virCgroup)
    (p : virCHDomainObjPrivate) : virCHDomainObjPrivate :=
  {| monitor := monitor p; cgroup := c; autoCpuset := autoCpuset p;
     autoNodeset := autoNodeset p; machineName := machineName p;
     pidfile := pidfile p |}.

Definition with_machineName (n : option string)
    (p : virCHDomainObjPrivate) : virCHDomainObjPrivate :=
  {| monitor := monitor p; cgroup := cgroup p; autoCpuset := autoCpuset p;
     autoNodeset := autoNodeset p; machineName := n;
     pidfile := pidfile p |}.

Definition with_threads (l : list virCHMonitorThreadInfo)
    (m : virCHMonitor) : virCHMonitor :=
  {| socketpath := socketpath m; threads := l |}.

Definition with_id (i : Z) (d : virDomainDef) : virDomainDef :=
  {| def_name := def_name d; def_id := i;
     placement_mode := placement_mode d; cpumask := cpumask d;
     cputune := cputune d; numa := numa d; vcpus := vcpus d;
     nets := nets d; consoles := consoles d; serials := serials d |}.

Definition with_vcpus (l : list virDomainVcpuDef)
    (d : virDomainDef) : virDomainDef :=
  {| def_name := def_name d; def_id := def_id d;
     placement_mode := placement_mode d; cpumask := cpumask d;
     cputune := cputune d; numa := numa d; vcpus := l;
     nets := nets d; consoles := consoles d; serials := serials d |}.

Definition with_nets (l : list virDomainNetDef)
    (d : virDomainDef) : virDomainDef :=
  {| def_name := def_name d; def_id := def_id d;
     placement_mode := placement_mode d; cpumask := cpumask d;
     cputune := cputune d; numa := numa d; vcpus := vcpus d;
     nets := l; consoles := consoles d; serials := serials d |}.

Definition with_consoles (l : list virDomainChrDef)
    (d : virDomainDef) : virDomainDef :=
  {| def_name := def_name d; def_id := def_id d;
     placement_mode := placement_mode d; cpumask := cpumask d;
     cputune := cputune d; numa := numa d; vcpus := vcpus d;
     nets := nets d; consoles := l; serials := serials d |}.

Definition with_serials (l : list virDomainChrDef)
    (d : virDomainDef) : virDomainDef :=
  {| def_name := def_name d; def_id := def_id d;
     placement_mode := placement_mode d; cpumask := cpumask d;
     cputune := cputune d; numa := numa d; vcpus := vcpus d;
     nets := nets d; consoles := consoles d; serials := l |}.

Definition with_tid (t : Z) (v : virDomainVcpuDef) : virDomainVcpuDef :=
  {| online := online v; vcpu_cpumask := vcpu_cpumask v; sched := sched v;
     tid := t |}.

(** Modelled from the spec: virDomainObjSetState (src/conf/domain_conf.c) is
    not among the sources; it "transitions state to [st] with the supplied
    reason". *)
Definition virDomainObjSetState (st : virDomainState) (rsn : Z)
    (d : virDomainObj) : virDomainObj :=
  {| pid := pid d; def := def d; state := st; reason := rsn;
     privateData := privateData d |}.

(** Calling a function of this file from a statement. *)
Definition invoke (f : Fn) : Stmt Z :=
  fun w => let (r, w') := f w in (Next r, w').

(** A C function returning void. *)
Definition VoidFn : Type := World -> World.

Definition void_body (b : Stmt unit) : VoidFn := fun w => snd (b w).

Definition invoke_void (f : VoidFn) : Stmt unit :=
  fun w => (Next tt, f w).

(** ** The functions of ch_process.c *)

Section Process.

Variable host : Host.
Variable driver : virCHDriver.

(** A call to a collaborator that returns an int: the host answers, the
    call and its answer are appended to the record. *)
Definition call (e : Event) : Stmt Z :=
  fun w => let r := outcome host e (trace w) in (Next r, record e r w).

(** A call whose result is void, ignored, or not an int. *)
Definition emit (e : Event) : Stmt unit :=
  fun w => (Next tt, record e 0 w).

(** The data the host hands back for the calls made so far. *)
Definition query {A} (f : list Entry -> A) : Stmt A :=
  fun w => (Next (f (trace w)), w).

Definition priv_monitor (d : virDomainObj) : option virCHMonitor :=
  monitor (privateData d).

(** *** chProcessRemoveDomainStatus *)

Definition chProcessRemoveDomainStatus : VoidFn :=
  void_body (
    name <- read (fun d => def_name (def d)) ;;
    let file := (stateDir driver +:+ "/" +:+ name +:+ ".xml")%string in
    r <- call (unlink file) ;;
    e <- query (errno host) ;;
    when ((r <? 0) && negb (e =? ENOENT) && negb (e =? ENOTDIR))
         (emit (VIR_WARN "Failed to remove domain XML for %s: %s")) ;;
    pf <- read (fun d => pidfile (privateData d)) ;;
    match pf with
    | Some p =>
        r <- call (unlink p) ;;
        e <- query (errno host) ;;
        when ((r <? 0) && negb (e =? ENOENT))
             (emit (VIR_WARN "Failed to remove PID file for %s: %s"))
    | None => pure tt
    end).

(** *** virCHProcessStop *)

(** The [retry:] loop of virCHProcessStop, entered with the current value
    of the local [retries].  [retries++ < 5] is evaluated only when the
    removal answered -EBUSY. *)
Equations? virCHProcessStop_retry (retries : nat) (w : World) : World
  by wf (5 - retries)%nat lt :=
virCHProcessStop_retry retries w
  with outcome host chRemoveCgroup (trace w) := {
  | ret with (ret <? 0), (ret =? - EBUSY), lt_dec retries 5 := {
    | false, _, _ := record chRemoveCgroup ret w
    | true, true, left _ :=
        virCHProcessStop_retry (S retries)
          (record (g_usleep (200 * 1000)) 0 (record chRemoveCgroup ret w))
    | true, _, _ :=
        record (VIR_WARN "Failed to remove cgroup for %s") 0
               (record chRemoveCgroup ret w) } }.
Proof. lia. Qed.

Definition virCHProcessStop (reason : virDomainShutoffReason) : Fn :=
  body (
    mon <- read priv_monitor ;;
    when (bool_decide (mon <> None))
         (emit virCHMonitorClose ;;
          write (set_priv (with_monitor None))) ;;
    emit chHostdevReAttachDomainDevices ;;
    invoke_void (virCHProcessStop_retry 0) ;;
    write (set_pid (-1)) ;;
    write (set_def (with_id (-1))) ;;
    invoke_void chProcessRemoveDomainStatus ;;
    write (virDomainObjSetState VIR_DOMAIN_SHUTOFF
                                (shutoff_reason_int reason)) ;;
    return_ 0).

(** *** virCHProcessConnectMonitor, virCHProcessGetAllCpuAffinity *)

Definition virCHProcessConnectMonitor : Stmt (option virCHMonitor) :=
  emit virCHMonitorNew ;;
  query (monitor_new host).

(** Returns the int result and what [*cpumapRet] holds afterwards. *)
Definition virCHProcessGetAllCpuAffinity : Z * option virBitmap :=
  if negb (virHostCPUHasBitmap host) then (0, None)
  else match virHostCPUGetOnlineBitmap host with
       | None => (-1, None)
       | Some online_map => (0, Some online_map)
       end.

(** *** virCHProcessInitCpuAffinity

    Both branches of the preprocessor conditional, [HAVE_CPU_AFFINITY]
    standing for defined(HAVE_SCHED_GETAFFINITY) ||
    defined(HAVE_BSD_CPU_AFFINITY); virBitmapNewCopy is taken to return
    the copy. *)
Definition virCHProcessInitCpuAffinity : Fn :=
  body (
    if HAVE_CPU_AFFINITY host then
      vm_pid <- read pid ;;
      d <- read def ;;
      priv <- read privateData ;;
      when (vm_pid =? 0)
           (emit (virReportError VIR_ERR_INTERNAL_ERROR
                    "Cannot setup CPU affinity until process is started") ;;
            return_ (-1)) ;;
      cpumapToSet <-
        (if (node_count (numa d) <=? 1) &&
            bool_decide (numatune_mode (numa d)
                         = Some VIR_DOMAIN_NUMATUNE_MEM_STRICT)
         then
           let (r1, nodeset) :=
             virDomainNumatuneMaybeGetNodeset host (numa d)
                                              (autoNodeset priv) in
           when (r1 <? 0) (return_ (-1)) ;;
           let (r2, cpus) := virNumaNodesetToCPUset host nodeset in
           when (r2 <? 0) (return_ (-1)) ;;
           pure cpus
         else
           match emulatorpin (cputune d) with
           | Some pin => pure (Some pin)
           | None =>
               let (r, all) := virCHProcessGetAllCpuAffinity in
               when (r <? 0) (return_ (-1)) ;;
               pure all
           end) ;;
      match cpumapToSet with
      | Some m =>
          r <- call (virProcessSetAffinity vm_pid m) ;;
          when (r <? 0) (return_ (-1))
      | None => pure tt
      end ;;
      return_ 0
    else
      return_ 0).

(** *** virCHProcessSetupPid *)

(** The code at [cleanup:], for the values of the locals [cgroup] and
    [ret] at the jump. *)
Definition virCHProcessSetupPid_cleanup
    (group : option virCgroup) (ret : Z) : Stmt unit :=
  match group with
  | Some g => when (ret <? 0) (emit (virCgroupRemove g))
  | None => pure tt
  end ;;
  return_ ret.

Definition virCHProcessSetupPid
    (pid : Z) (nameval : virCgroupThreadName) (id : Z)
    (cpumask_arg : option virBitmap) (period quota : Z)
    (sched : option virDomainThreadSchedParam) : Fn :=
  let cleanup := virCHProcessSetupPid_cleanup in
  let ret := -1 in
  body (
    priv <- read privateData ;;
    d <- read def ;;
    let has := virCgroupHasController host (cgroup priv) in
    let bandwidth := negb (period =? 0) || negb (quota =? 0) in
    when (bandwidth && negb (has VIR_CGROUP_CONTROLLER_CPU))
         (emit (virReportError VIR_ERR_CONFIG_UNSUPPORTED
                  "cgroup cpu is required for scheduler tuning") ;;
          cleanup None ret) ;;
    (* Infer which cpumask shall be used. *)
    masks <-
      match cpumask_arg with
      | Some m => pure (Some m, None)
      | None =>
          match placement_mode d with
          | VIR_DOMAIN_CPU_PLACEMENT_MODE_AUTO =>
              pure (autoCpuset priv, None)
          | _ =>
              match cpumask d with
              | Some m => pure (Some m, None)
              | None =>
                  let (r, hostcpumap) := virCHProcessGetAllCpuAffinity in
                  when (r <? 0) (cleanup None ret) ;;
                  pure (None, hostcpumap)
              end
          end
      end ;;
    let use_cpumask : option virBitmap := fst masks in
    let affinity_cpumask : option virBitmap := snd masks in
    group <-
      (if has VIR_CGROUP_CONTROLLER_CPU || has VIR_CGROUP_CONTROLLER_CPUSET
       then
         mem_mask <-
           (if bool_decide (numatune_mode (numa d)
                            = Some VIR_DOMAIN_NUMATUNE_MEM_STRICT)
            then
              let (r, mm) :=
                virDomainNumatuneMaybeFormatNodeset host (numa d)
                                                    (autoNodeset priv) in
              when (r <? 0) (cleanup None ret) ;;
              pure mm
            else pure None) ;;
         r <- call (virCgroupNewThread nameval id) ;;
         group <- query (thread_cgroup host) ;;
         when (r <? 0) (cleanup group ret) ;;
         when (has VIR_CGROUP_CONTROLLER_CPUSET)
              (match use_cpumask with
               | Some m =>
                   r <- call (chSetupCgroupCpusetCpus group m) ;;
                   when (r <? 0) (cleanup group ret)
               | None => pure tt
               end ;;
               match mem_mask with
               | Some mm =>
                   r <- call (virCgroupSetCpusetMems group mm) ;;
                   when (r <? 0) (cleanup group ret)
               | None => pure tt
               end) ;;
         when bandwidth
              (r <- call (chSetupCgroupVcpuBW group period quota) ;;
               when (r <? 0) (cleanup group ret)) ;;
         (* Move the thread to the sub dir *)
         r <- call (virCgroupAddThread group pid) ;;
         when (r <? 0) (cleanup group ret) ;;
         pure group
       else pure None) ;;
    let affinity_cpumask :=
      match affinity_cpumask with
      | None => use_cpumask
      | Some m => Some m
      end in
    (* Setup legacy affinity. *)
    match affinity_cpumask with
    | Some m =>
        r <- call (virProcessSetAffinity pid m) ;;
        when (r <? 0) (cleanup group ret)
    | None => pure tt
    end ;;
    (* Set scheduler type and priority, but not for the main thread. *)
    match sched with
    | Some s =>
        when (negb (bool_decide (nameval = VIR_CGROUP_THREAD_EMULATOR)))
             (r <- call (virProcessSetScheduler pid (policy s)
                                                (priority s)) ;;
              when (r <? 0) (cleanup group ret))
    | None => pure tt
    end ;;
    cleanup group 0).

(** *** IOThreads and emulator threads *)

Definition virCHProcessSetupIOThread (iothread : virDomainIOThreadInfo)
    : Fn :=
  fun w =>
    let priv := privateData (vm w) in
    let d := def (vm w) in
    virCHProcessSetupPid (iothread_id iothread)
                         VIR_CGROUP_THREAD_IOTHREAD
                         (iothread_id iothread)
                         (autoCpuset priv)
                         (iothread_period (cputune d))
                         (iothread_quota (cputune d))
                         None w.

Definition virCHProcessSetupIOThreads : Fn :=
  body (
    emit virCHMonitorGetIOThreads ;;
    iothreads <- query (monitor_iothreads host) ;;
    for_each iothreads (fun io =>
      r <- invoke (virCHProcessSetupIOThread io) ;;
      when (r <? 0) (return_ (-1))) ;;
    return_ 0).

Definition virCHProcessSetupEmulatorThread (tid : Z) : Fn :=
  fun w =>
    let d := def (vm w) in
    virCHProcessSetupPid tid VIR_CGROUP_THREAD_EMULATOR 0
                         (emulatorpin (cputune d))
                         (emulator_period (cputune d))
                         (emulator_quota (cputune d))
                         (emulatorsched (cputune d)) w.

(** priv->monitor->threads; the C code reads through priv->monitor
    without a check, an absent monitor is given no threads here. *)
Definition monitor_thread_list (d : virDomainObj)
    : list virCHMonitorThreadInfo :=
  match priv_monitor d with
  | Some m => threads m
  | None => []
  end.

Definition virCHProcessSetupEmulatorThreads : Fn :=
  body (
    nthreads <- read (fun d => length (monitor_thread_list d)) ;;
    for_each (seq 0 nthreads) (fun i =>
      ths <- read monitor_thread_list ;;
      match ths !! i with
      | Some th =>
          when (bool_decide (thr_type th = virCHThreadTypeEmulator))
               (r <- invoke (virCHProcessSetupEmulatorThread (thr_tid th)) ;;
                when (r <? 0) (return_ (-1)))
      | None => pure tt
      end) ;;
    return_ 0).

(** *** Console paths and run state from the monitor's info *)

(** [chr = array[0]; if (chr && chr->source) chr->source->data.file.path =
    path].  The C code indexes the array without looking at its length;
    an empty array is left as it is here. *)
Definition virCHProcessUpdateConsoleDevice_set_path
    (path : string) (chrs : list virDomainChrDef) : list virDomainChrDef :=
  match chrs with
  | chr :: rest =>
      match source chr with
      | Some _ => {| source := Some (Some path) |} :: rest
      | None => chr :: rest
      end
  | [] => []
  end.

Definition virCHProcessUpdateConsoleDevice
    (config : option virJSONValue) (device : string) : VoidFn :=
  void_body (
    match config with
    | None => return_ 0
    | Some config =>
        match virJSONValueObjectGet host config device with
        | None => return_ 0
        | Some dev =>
            match virJSONValueObjectGet host dev "file" with
            | None => return_ 0
            | Some file =>
                match virJSONValueGetString host file with
                | None => return_ 0
                | Some path =>
                    let set := virCHProcessUpdateConsoleDevice_set_path path in
                    if String.eqb device "console" then
                      write (set_def (fun d =>
                               with_consoles (set (consoles d)) d))
                    else if String.eqb device "serial" then
                      write (set_def (fun d =>
                               with_serials (set (serials d)) d))
                    else pure tt
                end
            end
        end
    end).

Definition virCHProcessUpdateConsole (info : virJSONValue) : VoidFn :=
  void_body (
    match virJSONValueObjectGet host info "config" with
    | None => return_ 0
    | Some config =>
        invoke_void (virCHProcessUpdateConsoleDevice (Some config)
                                                     "console") ;;
        invoke_void (virCHProcessUpdateConsoleDevice (Some config)
                                                     "serial")
    end).

(** STREQ on a [value] that is not a string is a fault in C; no branch is
    taken here. *)
Definition virCHProcessUpdateStatus (info : virJSONValue) : VoidFn :=
  void_body (
    match virJSONValueObjectGet host info "state" with
    | None => return_ 0
    | Some st =>
        match virJSONValueGetString host st with
        | None => pure tt
        | Some value =>
            if String.eqb value "Created" then
              write (virDomainObjSetState VIR_DOMAIN_NOSTATE 0)
            else if String.eqb value "Running" then
              write (virDomainObjSetState VIR_DOMAIN_RUNNING 0)
            else if String.eqb value "Shutdown" then
              write (virDomainObjSetState VIR_DOMAIN_SHUTDOWN 0)
            else if String.eqb value "Paused" then
              write (virDomainObjSetState VIR_DOMAIN_PMSUSPENDED 0)
            else pure tt
        end
    end).

Definition virCHProcessUpdateInfo : Fn :=
  body (
    r <- call virCHMonitorGetInfo ;;
    when (r <? 0) (return_ (-1)) ;;
    info <- query (monitor_info host) ;;
    invoke_void (virCHProcessUpdateStatus info) ;;
    invoke_void (virCHProcessUpdateConsole info) ;;
    return_ 0).

(** *** vCPUs *)

(** virDomainDefGetVcpu answers NULL past the end of the roster and the C
    code would fault on it; no placement is made here and -1 returned.
    virCHProcessSetupVcpus only passes indices below maxvcpus. *)
Definition virCHProcessSetupVcpu (vcpuid : nat) : Fn :=
  fun w =>
    let d := def (vm w) in
    match vcpus d !! vcpuid with
    | Some vcpu =>
        virCHProcessSetupPid (tid vcpu) VIR_CGROUP_THREAD_VCPU
                             (Z.of_nat vcpuid) (vcpu_cpumask vcpu)
                             (period (cputune d)) (quota (cputune d))
                             (Some (sched vcpu)) w
    | None => (-1, w)
    end.

(** A reported cpuid past the end of the roster is a fault in C; the
    roster is left as it is here. *)
Definition virCHProcessSetupVcpuPids : Fn :=
  body (
    info <- read (fun d => virCHMonitorGetThreadInfo host (priv_monitor d)) ;;
    for_each info (fun th =>
      if bool_decide (thr_type th = virCHThreadTypeVcpu) then
        write (set_def (fun d =>
                 with_vcpus (alter (with_tid (thr_tid th)) (cpuid th)
                                   (vcpus d)) d))
      else pure tt) ;;
    return_ 0).

Definition virCHProcessSetupVcpus : Fn :=
  body (
    d <- read def ;;
    priv <- read privateData ;;
    let maxvcpus := length (vcpus d) in
    when ((negb (period (cputune d) =? 0) || negb (quota (cputune d) =? 0))
          && negb (virCgroupHasController host (cgroup priv)
                                          VIR_CGROUP_CONTROLLER_CPU))
         (emit (virReportError VIR_ERR_CONFIG_UNSUPPORTED
                  "cgroup cpu is required for scheduler tuning") ;;
          return_ (-1)) ;;
    invoke virCHProcessSetupVcpuPids ;;
    has_pids <- read (virCHDomainHasVcpuPids host) ;;
    when (negb has_pids)
         ((* If any CPU has custom affinity that differs from the
             VM default affinity, we must reject it *)
          for_each (seq 0 maxvcpus) (fun i =>
            d <- read def ;;
            match vcpus d !! i with
            | Some vcpu =>
                if negb (online vcpu) then pure tt
                else
                  when (bool_decide (vcpu_cpumask vcpu <> None) &&
                        negb (virBitmapEqual host (cpumask d)
                                             (vcpu_cpumask vcpu)))
                       (emit (virReportError VIR_ERR_OPERATION_INVALID
                                "cpu affinity is not supported") ;;
                        return_ (-1))
            | None => pure tt
            end) ;;
          return_ 0) ;;
    for_each (seq 0 maxvcpus) (fun i =>
      d <- read def ;;
      match vcpus d !! i with
      | Some vcpu =>
          if negb (online vcpu) then pure tt
          else
            r <- invoke (virCHProcessSetupVcpu i) ;;
            when (r <? 0) (return_ (-1))
      | None => pure tt
      end) ;;
    return_ 0).

(** *** virCHProcessSetupThreads *)

(** Modelled from the spec: virCHMonitorRefreshThreadInfo
    (src/ch/ch_monitor.c) is not among the sources; it "replaces any
    previous cache" of thread records of the connection and "returns a
    non-negative count or a failure indicator". *)
Definition virCHMonitorRefreshThreadInfo_call : Stmt Z :=
  r <- call virCHMonitorRefreshThreadInfo ;;
  ths <- query (monitor_threads host) ;;
  write (set_priv (fun p =>
           with_monitor (with_threads ths <$> monitor p) p)) ;;
  pure r.

Definition virCHProcessSetupThreads : Fn :=
  body (
    ret <- virCHMonitorRefreshThreadInfo_call ;;
    when (ret <=? 0) (return_ ret) ;;
    ret <- invoke virCHProcessSetupEmulatorThreads ;;
    ret <- (if ret =? 0 then invoke virCHProcessSetupIOThreads
            else pure ret) ;;
    ret <- (if ret =? 0 then invoke virCHProcessSetupVcpus
            else pure ret) ;;
    ret <- (if ret =? 0 then call virDomainObjSave else pure ret) ;;
    return_ ret).

(** *** chProcessAddNetworkDevices *)

Definition CRLF : string :=
  String "013"%char (String "010"%char EmptyString).

(** The HTTP headers for the AddNet API request. *)
Definition add_net_http_headers : string :=
  ("PUT /api/v1/vm.add-net HTTP/1.1" +:+ CRLF +:+
   "Host: localhost" +:+ CRLF +:+
   "Content-Type: application/json" +:+ CRLF)%string.

(** The array [fds] after malloc, memset(-1) and virCHMonitorBuildNetJson:
    [fd_len] descriptors, those the collaborator stored and -1 beyond. *)
Definition net_fds (fd_len : Z) (stored : list Z) : list Z :=
  take (Z.to_nat fd_len) (stored ++ replicate (Z.to_nat fd_len) (-1)).

(** The code at [err:]. *)
Definition chProcessAddNetworkDevices_err (mon_sockfd : Z) : Stmt unit :=
  emit (close mon_sockfd) ;;
  return_ (-1).

(** The body of the loop over the network devices, for device [i]. *)
Definition chProcessAddNetworkDevices_net (mon_sockfd : Z) (i : nat)
    : Stmt unit :=
  let err := chProcessAddNetworkDevices_err in
  d <- read def ;;
  match nets d !! i with
  | None => pure tt
  | Some net =>
      fd_len <-
        (if queues net =? 0 then
           (* "queues" here refers to Queue Pairs. When zero,
              initialize queue pairs to 1. *)
           write (set_def (fun d =>
                    with_nets (<[i := {| queues := 1 |}]> (nets d)) d)) ;;
           pure 1
         else pure (queues net)) ;;
      r <- call (virCHMonitorBuildNetJson i) ;;
      built <- query (net_json host) ;;
      let payload := fst built in
      let fds := net_fds fd_len (snd built) in
      when (r <? 0)
           (emit (virReportError VIR_ERR_INTERNAL_ERROR
                    "Failed to build net json") ;;
            err mon_sockfd) ;;
      let payload :=
        (add_net_http_headers +:+
         "Content-Length: " +:+ pretty (String.length payload) +:+
         CRLF +:+ CRLF +:+ payload)%string in
      ret <- call (virSocketSendMsgWithFD mon_sockfd payload fds fd_len) ;;
      when (ret <? 0)
           (emit (virReportError VIR_ERR_INTERNAL_ERROR
                    "Failed to Send Network FDs to CH") ;;
            err mon_sockfd) ;;
      (* Close sent Tap FDs in Libvirt *)
      for_each fds (fun fd => emit (close fd)) ;;
      (* Process the response from CH *)
      http_res <- call (virSocketRecvHttpResponse mon_sockfd) ;;
      when (http_res <? 0)
           (emit (VIR_ERROR "Failed while receiving response from CH") ;;
            err mon_sockfd) ;;
      when (negb (http_res =? 204) && negb (http_res =? 200))
           (emit (VIR_ERROR "Unexpected response from CH") ;;
            err mon_sockfd)
  end.

(** [mon] is priv->monitor and [vmdef] is vm->def at the only call.  The
    arrays nnicindexes/nicindexes are filled by virCHMonitorBuildNetJson
    and read by chSetupCgroup, both collaborators; they are not looked at
    in this file and are left to the host. *)
Definition chProcessAddNetworkDevices (mon : option virCHMonitor) : Fn :=
  body (
    mon_sockfd <- call socket ;;
    when (mon_sockfd <? 0)
         (emit (virReportSystemError "Unable to open UNIX socket") ;;
          return_ (-1)) ;;
    when (virStrcpyStatic_sun_path host (from_option socketpath "" mon) <? 0)
         (emit (virReportError VIR_ERR_INTERNAL_ERROR
                  "UNIX socket path '%1$s' too long") ;;
          return_ (-1)) ;;
    r <- call (connect mon_sockfd) ;;
    when (r =? -1)
         (emit (perror "connect") ;;
          emit (close mon_sockfd) ;;
          return_ (-1)) ;;
    nnets <- read (fun d => length (nets (def d))) ;;
    for_each (seq 0 nnets) (chProcessAddNetworkDevices_net mon_sockfd) ;;
    emit (close mon_sockfd) ;;
    return_ 0).

(** *** virCHProcessStart *)

(** Modelled from the spec: chSetupCgroup and chConnectCgroup
    (src/ch/ch_cgroup.c) are not among the sources; the "domain-level
    handle is created at start" and re-derived on reconnection, and is
    what priv->cgroup holds afterwards. *)
Definition chSetupCgroup_call (e : Event) : Stmt Z :=
  r <- call e ;;
  g <- query (domain_cgroup host) ;;
  write (set_priv (with_cgroup g)) ;;
  pure r.

(** The code at [cleanup:] of virCHProcessStart, for the value of the
    local [ret] at the jump. *)
Definition virCHProcessStart_cleanup (ret : Z) : Stmt unit :=
  when (negb (ret =? 0))
       (invoke (virCHProcessStop VIR_DOMAIN_SHUTOFF_FAILED) ;; pure tt) ;;
  return_ ret.

(** [reason] is a virDomainRunningReason, stored as an int. *)
Definition virCHProcessStart (reason : Z) : Fn :=
  let ret := -1 in
  let cleanup := virCHProcessStart_cleanup in
  body (
    r <- call chHostdevPrepareDomainDevices ;;
    when (r <? 0) (cleanup ret) ;;
    mon <- read priv_monitor ;;
    when (bool_decide (mon = None))
         ((* And we can get the first monitor connection now too *)
          mon <- virCHProcessConnectMonitor ;;
          write (set_priv (with_monitor mon)) ;;
          when (bool_decide (mon = None))
               (emit (virReportError VIR_ERR_INTERNAL_ERROR
                        "failed to create connection to CH socket") ;;
                cleanup ret) ;;
          r <- call virCHMonitorCreateVM ;;
          when (r <? 0)
               (emit (virReportError VIR_ERR_INTERNAL_ERROR
                        "failed to create guest VM") ;;
                cleanup ret)) ;;
    vm_pid <- read pid ;;
    write (set_def (with_id vm_pid)) ;;
    emit virCHDomainGetMachineName ;;
    name <- query (machine_name host) ;;
    write (set_priv (with_machineName name)) ;;
    (* Send NIC FDs with AddNet API. Do this before booting up the Guest *)
    mon <- read priv_monitor ;;
    r <- invoke (chProcessAddNetworkDevices mon) ;;
    when (r <? 0)
         (emit (virReportError VIR_ERR_INTERNAL_ERROR
                  "Failed while setting up Guest Network") ;;
          cleanup ret) ;;
    r <- chSetupCgroup_call chSetupCgroup ;;
    when (r <? 0) (cleanup ret) ;;
    r <- invoke virCHProcessInitCpuAffinity ;;
    when (r <? 0) (cleanup ret) ;;
    (* Bring up netdevs before starting CPUs *)
    r <- call chInterfaceStartDevices ;;
    when (r <? 0) (return_ (-1)) ;;
    r <- call virCHMonitorBootVM ;;
    when (r <? 0)
         (emit (virReportError VIR_ERR_INTERNAL_ERROR
                  "failed to boot guest VM") ;;
          cleanup ret) ;;
    virCHMonitorRefreshThreadInfo_call ;;
    invoke virCHProcessUpdateInfo ;;
    r <- invoke virCHProcessSetupThreads ;;
    when (r <? 0) (cleanup ret) ;;
    r <- call chSetupGlobalCpuCgroup ;;
    when (r <? 0) (cleanup ret) ;;
    write (virDomainObjSetState VIR_DOMAIN_RUNNING reason) ;;
    r <- call virDomainObjSave ;;
    when (r <? 0) (cleanup ret) ;;
    return_ 0).

(** *** Reconnection *)

Definition virCHConnectMonitor : Fn :=
  body (
    emit virCHMonitorOpen ;;
    mon <- query (monitor_open host) ;;
    write (set_priv (with_monitor mon)) ;;
    when (bool_decide (mon = None)) (return_ (-1)) ;;
    return_ 0).

Definition virCHProcessUpdateState : Fn :=
  body (
    r <- invoke virCHProcessUpdateInfo ;;
    when (r <? 0) (return_ (-1)) ;;
    return_ 0).

(** The code at [cleanup:] of virCHProcessReconnect, for the value of the
    local [jobStarted] at the jump. *)
Definition virCHProcessReconnect_cleanup (jobStarted : bool) : Stmt unit :=
  active <- read (virDomainObjIsActive host) ;;
  (if jobStarted then
     when (negb active) (emit virCHDomainRemoveInactive) ;;
     emit virCHDomainObjEndJob
   else
     when (negb active) (emit virCHDomainRemoveInactiveJob)) ;;
  emit virDomainObjEndAPI ;;
  emit virIdentitySetCurrent ;;
  return_ 0.

(** The code at [error:]. *)
Definition virCHProcessReconnect_error (jobStarted : bool) : Stmt unit :=
  active <- read (virDomainObjIsActive host) ;;
  when active
       (invoke (virCHProcessStop VIR_DOMAIN_SHUTOFF_UNKNOWN) ;; pure tt) ;;
  virCHProcessReconnect_cleanup jobStarted.

Definition virCHProcessReconnect : VoidFn :=
  let cleanup := virCHProcessReconnect_cleanup in
  let error := virCHProcessReconnect_error in
  void_body (
    emit virIdentitySetCurrent ;;
    emit virCHDomainObjRestoreJob ;;
    r <- call virCHDomainObjBeginJob ;;
    when (r <? 0) (error false) ;;
    let jobStarted := true in
    r <- call chHostdevUpdateActiveDomainDevices ;;
    when (r <? 0) (error jobStarted) ;;
    r <- invoke virCHConnectMonitor ;;
    when (r <? 0) (error jobStarted) ;;
    obj_pid <- read pid ;;
    write (set_def (with_id obj_pid)) ;;
    emit virCHDomainGetMachineName ;;
    name <- query (machine_name host) ;;
    write (set_priv (with_machineName name)) ;;
    when (bool_decide (name = None)) (error jobStarted) ;;
    r <- chSetupCgroup_call chConnectCgroup ;;
    when (r <? 0) (error jobStarted) ;;
    r <- invoke virCHProcessUpdateState ;;
    when (r <? 0) (error jobStarted) ;;
    st <- read state ;;
    rsn <- read reason ;;
    (* In case the domain shutdown while we were not running,
       we need to finish the shutdown process. *)
    when (bool_decide (st = VIR_DOMAIN_SHUTDOWN) ||
          (bool_decide (st = VIR_DOMAIN_PAUSED) &&
           (rsn =? VIR_DOMAIN_PAUSED_SHUTTING_DOWN)))
         (invoke (virCHProcessStop VIR_DOMAIN_SHUTOFF_DAEMON) ;;
          cleanup jobStarted) ;;
    (* update domain state XML with possibly updated state in virDomainObj *)
    r <- call virDomainObjSave ;;
    when (r <? 0) (error jobStarted) ;;
    cleanup jobStarted).

End Process.

(** ** Vocabulary of the properties *)

(** What a completed virCHProcessStop leaves in the domain object. *)
Definition stopped (reason : virDomainShutoffReason) (d : virDomainObj)
    : virDomainObj :=
  virDomainObjSetState VIR_DOMAIN_SHUTOFF (shutoff_reason_int reason)
    (set_def (with_id (-1))
       (set_pid (-1) (set_priv (with_monitor None) d))).

(** One turn of the retry loop: a removal answered -EBUSY, then the sleep. *)
Definition busy_round : list Entry :=
  [ {| ev := chRemoveCgroup; res := - EBUSY |};
    {| ev := g_usleep 200000; res := 0 |} ].

(** The calls of the whole loop: [n] retries, then the removal whose answer
    [ret] ends it, and the warning when that answer is a failure. *)
Definition retry_entries (n : nat) (ret : Z) : list Entry :=
  concat (replicate n busy_round) ++
  {| ev := chRemoveCgroup; res := ret |} ::
  (if ret <? 0
   then [ {| ev := VIR_WARN "Failed to remove cgroup for %s"; res := 0 |} ]
   else []).

(** What the host answers to the removal made once [i] turns of the loop
    have gone by, the loop having been entered after the calls [tr]. *)
Definition removal_answer (host : Host) (tr : list Entry) (i : nat) : Z :=
  outcome host chRemoveCgroup (tr ++ concat (replicate i busy_round)).

(** The calls of virCHProcessStop before the loop. *)
Definition stop_prefix (d : virDomainObj) : list Entry :=
  (if bool_decide (priv_monitor d <> None)
   then [ {| ev := virCHMonitorClose; res := 0 |} ] else []) ++
  [ {| ev := chHostdevReAttachDomainDevices; res := 0 |} ].

(** Deleting the status artifacts: unlink and warnings only. *)
Definition is_status_cleanup (e : Entry) : bool :=
  match ev e with
  | unlink _ | VIR_WARN _ => true
  | _ => false
  end.

(** An error reported to the caller. *)
Definition is_error_report (e : Entry) : bool :=
  match ev e with
  | virReportError _ _ | virReportSystemError _ => true
  | _ => false
  end.

Definition is_monitor_close (e : Entry) : bool :=
  match ev e with
  | virCHMonitorClose => true
  | _ => false
  end.

Definition is_cgroup_removal (e : Entry) : bool :=
  match ev e with
  | chRemoveCgroup => true
  | _ => false
  end.

Definition is_sleep (e : Entry) : bool :=
  match ev e with
  | g_usleep _ => true
  | _ => false
  end.

(** How many entries of [l] satisfy [p]. *)
Definition count (p : Entry -> bool) (l : list Entry) : nat :=
  length (List.filter p l).

(** The report of a bandwidth request that has no CPU controller. *)
Definition bandwidth_error : Entry :=
  {| ev := virReportError VIR_ERR_CONFIG_UNSUPPORTED
             "cgroup cpu is required for scheduler tuning";
     res := 0 |}.

(** [period || quota] *)
Definition bandwidth_requested (period quota : Z) : bool :=
  negb (period =? 0) || negb (quota =? 0).

(** ** Frames *)

(** [emits P s]: whatever the world, [s] only appends entries, and all of
    them satisfy [P]. *)
Definition emits {R} (P : Entry -> bool) (s : World -> R * World) : Prop :=
  forall w, exists l,
    trace (snd (s w)) = trace w ++ l /\ forallb P l = true.

Definition emits_void (P : Entry -> bool) (f : VoidFn) : Prop :=
  forall w, exists l, trace (f w) = trace w ++ l /\ forallb P l = true.

(** [keeps s]: [s] does not change the domain object. *)
Definition keeps {R} (s : World -> R * World) : Prop :=
  forall w, vm (snd (s w)) = vm w.

(** ** A host and a domain to run the programs on *)

(** libvirt's JSON accessors on the values above. *)
Definition json_object_get (object : virJSONValue) (key : string)
    : option virJSONValue :=
  match object with
  | VIR_JSON_TYPE_OBJECT members =>
      snd <$> List.find (fun m => String.eqb (fst m) key) members
  | _ => None
  end.

Definition json_get_string (value : virJSONValue) : option string :=
  match value with
  | VIR_JSON_TYPE_STRING s => Some s
  | _ => None
  end.

Definition example_thread (ty : virCHThreadType) (t : Z) (c : nat)
    : virCHMonitorThreadInfo :=
  {| thr_type := ty; thr_tid := t; cpuid := c; thrName := "" |}.

(** One emulator thread and two vCPU threads. *)
Definition example_threads : list virCHMonitorThreadInfo :=
  [ example_thread virCHThreadTypeEmulator 100 0;
    example_thread virCHThreadTypeVcpu 101 0;
    example_thread virCHThreadTypeVcpu 102 1 ].

Definition example_monitor : virCHMonitor :=
  {| socketpath := "/run/ch.sock"; threads := [] |}.

(** A host that answers the int-returning calls with [answer], offers the
    cgroup controllers [controllers] and reports the VM state [info]. *)
Definition example_host (answer : Event -> list Entry -> Z)
    (controllers : virCgroupController -> bool) (info : virJSONValue)
    : Host :=
  {| outcome := answer;
     errno := fun _ => ENOENT;
     monitor_new := fun _ => Some example_monitor;
     monitor_open := fun _ => Some example_monitor;
     monitor_threads := fun _ => example_threads;
     monitor_info := fun _ => info;
     monitor_iothreads := fun _ => [ {| iothread_id := 200 |} ];
     machine_name := fun _ => Some "ch-1-vm"%string;
     net_json := fun _ => ("{}"%string, [7]);
     domain_cgroup := fun _ => Some (Cgroup 1);
     thread_cgroup := fun _ => Some (Cgroup 2);
     virCgroupHasController := fun _ c => controllers c;
     virHostCPUHasBitmap := true;
     virHostCPUGetOnlineBitmap := Some 255%N;
     virBitmapEqual := fun a b => bool_decide (a = b);
     virDomainNumatuneMaybeGetNodeset := fun _ nodeset => (0, nodeset);
     virNumaNodesetToCPUset := fun _ => (0, Some 3%N);
     virDomainNumatuneMaybeFormatNodeset := fun _ _ => (0, Some "0"%string);
     virCHMonitorGetThreadInfo := fun m => from_option threads [] m;
     virCHDomainHasVcpuPids :=
       fun d => existsb (fun v => 0 <? tid v) (vcpus (def d));
     virDomainObjIsActive := fun d => negb (def_id (def d) =? -1);
     virStrcpyStatic_sun_path := fun _ => 0;
     virJSONValueObjectGet := json_object_get;
     virJSONValueGetString := json_get_string;
     HAVE_CPU_AFFINITY := true |}.

(** Every call succeeds; the socket is descriptor 5, the hypervisor
    answers 204 and reports three threads. *)
Definition all_succeed (e : Event) (_ : list Entry) : Z :=
  match e with
  | socket => 5
  | virSocketRecvHttpResponse _ => 204
  | virCHMonitorRefreshThreadInfo => 3
  | _ => 0
  end.

Definition info_running : virJSONValue :=
  VIR_JSON_TYPE_OBJECT [ ("state"%string, VIR_JSON_TYPE_STRING "Running") ].

Definition info_shutdown : virJSONValue :=
  VIR_JSON_TYPE_OBJECT [ ("state"%string, VIR_JSON_TYPE_STRING "Shutdown") ].

Definition every_controller (_ : virCgroupController) : bool := true.
Definition no_controller (_ : virCgroupController) : bool := false.

Definition example_vcpu (mask : option virBitmap) : virDomainVcpuDef :=
  {| online := true; vcpu_cpumask := mask;
     sched := {| policy := 0; priority := 0 |}; tid := 0 |}.

Definition example_cputune (period quota : Z) : virDomainCputune :=
  {| period := period; quota := quota;
     emulator_period := 0; emulator_quota := 0;
     iothread_period := 0; iothread_quota := 0;
     emulatorpin := None; emulatorsched := None |}.

(** A domain with two vCPUs, the domain-wide mask {0,1,2,3} and two
    network devices, not running yet. *)
Definition example_def (period quota : Z) : virDomainDef :=
  {| def_name := "vm"; def_id := -1;
     placement_mode := VIR_DOMAIN_CPU_PLACEMENT_MODE_STATIC;
     cpumask := Some 15%N;
     cputune := example_cputune period quota;
     numa := {| node_count := 1; numatune_mode := None |};
     vcpus := [ example_vcpu None; example_vcpu None ];
     nets := [ {| queues := 0 |}; {| queues := 2 |} ];
     consoles := []; serials := [] |}.

Definition example_priv (mon : option virCHMonitor) : virCHDomainObjPrivate :=
  {| monitor := mon; cgroup := None; autoCpuset := None;
     autoNodeset := None; machineName := None;
     pidfile := Some "/run/vm.pid"%string |}.

Definition example_domain (period quota : Z) (mon : option virCHMonitor)
    : virDomainObj :=
  {| pid := 4242; def := example_def period quota;
     state := VIR_DOMAIN_SHUTOFF; reason := 0;
     privateData := example_priv mon |}.

Definition example_world (period quota : Z) (mon : option virCHMonitor)
    : World :=
  {| vm := example_domain period quota mon; trace := [] |}.

(** ** vCPU placement *)

(** The test of the rejection loop of virCHProcessSetupVcpus: an online
    vCPU whose own cpumask is set and differs from the domain-wide one. *)
Definition custom_affinity (host : Host) (d : virDomainDef)
    (vcpu : virDomainVcpuDef) : bool :=
  online vcpu &&
  (bool_decide (vcpu_cpumask vcpu <> None) &&
   negb (virBitmapEqual host (cpumask d) (vcpu_cpumask vcpu))).

Definition affinity_error : Entry :=
  {| ev := virReportError VIR_ERR_OPERATION_INVALID
             "cpu affinity is not supported";
     res := 0 |}.

(** The indices of the online vCPUs of a roster that starts at index [i]. *)
Fixpoint online_from (i : nat) (l : list virDomainVcpuDef) : list nat :=
  match l with
  | [] => []
  | vcpu :: l' =>
      if online vcpu then i :: online_from (S i) l'
      else online_from (S i) l'
  end.

Definition online_vcpus (l : list virDomainVcpuDef) : list nat :=
  online_from 0 l.

(** Placing the vCPUs [ids] one by one with virCHProcessSetupVcpu, in the
    order given; the first placement that fails ends it with -1. *)
Fixpoint place_in_order (host : Host) (ids : list nat) (w : World)
    : Z * World :=
  match ids with
  | [] => (0, w)
  | i :: rest =>
      let (r, w') := virCHProcessSetupVcpu host i w in
      if r <? 0 then (-1, w') else place_in_order host rest w'
  end.

(** The roster after virCHProcessSetupVcpuPids has stored the thread ids
    of the reported vCPU threads. *)
Definition record_tids (info : list virCHMonitorThreadInfo)
    (l : list virDomainVcpuDef) : list virDomainVcpuDef :=
  fold_left
    (fun l th =>
       if bool_decide (thr_type th = virCHThreadTypeVcpu)
       then alter (with_tid (thr_tid th)) (cpuid th) l
       else l)
    info l.

(** Two vCPUs that the placement policy cannot tell apart. *)
Definition same_config (v v' : virDomainVcpuDef) : Prop :=
  online v' = online v /\ vcpu_cpumask v' = vcpu_cpumask v.

(** The first test of virCHProcessSetupVcpus. *)
Definition bandwidth_rejected (host : Host) (d : virDomainObj) : bool :=
  bandwidth_requested (period (cputune (def d))) (quota (cputune (def d)))
  && negb (virCgroupHasController host (cgroup (privateData d))
                                  VIR_CGROUP_CONTROLLER_CPU).

(** The monitor once the three example threads are in its cache. *)
Definition example_monitor_threads : virCHMonitor :=
  {| socketpath := "/run/ch.sock"; threads := example_threads |}.

(** Every call succeeds but virProcessSetAffinity. *)
Definition affinity_fails (e : Event) (tr : list Entry) : Z :=
  match e with
  | virProcessSetAffinity _ _ => -1
  | _ => all_succeed e tr
  end.

(** The cgroup sub-scope of vCPU [i] is created. *)
Definition is_vcpu_scope (i : Z) (e : Entry) : bool :=
  match ev e with
  | virCgroupNewThread VIR_CGROUP_THREAD_VCPU j => j =? i
  | _ => false
  end.

(** ** CPU mask of a placement *)

Definition is_affinity (e : Entry) : bool :=
  match ev e with
  | virProcessSetAffinity _ _ => true
  | _ => false
  end.

(** The precedence virCHProcessSetupPid follows for the mask it gives to
    virProcessSetAffinity: the mask argument; else, under automatic CPU
    placement, priv->autoCpuset as it is; else the domain-wide mask; else
    what virCHProcessGetAllCpuAffinity finds, the online host CPUs. *)
Definition effective_cpumask (host : Host) (cpumask_arg : option virBitmap)
    (d : virDomainObj) : option virBitmap :=
  match cpumask_arg with
  | Some m => Some m
  | None =>
      match placement_mode (def d) with
      | VIR_DOMAIN_CPU_PLACEMENT_MODE_AUTO => autoCpuset (privateData d)
      | VIR_DOMAIN_CPU_PLACEMENT_MODE_STATIC =>
          match cpumask (def d) with
          | Some m => Some m
          | None => snd (virCHProcessGetAllCpuAffinity host)
          end
      end
  end.

Definition is_cpuset (e : Entry) : bool :=
  match ev e with
  | chSetupCgroupCpusetCpus _ _ => true
  | _ => false
  end.

(** The mask virCHProcessSetupPid gives to the cpuset of the thread's
    cgroup sub-scope: the same precedence without the last level. *)
Definition cpuset_cpumask (cpumask_arg : option virBitmap)
    (d : virDomainObj) : option virBitmap :=
  match cpumask_arg with
  | Some m => Some m
  | None =>
      match placement_mode (def d) with
      | VIR_DOMAIN_CPU_PLACEMENT_MODE_AUTO => autoCpuset (privateData d)
      | VIR_DOMAIN_CPU_PLACEMENT_MODE_STATIC => cpumask (def d)
      end
  end.

(** "single-NUMA-node + strict memory binding", the test of
    virCHProcessInitCpuAffinity. *)
Definition single_node_strict (n : virDomainNuma) : bool :=
  (node_count n <=? 1) &&
  bool_decide (numatune_mode n = Some VIR_DOMAIN_NUMATUNE_MEM_STRICT).

(** The precedence in the words of the specification: "explicit per-thread
    mask argument > domain's automatically-computed NUMA-derived mask (when
    single-NUMA-node + strict memory binding) > domain-wide configured
    mask > all online host CPUs fallback". *)
Definition spec_effective_cpumask (host : Host)
    (cpumask_arg : option virBitmap) (d : virDomainObj)
    : option virBitmap :=
  match cpumask_arg with
  | Some m => Some m
  | None =>
      match (if single_node_strict (numa (def d))
             then autoCpuset (privateData d) else None) with
      | Some m => Some m
      | None =>
          match cpumask (def d) with
          | Some m => Some m
          | None => virHostCPUGetOnlineBitmap host
          end
      end
  end.

(** The example domain with a given CPU placement mode, numatune mode and
    automatic CPU set; its domain-wide mask is {0,1,2,3}. *)
Definition placement_domain (mode : virDomainCpuPlacementMode)
    (numatune : option virDomainNumatuneMemMode) (auto : option virBitmap)
    : virDomainObj :=
  {| pid := 4242;
     def := {| def_name := "vm"; def_id := 4242;
               placement_mode := mode;
               cpumask := Some 15%N;
               cputune := example_cputune 0 0;
               numa := {| node_count := 1; numatune_mode := numatune |};
               vcpus := [ example_vcpu None; example_vcpu None ];
               nets := []; consoles := []; serials := [] |};
     state := VIR_DOMAIN_RUNNING; reason := 1;
     privateData :=
       {| monitor := Some example_monitor_threads;
          cgroup := Some (Cgroup 1);
          autoCpuset := auto; autoNodeset := None;
          machineName := Some "ch-1-vm"%string; pidfile := None |} |}.

(** ** Reconnection *)

(** The statements of virCHProcessReconnect up to and including the state
    query virCHProcessUpdateState: it ends in [Next] when the job was
    begun, the host devices, the monitor, the machine name and the cgroup
    were reattached and the query succeeded, and in [Return] when one of
    them failed and the code at [error:] ran. *)
Definition reconnect_reattach (host : Host) (driver : virCHDriver)
    : Stmt unit :=
  let error := virCHProcessReconnect_error host driver in
  emit virIdentitySetCurrent ;;
  emit virCHDomainObjRestoreJob ;;
  r <- call host virCHDomainObjBeginJob ;;
  when (r <? 0) (error false) ;;
  let jobStarted := true in
  r <- call host chHostdevUpdateActiveDomainDevices ;;
  when (r <? 0) (error jobStarted) ;;
  r <- invoke (virCHConnectMonitor host) ;;
  when (r <? 0) (error jobStarted) ;;
  obj_pid <- read pid ;;
  write (set_def (with_id obj_pid)) ;;
  emit virCHDomainGetMachineName ;;
  name <- query (machine_name host) ;;
  write (set_priv (with_machineName name)) ;;
  when (bool_decide (name = None)) (error jobStarted) ;;
  r <- chSetupCgroup_call host chConnectCgroup ;;
  when (r <? 0) (error jobStarted) ;;
  r <- invoke (virCHProcessUpdateState host) ;;
  when (r <? 0) (error jobStarted).

(** The statements of virCHProcessReconnect after the state query. *)
Definition reconnect_finish (host : Host) (driver : virCHDriver)
    : Stmt unit :=
  let cleanup := virCHProcessReconnect_cleanup host in
  let error := virCHProcessReconnect_error host driver in
  let jobStarted := true in
  st <- read state ;;
  rsn <- read reason ;;
  when (bool_decide (st = VIR_DOMAIN_SHUTDOWN) ||
        (bool_decide (st = VIR_DOMAIN_PAUSED) &&
         (rsn =? VIR_DOMAIN_PAUSED_SHUTTING_DOWN)))
       (invoke (virCHProcessStop host driver VIR_DOMAIN_SHUTOFF_DAEMON) ;;
        cleanup jobStarted) ;;
  r <- call host virDomainObjSave ;;
  when (r <? 0) (error jobStarted) ;;
  cleanup jobStarted.

(** The calls at [cleanup:] of a task that began its job: the domain is
    released, and dropped from the list when it is not active. *)
Definition is_release (e : Entry) : bool :=
  match ev e with
  | virCHDomainRemoveInactive
  | virCHDomainObjEndJob
  | virDomainObjEndAPI
  | virIdentitySetCurrent => true
  | _ => false
  end.

(** An answer of the hypervisor that says nothing of its state. *)
Definition info_no_state : virJSONValue := VIR_JSON_TYPE_OBJECT [].

(** A hypervisor that reports "Shutdown" whenever it is asked. *)
Definition reports_shutdown (host : Host) : Prop :=
  exists st,
    (forall tr, virJSONValueObjectGet host (monitor_info host tr) "state"
                = Some st) /\
    virJSONValueGetString host st = Some "Shutdown"%string.

(** A hypervisor that reports "Paused" whenever it is asked. *)
Definition reports_paused (host : Host) : Prop :=
  exists st,
    (forall tr, virJSONValueObjectGet host (monitor_info host tr) "state"
                = Some st) /\
    virJSONValueGetString host st = Some "Paused"%string.

Definition info_paused : virJSONValue :=
  VIR_JSON_TYPE_OBJECT [ ("state"%string, VIR_JSON_TYPE_STRING "Paused") ].

Definition example_driver : virCHDriver :=
  {| stateDir := "/run/libvirt/ch" |}.

(** The example domain as the daemon finds it at startup: process 4242,
    last known state [st] with reason [rsn]. *)
Definition found_domain (st : virDomainState) (rsn : Z) : virDomainObj :=
  {| pid := 4242; def := example_def 0 0;
     state := st; reason := rsn;
     privateData := example_priv None |}.

(** ** Network handoff and boot *)

Definition is_boot (e : Entry) : bool :=
  match ev e with
  | virCHMonitorBootVM => true
  | _ => false
  end.

(** The three calls that hand one network device to the hypervisor. *)
Definition is_handoff (e : Entry) : bool :=
  match ev e with
  | virCHMonitorBuildNetJson _
  | virSocketSendMsgWithFD _ _ _ _
  | virSocketRecvHttpResponse _ => true
  | _ => false
  end.

Definition not_boot (e : Entry) : bool := negb (is_boot e).
Definition not_handoff (e : Entry) : bool := negb (is_handoff e).

(** Neither the boot command nor part of the handoff. *)
Definition plain (e : Entry) : bool := not_boot e && not_handoff e.


(** The entries before the first boot command, and those after it. *)
Fixpoint before_boot (l : list Entry) : list Entry :=
  match l with
  | [] => []
  | e :: l' => if is_boot e then [] else e :: before_boot l'
  end.

Fixpoint after_boot (l : list Entry) : list Entry :=
  match l with
  | [] => []
  | e :: l' => if is_boot e then l' else after_boot l'
  end.

(** Every call succeeds but chInterfaceStartDevices. *)
Definition netdev_fails (e : Event) (tr : list Entry) : Z :=
  match e with
  | chInterfaceStartDevices => -1
  | _ => all_succeed e tr
  end.

(** Every call succeeds but virCHMonitorBootVM. *)
Definition boot_fails (e : Event) (tr : list Entry) : Z :=
  match e with
  | virCHMonitorBootVM => -1
  | _ => all_succeed e tr
  end.

(** The removal of the cgroup always answers -EBUSY. *)
Definition always_busy (e : Event) (tr : list Entry) : Z :=
  match e with
  | chRemoveCgroup => - EBUSY
  | unlink _ => -1
  | _ => all_succeed e tr
  end.

(** ** Vocabulary of the further properties *)

(** [preserves f s]: [s] leaves the part [f] of the domain object as it
    is. *)
Definition preserves {A R} (f : virDomainObj -> A) (s : World -> R * World)
    : Prop :=
  forall w, f (vm (snd (s w))) = f (vm w).

Definition preserves_void {A} (f : virDomainObj -> A) (s : VoidFn) : Prop :=
  forall w, f (vm (s w)) = f (vm w).

(** The domain has a monitor connection. *)
Definition has_monitor (d : virDomainObj) : bool :=
  match priv_monitor d with
  | Some _ => true
  | None => false
  end.

Definition domain_id (d : virDomainObj) : Z := def_id (def d).

Definition is_save (e : Entry) : bool :=
  match ev e with
  | virDomainObjSave => true
  | _ => false
  end.

(** What identifies the running hypervisor process in the domain object:
    its process identifier, the domain id and whether a monitor
    connection is held. *)
Definition identity_of (d : virDomainObj) : Z * Z * bool :=
  (pid d, domain_id d, has_monitor d).

(** Calls of a thread placement, by kind. *)
Definition is_scope_removal (e : Entry) : bool :=
  match ev e with
  | virCgroupRemove _ => true
  | _ => false
  end.

Definition is_scheduler (e : Entry) : bool :=
  match ev e with
  | virProcessSetScheduler _ _ _ => true
  | _ => false
  end.

(** Any call to the cgroup backend made for one thread. *)
Definition is_thread_cgroup_call (e : Entry) : bool :=
  match ev e with
  | virCgroupNewThread _ _
  | chSetupCgroupCpusetCpus _ _
  | virCgroupSetCpusetMems _ _
  | chSetupCgroupVcpuBW _ _ _
  | virCgroupAddThread _ _
  | virCgroupRemove _ => true
  | _ => false
  end.

(** The mask virCHProcessInitCpuAffinity gives to the hypervisor process:
    with a single NUMA node and strict memory binding the CPUs of the
    node set, whatever emulatorpin says; else emulatorpin; else the online
    host CPUs. *)
Definition initial_cpumask (host : Host) (d : virDomainObj)
    : option virBitmap :=
  if single_node_strict (numa (def d)) then
    snd (virNumaNodesetToCPUset host
           (snd (virDomainNumatuneMaybeGetNodeset
                   host (numa (def d)) (autoNodeset (privateData d)))))
  else
    match emulatorpin (cputune (def d)) with
    | Some pin => Some pin
    | None => snd (virCHProcessGetAllCpuAffinity host)
    end.

Definition affinity_unstarted_error : Entry :=
  {| ev := virReportError VIR_ERR_INTERNAL_ERROR
             "Cannot setup CPU affinity until process is started";
     res := 0 |}.

(** Placing the items of [l] one by one with [place], in the order given;
    the first placement that fails ends it with -1. *)
Fixpoint place_each {A} (place : A -> Fn) (l : list A) (w : World)
    : Z * World :=
  match l with
  | [] => (0, w)
  | x :: rest =>
      let (r, w') := place x w in
      if r <? 0 then (-1, w') else place_each place rest w'
  end.

Definition is_emulator_thread (th : virCHMonitorThreadInfo) : bool :=
  bool_decide (thr_type th = virCHThreadTypeEmulator).

(** The thread id the monitor reports for vCPU [c]: that of the last vCPU
    thread record with this cpuid. *)
Definition reported_tid (info : list virCHMonitorThreadInfo) (c : nat)
    : option Z :=
  thr_tid <$>
    last (List.filter
            (fun th => bool_decide (thr_type th = virCHThreadTypeVcpu) &&
                       bool_decide (cpuid th = c))
            info).

Definition store_tid (t : option Z) (v : virDomainVcpuDef)
    : virDomainVcpuDef :=
  match t with
  | Some t => with_tid t v
  | None => v
  end.

(** The run state virCHProcessUpdateStatus sets for a state string of the
    hypervisor; none for any other string. *)
Definition state_of_report (value : string) : option virDomainState :=
  if String.eqb value "Created" then Some VIR_DOMAIN_NOSTATE
  else if String.eqb value "Running" then Some VIR_DOMAIN_RUNNING
  else if String.eqb value "Shutdown" then Some VIR_DOMAIN_SHUTDOWN
  else if String.eqb value "Paused" then Some VIR_DOMAIN_PMSUSPENDED
  else None.

(** A network device once its queue pairs are settled: 0 becomes 1. *)
Definition settled (net : virDomainNetDef) : virDomainNetDef :=
  if queues net =? 0 then {| queues := 1 |} else net.

(** The domain with the network devices [l] in place of its own. *)
Definition with_nets_of (l : list virDomainNetDef) (d : virDomainObj)
    : virDomainObj :=
  set_def (with_nets l) d.

(** The devices of [l] from index [i] up to [j] settled, the others as
    they are. *)
Definition settle_between (i j : nat) (l : list virDomainNetDef)
    : list virDomainNetDef :=
  take i l ++ map settled (take (j - i) (drop i l)) ++ drop j l.

Definition is_connect (e : Entry) : bool :=
  match ev e with
  | connect _ => true
  | _ => false
  end.

(** The run state an answer of the hypervisor stands for, if any. *)
Definition reported_state (host : Host) (info : virJSONValue)
    : option virDomainState :=
  match virJSONValueObjectGet host info "state" with
  | Some st =>
      match virJSONValueGetString host st with
      | Some value => state_of_report value
      | None => None
      end
  | None => None
  end.

(** The calls virCHProcessStop can make. *)
Definition is_stop_call (e : Entry) : bool :=
  match ev e with
  | virCHMonitorClose
  | chHostdevReAttachDomainDevices
  | chRemoveCgroup
  | g_usleep _
  | VIR_WARN _
  | unlink _ => true
  | _ => false
  end.

Definition is_job_begin (e : Entry) : bool :=
  match ev e with
  | virCHDomainObjBeginJob => true
  | _ => false
  end.

Definition is_job_end (e : Entry) : bool :=
  match ev e with
  | virCHDomainObjEndJob => true
  | _ => false
  end.

(** Neither the begin nor the end of a job. *)
Definition outside_job (e : Entry) : bool :=
  negb (is_job_begin e) && negb (is_job_end e).

(** The domain is dropped from the driver's list. *)
Definition is_list_removal (e : Entry) : bool :=
  match ev e with
  | virCHDomainRemoveInactive
  | virCHDomainRemoveInactiveJob => true
  | _ => false
  end.

Definition entry (e : Event) (r : Z) : Entry := {| ev := e; res := r |}.

(** The two steps that confine the hypervisor process and connect its
    network devices on the host side. *)
Definition is_domain_cgroup_setup (e : Entry) : bool :=
  match ev e with
  | chSetupCgroup => true
  | _ => false
  end.

Definition is_netdev_start (e : Entry) : bool :=
  match ev e with
  | chInterfaceStartDevices => true
  | _ => false
  end.

(** A call that is neither the boot command, nor one of the two steps
    above, nor part of a thread placement. *)
Definition quiet_before_boot (e : Entry) : bool :=
  not_boot e && negb (is_domain_cgroup_setup e) && negb (is_netdev_start e)
  && negb (is_thread_cgroup_call e) && negb (is_scheduler e).

Definition quiet_after_boot (e : Entry) : bool :=
  not_boot e && negb (is_domain_cgroup_setup e) && negb (is_netdev_start e).

(** The place of a call in a thread placement that succeeds. *)
Definition placement_rank (e : Entry) : nat :=
  match ev e with
  | virCgroupNewThread _ _ => 0
  | chSetupCgroupCpusetCpus _ _ => 1
  | virCgroupSetCpusetMems _ _ => 2
  | chSetupCgroupVcpuBW _ _ _ => 3
  | virCgroupAddThread _ _ => 4
  | virProcessSetAffinity _ _ => 5
  | virProcessSetScheduler _ _ _ => 6
  | _ => 7
  end.

(** [l] goes up strictly and stays below [bound]. *)
Fixpoint increasing_below (bound : nat) (l : list nat) : bool :=
  match l with
  | [] => true
  | x :: l' =>
      (x <? bound)%nat &&
      match l' with
      | [] => true
      | y :: _ => (x <? y)%nat
      end &&
      increasing_below bound l'
  end.

(** A monitor connection is created, or a VM in it. *)
Definition is_monitor_creation (e : Entry) : bool :=
  match ev e with
  | virCHMonitorNew | virCHMonitorCreateVM => true
  | _ => false
  end.

(** [l] starts with the closes of the descriptors [fds], in order; what
    follows them. *)
Fixpoint after_closes (fds : list Z) (l : list Entry)
    : option (list Entry) :=
  match fds with
  | [] => Some l
  | fd :: fds' =>
      match l with
      | e :: l' =>
          match ev e with
          | close fd' => if fd' =? fd then after_closes fds' l' else None
          | _ => None
          end
      | [] => None
      end
  end.

(** Every send in [l] carries as many descriptors as it announces, and a
    send that did not fail is followed at once by the closes of the
    descriptors it carried and then by the reading of the response. *)
Fixpoint descriptors_closed (l : list Entry) : bool :=
  match l with
  | [] => true
  | e :: l' =>
      match ev e with
      | virSocketSendMsgWithFD sock _ fds fd_len =>
          (length fds =? Z.to_nat fd_len)%nat &&
          (if res e <? 0 then true
           else match after_closes fds l' with
                | Some ({| ev := virSocketRecvHttpResponse sock' |} :: _) =>
                    sock' =? sock
                | _ => false
                end) &&
          descriptors_closed l'
      | _ => descriptors_closed l'
      end
  end.

(** * The version of the hypervisor (src/ch/ch_conf.c)

    virCHVersionString, chExtractVersionInfo and chExtractVersion.  A C
    string is the [string] of its characters before the terminating NUL;
    a pointer into it is an offset from its start. *)

(** ** The libc functions the parser uses *)

(** strlen *)
Definition strlen (s : string) : nat := String.length s.

(** [s + n], for [n] within the string. *)
Fixpoint string_from (n : nat) (s : string) : string :=
  match n, s with
  | O, _ => s
  | S n', String _ s' => string_from n' s'
  | S _, EmptyString => EmptyString
  end.

(** strstr: the offset of the first occurrence of [needle] in [s]. *)
Fixpoint strstr (s needle : string) : option nat :=
  if String.prefix needle s then Some O
  else match s with
       | EmptyString => None
       | String _ s' => S <$> strstr s' needle
       end.

(** strrchr: the offset of the last occurrence of [c] in [s]. *)
Fixpoint strrchr (s : string) (c : ascii) : option nat :=
  match s with
  | EmptyString => None
  | String a s' =>
      match strrchr s' c with
      | Some i => Some (S i)
      | None => if Ascii.eqb a c then Some O else None
      end
  end.

(** isspace, in the C locale: space, \t, \n, \v, \f, \r. *)
Definition isspace (c : ascii) : bool :=
  let n := nat_of_ascii c in
  (n =? 32)%nat || ((9 <=? n)%nat && (n <=? 13)%nat).

Definition isdigit (c : ascii) : bool :=
  let n := nat_of_ascii c in
  (48 <=? n)%nat && (n <=? 57)%nat.

Definition digit_value (c : ascii) : Z := Z.of_nat (nat_of_ascii c) - 48.

(** What one directive of sscanf does with the input: it converts a value
    and leaves the rest of the input, or the input does not match, or the
    input has ended. *)
Inductive scanned :=
| Converted (value : Z) (rest : string)
| MatchingFailure
| InputFailure.

Fixpoint skip_spaces (s : string) : string :=
  match s with
  | String c s' => if isspace c then skip_spaces s' else s
  | EmptyString => s
  end.

(** The digits at the head of [s], read into [acc]. *)
Fixpoint scan_digits (acc : Z) (s : string) : Z * string :=
  match s with
  | String c s' =>
      if isdigit c then scan_digits (10 * acc + digit_value c) s'
      else (acc, s)
  | EmptyString => (acc, s)
  end.

Definition starts_with_digit (s : string) : bool :=
  match s with
  | String c _ => isdigit c
  | EmptyString => false
  end.

(** The conversion %d: white space is skipped, then an optional sign and
    at least one decimal digit are read.  The value is the one an int
    takes; C leaves a value outside the range of int undefined, and it is
    kept as it is here. *)
Definition scan_int (s : string) : scanned :=
  match skip_spaces s with
  | EmptyString => InputFailure
  | String c s' =>
      if Ascii.eqb c "-" then
        if starts_with_digit s' then
          let (v, rest) := scan_digits 0 s' in Converted (- v) rest
        else MatchingFailure
      else if Ascii.eqb c "+" then
        if starts_with_digit s' then
          let (v, rest) := scan_digits 0 s' in Converted v rest
        else MatchingFailure
      else if isdigit c then
        let (v, rest) := scan_digits 0 (String c s') in Converted v rest
      else MatchingFailure
  end.

(** The directives of the two formats: an ordinary character, or %d. *)
Inductive directive :=
| Ordinary (c : ascii)
| ConversionD.

Definition EOF : Z := -1.

(** The return value of sscanf when the input ends: EOF before the first
    conversion, the number of conversions made otherwise. *)
Definition input_failure (done : list Z) : Z * list Z :=
  match done with
  | [] => (EOF, [])
  | _ => (Z.of_nat (length done), done)
  end.

(** sscanf for a format of ordinary characters and %d: the return value
    and the values converted, in the order of the arguments they are
    stored to. *)
Fixpoint sscanf_from (fmt : list directive) (s : string) (done : list Z)
    : Z * list Z :=
  match fmt with
  | [] => (Z.of_nat (length done), done)
  | Ordinary c :: fmt' =>
      match s with
      | EmptyString => input_failure done
      | String a s' =>
          if Ascii.eqb a c then sscanf_from fmt' s' done
          else (Z.of_nat (length done), done)
      end
  | ConversionD :: fmt' =>
      match scan_int s with
      | Converted v rest => sscanf_from fmt' rest (done ++ [v])
      | MatchingFailure => (Z.of_nat (length done), done)
      | InputFailure => input_failure done
      end
  end.

Definition sscanf (s : string) (fmt : list directive) : Z * list Z :=
  sscanf_from fmt s [].

(** "v%d.%d.%d" and "v%d.%d" *)
Definition format_major_minor_micro : list directive :=
  [ Ordinary "v"; ConversionD; Ordinary "."; ConversionD;
    Ordinary "."; ConversionD ].

Definition format_major_minor : list directive :=
  [ Ordinary "v"; ConversionD; Ordinary "."; ConversionD ].

(** ** virCHVersionString *)

(** An int stored through a pointer to unsigned int, and unsigned int
    arithmetic: 32 bits. *)
Definition to_unsigned_int (v : Z) : Z := v mod 2 ^ 32.

(** An unsigned long stored to an int (as gcc does it). *)
Definition to_int (v : Z) : Z :=
  let u := v mod 2 ^ 32 in
  if u <? 2 ^ 31 then u else u - 2 ^ 32.

(** The arguments of sscanf after the call: the values converted are
    stored to them in order, the others keep what they hold. *)
Fixpoint store_converted (values : list Z) (args : list Z) : list Z :=
  match values, args with
  | v :: values', _ :: args' => to_unsigned_int v :: store_converted values' args'
  | _, _ => args
  end.

(** The three messages virCHVersionString logs with VIR_ERROR before it
    returns -1. *)
Definition LF : string := String "010"%char EmptyString.

Definition no_matching_format : string :=
  ("No matching format found: %s" +:+ LF)%string.
Definition invalid_format : string :=
  ("Invalid format found: %s" +:+ LF)%string.
Definition can_not_extract : string :=
  ("Can not extract CLH version: %s" +:+ LF)%string.

(** [inr v]: 0 is returned and [*version] is [v]; [inl msg]: [msg] is
    logged and -1 returned.  The local [major] is not initialised in C;
    it is stored to by sscanf on every path that reads it, and starts
    as 0 here. *)
Definition virCHVersionString (str : string) : string + Z :=
  let clh_string := "cloud-hypervisor "%string in
  let last_slash := strrchr str "/" in
  let clh_string_start := strstr str clh_string in
  match clh_string_start with
  | None => inl no_matching_format
  | Some start =>
      let found :=
        match last_slash with
        | Some slash =>
            (* If "/" is present in the input version string *)
            if (slash <? start)%nat then None
            else Some (string_from (S slash) str)
        | None =>
            (* remove "cloud-hypervisor " from beginning *)
            Some (string_from (strlen clh_string) str)
        end in
      match found with
      | None => inl invalid_format
      | Some version_string =>
          let args := [0; 0; 0] in
          (* Try to get major, minor, micro version *)
          let (n, values) := sscanf version_string format_major_minor_micro in
          let args := store_converted values args in
          let result :=
            if negb (n =? 3) then
              (* Try to get major, minor version *)
              let (n, values) := sscanf version_string format_major_minor in
              let args := store_converted values args in
              if negb (n =? 2) then None else Some args
            else Some args in
          match result with
          | Some [major; minor; micro] =>
              inr (to_unsigned_int (1000000 * major + 1000 * minor + micro))
          | _ => inl can_not_extract
          end
      end
  end.

(** ** chExtractVersionInfo, chExtractVersion *)

(** What the two functions do outside ch_conf.c. *)
Inductive ConfCall :=
| RunVersionCommand               (* virCommandRun of CH_CMD --version *)
| LogError (msg : string)         (* VIR_ERROR *)
| ReportError (msg : string).     (* virReportError *)

Definition version_too_old : string :=
  "Cloud-Hypervisor version is too old (v0.9.0 is the minimum supported version)".

Definition could_not_extract : string :=
  "Could not extract Cloud-Hypervisor version".

(** [command] is what virCommandRun returns and the output it collects.
    The result is the return value, [*retversion] on return and the calls
    made; [retversion] is not NULL at the only call. *)
Definition chExtractVersionInfo (command : Z * string)
    : Z * Z * list ConfCall :=
  let (run, help) := command in
  if run <? 0 then (-1, 0, [RunVersionCommand])
  else
    match virCHVersionString help with
    | inl msg => (-1, 0, [RunVersionCommand; LogError msg])
    | inr version =>
        (* v0.9.0 is the minimum supported version *)
        if (to_unsigned_int (version / 1000000) <? 1) &&
           (to_unsigned_int (version mod 1000000) / 1000 <? 9)
        then (-1, 0, [RunVersionCommand; ReportError version_too_old])
        else (0, to_int version, [RunVersionCommand])
    end.

(** [version] is driver->version; the result is the return value,
    driver->version on return and the calls made. *)
Definition chExtractVersion (command : Z * string) (version : Z)
    : Z * Z * list ConfCall :=
  if 0 <? version then (0, version, [])
  else
    let '(r, version, calls) := chExtractVersionInfo command in
    if r <? 0
    then (-1, version, calls ++ [ReportError could_not_extract])
    else (0, version, calls).

(** ** Vocabulary of the properties of the version parser *)

Fixpoint all_digits (s : string) : bool :=
  match s with
  | String c s' => isdigit c && all_digits s'
  | EmptyString => true
  end.

(** The text goes on with neither a digit nor a dot. *)
Definition ends_number (s : string) : bool :=
  match s with
  | String c _ => negb (isdigit c) && negb (Ascii.eqb c ".")
  | EmptyString => true
  end.

(** The number a version triple stands for. *)
Definition version_number (major minor micro : N) : Z :=
  1000000 * Z.of_N major + 1000 * Z.of_N minor + Z.of_N micro.

Definition is_version_command (c : ConfCall) : bool :=
  match c with
  | RunVersionCommand => true
  | _ => false
  end.

(** ** Symbolic execution *)

(** Case analysis on some test the program is stuck on. *)
Ltac case_step :=
  match goal with
  | |- context [match ?c with _ => _ end] =>
      lazymatch c with
      | context [match _ with _ => _ end] => fail
      | _ => destruct c eqn:?; simpl
      end
  end.

(** ** virCHProcessStop *)

Section StopProperties.

Variable host : Host.
Variable driver : virCHDriver.

Lemma stopped_idempotent (r : virDomainShutoffReason) (d : virDomainObj) :
  stopped r (stopped r d) = stopped r d.
Proof. reflexivity. Qed.

Lemma set_priv_no_monitor (d : virDomainObj) :
  priv_monitor d = None -> set_priv (with_monitor None) d = d.
Proof.
  destruct d as [p df st rs [m c ac an mn pf]]; unfold priv_monitor; simpl.
  intros ->. reflexivity.
Qed.

Lemma virCHProcessStop_retry_spec (retries : nat) (w : World) :
  (retries <= 5)%nat ->
  exists n ret,
    (retries + n <= 5)%nat /\
    (ret = - EBUSY -> (retries + n = 5)%nat) /\
    virCHProcessStop_retry host retries w =
      {| vm := vm w; trace := trace w ++ retry_entries n ret |}.
Proof.
  funelim (virCHProcessStop_retry host retries w); intros Hle;
    try clear Heqcall;
    repeat match goal with
           | E : lt_dec _ _ = _ |- _ => clear E
           end;
    try match goal with
        | E : (_ <? 0) = _ |- _ => rename E into Hsign
        end;
    try match goal with
        | E : (_ =? - EBUSY) = _ |- _ => rename E into Hbusy_now
        end.
  - (* -EBUSY and retries left: sleep and go round again *)
    destruct H as (n & ret & Hn & Hbusy & ->); [lia|].
    exists (S n), ret. split; [lia|].
    split; [intros E; specialize (Hbusy E); lia|].
    apply Z.eqb_eq in Hbusy_now. rewrite Hbusy_now. unfold record; simpl.
    unfold retry_entries. simpl. rewrite <- !app_assoc. reflexivity.
  - (* another failure *)
    exists 0%nat, (outcome host chRemoveCgroup (trace w)).
    split; [lia|]. split.
    + intros E. rewrite E, Z.eqb_refl in Hbusy_now. discriminate.
    + unfold record, retry_entries; simpl. rewrite Hsign, <- app_assoc.
      reflexivity.
  - (* failure with the retries used up *)
    exists 0%nat, (outcome host chRemoveCgroup (trace w)).
    split; [lia|]. split; [lia|].
    unfold record, retry_entries; simpl. rewrite Hsign, <- app_assoc.
    reflexivity.
  - (* removed *)
    exists 0%nat, (outcome host chRemoveCgroup (trace w)).
    split; [lia|]. split.
    + intros E. rewrite E in Hsign. discriminate.
    + unfold record, retry_entries; simpl. rewrite Hsign. reflexivity.
Qed.

Lemma chProcessRemoveDomainStatus_spec (w : World) :
  exists post,
    forallb is_status_cleanup post = true /\
    chProcessRemoveDomainStatus host driver w =
      {| vm := vm w; trace := trace w ++ post |}.
Proof.
  unfold chProcessRemoveDomainStatus, void_body, bind, read, call, query,
    when, emit, pure, record.
  destruct w as [d t]; simpl.
  repeat case_step;
    rewrite <- ?app_assoc; simpl; eexists; (split; [|reflexivity]);
    reflexivity.
Qed.

(** Everything virCHProcessStop does, for any host and any world. *)
Lemma virCHProcessStop_run (reason : virDomainShutoffReason) (w : World) :
  exists n ret post,
    (n <= 5)%nat /\
    (ret = - EBUSY -> n = 5%nat) /\
    forallb is_status_cleanup post = true /\
    virCHProcessStop host driver reason w =
      (0, {| vm := stopped reason (vm w);
             trace := trace w ++ stop_prefix (vm w) ++
                      retry_entries n ret ++ post |}).
Proof.
  unfold virCHProcessStop, body, bind, read, when, invoke_void, write,
    return_, emit, pure, stop_prefix.
  destruct (bool_decide (priv_monitor (vm w) <> None)) eqn:Hmon; simpl.
  all: match goal with
       | |- context [virCHProcessStop_retry host 0 ?w1] =>
           destruct (virCHProcessStop_retry_spec 0 w1)
             as (n & ret & Hn & Hbusy & ->); [lia|]
       end; simpl.
  all: match goal with
       | |- context [chProcessRemoveDomainStatus host driver ?w1] =>
           destruct (chProcessRemoveDomainStatus_spec w1)
             as (post & Hpost & ->)
       end; simpl.
  all: exists n, ret, post; repeat split; auto.
  - unfold stopped. rewrite <- !app_assoc. reflexivity.
  - apply bool_decide_eq_false in Hmon.
    assert (Hnone : priv_monitor (vm w) = None).
    { destruct (priv_monitor (vm w)); [|reflexivity].
      exfalso; apply Hmon; discriminate. }
    unfold stopped. rewrite (set_priv_no_monitor _ Hnone).
    rewrite <- !app_assoc. reflexivity.
Qed.

Lemma removal_answer_S (tr : list Entry) (i : nat) :
  removal_answer host tr (S i) = removal_answer host (tr ++ busy_round) i.
Proof.
  unfold removal_answer. f_equal.
  change (concat (replicate (S i) busy_round))
    with (busy_round ++ concat (replicate i busy_round)).
  apply app_assoc.
Qed.

(** The loop follows the answers of the host: it goes round while they
    are -EBUSY and ends on the first that is not, or on the sixth. *)
Lemma virCHProcessStop_retry_answers (retries : nat) (w : World) :
  (retries <= 5)%nat ->
  exists n,
    (retries + n <= 5)%nat /\
    (forall i, (i < n)%nat -> removal_answer host (trace w) i = - EBUSY) /\
    (removal_answer host (trace w) n = - EBUSY -> (retries + n = 5)%nat) /\
    virCHProcessStop_retry host retries w =
      {| vm := vm w;
         trace := trace w ++
                  retry_entries n (removal_answer host (trace w) n) |}.
Proof.
  assert (Hzero : removal_answer host (trace w) 0
                  = outcome host chRemoveCgroup (trace w)).
  { unfold removal_answer. simpl. rewrite app_nil_r. reflexivity. }
  revert Hzero.
  funelim (virCHProcessStop_retry host retries w); intros Hzero Hle;
    try clear Heqcall;
    repeat match goal with
           | E : lt_dec _ _ = _ |- _ => clear E
           end;
    try match goal with
        | E : (_ <? 0) = _ |- _ => rename E into Hsign
        end;
    try match goal with
        | E : (_ =? - EBUSY) = _ |- _ => rename E into Hbusy_now
        end.
  - (* -EBUSY and retries left: sleep and go round again *)
    apply Z.eqb_eq in Hbusy_now.
    assert (Hround : trace (record (g_usleep (200 * 1000)) 0
                              (record chRemoveCgroup
                                 (outcome host chRemoveCgroup (trace w)) w))
                     = trace w ++ busy_round).
    { unfold record; simpl. rewrite Hbusy_now, <- app_assoc. reflexivity. }
    destruct H as (n & Hn & Hturns & Hlast & ->).
    { unfold removal_answer. simpl. rewrite app_nil_r. reflexivity. }
    { lia. }
    rewrite Hround in *.
    exists (S n). split; [lia|]. split; [|split].
    + intros [|i] Hi; [rewrite Hzero; exact Hbusy_now|].
      rewrite removal_answer_S. apply Hturns. lia.
    + rewrite removal_answer_S. intros E. specialize (Hlast E). lia.
    + rewrite removal_answer_S. unfold retry_entries; simpl.
      rewrite <- !app_assoc. reflexivity.
  - (* another failure *)
    exists 0%nat. rewrite Hzero. split; [lia|]. split; [intros i Hi; lia|].
    split.
    + intros E. rewrite E, Z.eqb_refl in Hbusy_now. discriminate.
    + unfold record, retry_entries; simpl. rewrite Hsign, <- app_assoc.
      reflexivity.
  - (* failure with the retries used up *)
    exists 0%nat. rewrite Hzero. split; [lia|]. split; [intros i Hi; lia|].
    split; [lia|].
    unfold record, retry_entries; simpl. rewrite Hsign, <- app_assoc.
    reflexivity.
  - (* removed *)
    exists 0%nat. rewrite Hzero. split; [lia|]. split; [intros i Hi; lia|].
    split.
    + intros E. rewrite E in Hsign. discriminate.
    + unfold record, retry_entries; simpl. rewrite Hsign. reflexivity.
Qed.

(** virCHProcessStop, with the loop tied to the answers of the host. *)
Lemma virCHProcessStop_run_answers (reason : virDomainShutoffReason)
    (w : World) :
  let answer := removal_answer host (trace w ++ stop_prefix (vm w)) in
  exists n post,
    (n <= 5)%nat /\
    (forall i, (i < n)%nat -> answer i = - EBUSY) /\
    (answer n = - EBUSY -> n = 5%nat) /\
    forallb is_status_cleanup post = true /\
    virCHProcessStop host driver reason w =
      (0, {| vm := stopped reason (vm w);
             trace := trace w ++ stop_prefix (vm w) ++
                      retry_entries n (answer n) ++ post |}).
Proof.
  unfold virCHProcessStop, body, bind, read, when, invoke_void, write,
    return_, emit, pure, stop_prefix.
  destruct (bool_decide (priv_monitor (vm w) <> None)) eqn:Hmon; simpl.
  all: match goal with
       | |- context [virCHProcessStop_retry host 0 ?w1] =>
           destruct (virCHProcessStop_retry_answers 0 w1)
             as (n & Hn & Hturns & Hlast & ->); [lia|]
       end; simpl in *.
  all: match goal with
       | |- context [chProcessRemoveDomainStatus host driver ?w1] =>
           destruct (chProcessRemoveDomainStatus_spec w1)
             as (post & Hpost & ->)
       end; simpl.
  all: rewrite <- ?app_assoc in *; simpl in *.
  all: exists n, post; repeat split; auto.
  apply bool_decide_eq_false in Hmon.
  assert (Hnone : priv_monitor (vm w) = None).
  { destruct (priv_monitor (vm w)); [|reflexivity].
    exfalso; apply Hmon; discriminate. }
  unfold stopped. rewrite (set_priv_no_monitor _ Hnone). reflexivity.
Qed.

Lemma count_app (p : Entry -> bool) (l1 l2 : list Entry) :
  count p (l1 ++ l2) = (count p l1 + count p l2)%nat.
Proof. unfold count. rewrite List.filter_app, length_app. reflexivity. Qed.

Lemma count_none (p q : Entry -> bool) (l : list Entry) :
  (forall e, q e = true -> p e = false) ->
  forallb q l = true -> count p l = 0%nat.
Proof.
  intros Hpq. unfold count. induction l as [|e l IH]; simpl; [reflexivity|].
  intros [He Hl]%andb_true_iff. rewrite (Hpq e He). auto.
Qed.

Lemma retry_entries_removals (n : nat) (ret : Z) :
  count is_cgroup_removal (retry_entries n ret) = S n.
Proof.
  unfold retry_entries. induction n as [|n IH]; simpl.
  - destruct (ret <? 0); reflexivity.
  - unfold count in *. simpl. rewrite IH. reflexivity.
Qed.

Lemma retry_entries_sleeps (n : nat) (ret : Z) :
  count is_sleep (retry_entries n ret) = n.
Proof.
  unfold retry_entries. induction n as [|n IH]; simpl.
  - destruct (ret <? 0); reflexivity.
  - unfold count in *. simpl. rewrite IH. reflexivity.
Qed.

Lemma retry_entries_quiet (n : nat) (ret : Z) :
  forallb (fun e => negb (is_error_report e) && negb (is_monitor_close e))
          (retry_entries n ret) = true.
Proof.
  unfold retry_entries. induction n as [|n IH]; simpl.
  - destruct (ret <? 0); reflexivity.
  - exact IH.
Qed.

Lemma status_cleanup_quiet (post : list Entry) :
  forallb is_status_cleanup post = true ->
  forallb (fun e => negb (is_error_report e) && negb (is_monitor_close e))
          post = true.
Proof.
  induction post as [|e l IH]; simpl; [reflexivity|].
  intros [He Hl]%andb_true_iff. rewrite (IH Hl), andb_true_r.
  unfold is_status_cleanup, is_error_report, is_monitor_close in *.
  destruct (ev e); try discriminate; reflexivity.
Qed.

Lemma stop_prefix_no_report (d : virDomainObj) :
  forallb (fun e => negb (is_error_report e)) (stop_prefix d) = true.
Proof. unfold stop_prefix. destruct (bool_decide _); reflexivity. Qed.

Lemma forallb_weaken {A} (p q : A -> bool) (l : list A) :
  (forall x, p x = true -> q x = true) ->
  forallb p l = true -> forallb q l = true.
Proof.
  intros Hpq. induction l as [|x l IH]; simpl; [reflexivity|].
  intros [Hx Hl]%andb_true_iff. rewrite (Hpq x Hx), (IH Hl). reflexivity.
Qed.

End StopProperties.

(** ** What a program appends to the record, and what it leaves alone *)

Section Frames.

Variable host : Host.
Variable P : Entry -> bool.

Lemma emits_nothing {R} (s : World -> R * World) :
  (forall w, trace (snd (s w)) = trace w) -> emits P s.
Proof.
  intros H w. exists []. rewrite H, app_nil_r. split; reflexivity.
Qed.

Lemma emits_pure {A} (a : A) : emits P (pure a).
Proof. apply emits_nothing; reflexivity. Qed.

Lemma emits_return {A} (r : Z) : emits P (@return_ A r).
Proof. apply emits_nothing; reflexivity. Qed.

Lemma emits_read {A} (f : virDomainObj -> A) : emits P (read f).
Proof. apply emits_nothing; reflexivity. Qed.

Lemma emits_write (f : virDomainObj -> virDomainObj) : emits P (write f).
Proof. apply emits_nothing; reflexivity. Qed.

Lemma emits_query {A} (f : list Entry -> A) : emits P (query f).
Proof. apply emits_nothing; reflexivity. Qed.

Lemma emits_call (e : Event) :
  (forall r, P {| ev := e; res := r |} = true) -> emits P (call host e).
Proof.
  intros H w. eexists; split; [reflexivity|]. simpl. rewrite H. reflexivity.
Qed.

Lemma emits_emit (e : Event) :
  P {| ev := e; res := 0 |} = true -> emits P (emit e).
Proof.
  intros H w. eexists; split; [reflexivity|]. simpl. rewrite H. reflexivity.
Qed.

Lemma emits_bind {A B} (m : Stmt A) (k : A -> Stmt B) :
  emits P m -> (forall a, emits P (k a)) -> emits P (bind m k).
Proof.
  intros Hm Hk w. unfold bind.
  destruct (Hm w) as (l1 & E1 & H1).
  destruct (m w) as [[a|r] w1]; simpl in *.
  - destruct (Hk a w1) as (l2 & E2 & H2).
    exists (l1 ++ l2). rewrite E2, E1, app_assoc, forallb_app, H1, H2.
    split; reflexivity.
  - exists l1. split; assumption.
Qed.

Lemma emits_when (c : bool) (s : Stmt unit) :
  emits P s -> emits P (when c s).
Proof. intros H. destruct c; simpl; [exact H|apply emits_pure]. Qed.

Lemma emits_for_each {A} (l : list A) (s : A -> Stmt unit) :
  (forall x, emits P (s x)) -> emits P (for_each l s).
Proof.
  intros H. induction l as [|x l IH]; simpl.
  - apply emits_pure.
  - apply emits_bind; [apply H|intros _; exact IH].
Qed.

Lemma emits_body (b : Stmt unit) : emits P b -> emits P (body b).
Proof.
  intros H w. unfold body. destruct (H w) as (l & E & Hl).
  destruct (b w) as [[a|r] w1]; exists l; split; assumption.
Qed.

Lemma emits_invoke (f : Fn) : emits P f -> emits P (invoke f).
Proof.
  intros H w. unfold invoke. destruct (H w) as (l & E & Hl).
  destruct (f w) as [r w1]; exists l; split; assumption.
Qed.

Lemma emits_void_body (b : Stmt unit) : emits P b -> emits_void P (void_body b).
Proof. intros H w. exact (H w). Qed.

Lemma emits_invoke_void (f : VoidFn) :
  emits_void P f -> emits P (invoke_void f).
Proof. intros H w. exact (H w). Qed.

Lemma keeps_pure {A} (a : A) : keeps (pure a).
Proof. intros w; reflexivity. Qed.

Lemma keeps_return {A} (r : Z) : keeps (@return_ A r).
Proof. intros w; reflexivity. Qed.

Lemma keeps_read {A} (f : virDomainObj -> A) : keeps (read f).
Proof. intros w; reflexivity. Qed.

Lemma keeps_query {A} (f : list Entry -> A) : keeps (query f).
Proof. intros w; reflexivity. Qed.

Lemma keeps_call (e : Event) : keeps (call host e).
Proof. intros w; reflexivity. Qed.

Lemma keeps_emit (e : Event) : keeps (emit e).
Proof. intros w; reflexivity. Qed.

Lemma keeps_bind {A B} (m : Stmt A) (k : A -> Stmt B) :
  keeps m -> (forall a, keeps (k a)) -> keeps (bind m k).
Proof.
  intros Hm Hk w. unfold bind. specialize (Hm w).
  destruct (m w) as [[a|r] w1]; simpl in *; [|exact Hm].
  rewrite (Hk a w1). exact Hm.
Qed.

Lemma keeps_when (c : bool) (s : Stmt unit) : keeps s -> keeps (when c s).
Proof. intros H. destruct c; simpl; [exact H|apply keeps_pure]. Qed.

Lemma keeps_for_each {A} (l : list A) (s : A -> Stmt unit) :
  (forall x, keeps (s x)) -> keeps (for_each l s).
Proof.
  intros H. induction l as [|x l IH]; simpl.
  - apply keeps_pure.
  - apply keeps_bind; [apply H|intros _; exact IH].
Qed.

Lemma keeps_body (b : Stmt unit) : keeps b -> keeps (body b).
Proof.
  intros H w. unfold body. specialize (H w).
  destruct (b w) as [[a|r] w1]; exact H.
Qed.

Lemma keeps_invoke (f : Fn) : keeps f -> keeps (invoke f).
Proof.
  intros H w. unfold invoke. specialize (H w).
  destruct (f w) as [r w1]; exact H.
Qed.

End Frames.

(** Going through a program statement by statement. *)
Ltac emits_step :=
  lazymatch goal with
  | |- emits _ (bind _ _) => apply emits_bind; [|intros ?]
  | |- emits _ (pure _) => apply emits_pure
  | |- emits _ (return_ _) => apply emits_return
  | |- emits _ (read _) => apply emits_read
  | |- emits _ (write _) => apply emits_write
  | |- emits _ (query _) => apply emits_query
  | |- emits _ (call _ _) => apply emits_call; intros ?; reflexivity
  | |- emits _ (emit _) => apply emits_emit; reflexivity
  | |- emits _ (when _ _) => apply emits_when
  | |- emits _ (for_each _ _) => apply emits_for_each; intros ?
  | |- emits _ (body _) => apply emits_body
  | |- emits _ (invoke _) => apply emits_invoke
  | |- emits_void _ (void_body _) => apply emits_void_body
  | |- emits _ (invoke_void _) => apply emits_invoke_void
  | |- emits _ (match ?c with _ => _ end) => destruct c
  | |- emits_void _ (match ?c with _ => _ end) => destruct c
  | |- emits _ (let _ := _ in _) => cbv zeta
  end.

Ltac keeps_step :=
  lazymatch goal with
  | |- keeps (bind _ _) => apply keeps_bind; [|intros ?]
  | |- keeps (pure _) => apply keeps_pure
  | |- keeps (return_ _) => apply keeps_return
  | |- keeps (read _) => apply keeps_read
  | |- keeps (query _) => apply keeps_query
  | |- keeps (call _ _) => apply keeps_call
  | |- keeps (emit _) => apply keeps_emit
  | |- keeps (when _ _) => apply keeps_when
  | |- keeps (for_each _ _) => apply keeps_for_each; intros ?
  | |- keeps (body _) => apply keeps_body
  | |- keeps (invoke _) => apply keeps_invoke
  | |- keeps (match ?c with _ => _ end) => destruct c
  | |- keeps (let _ := _ in _) => cbv zeta
  end.

Section PlacementFrames.

Variable host : Host.

Lemma virCHProcessSetupPid_keeps pid nameval id cpumask_arg period quota sched :
  keeps (virCHProcessSetupPid host pid nameval id cpumask_arg period quota sched).
Proof.
  unfold virCHProcessSetupPid, virCHProcessSetupPid_cleanup.
  repeat keeps_step.
Qed.

Lemma virCHProcessSetupVcpu_keeps (vcpuid : nat) :
  keeps (virCHProcessSetupVcpu host vcpuid).
Proof.
  intros w. unfold virCHProcessSetupVcpu.
  destruct (vcpus (def (vm w)) !! vcpuid); [|reflexivity].
  apply virCHProcessSetupPid_keeps.
Qed.

End PlacementFrames.

(** ** Per-thread placement *)

Section PlacementProperties.

Variable host : Host.

Lemma bandwidth_requested_true (period quota : Z) :
  period <> 0 \/ quota <> 0 -> bandwidth_requested period quota = true.
Proof.
  unfold bandwidth_requested.
  intros [H|H]; apply Z.eqb_neq in H; rewrite H; simpl;
    [reflexivity|apply orb_true_r].
Qed.

(** The first test of virCHProcessSetupPid. *)
Lemma virCHProcessSetupPid_bandwidth
    (pid : Z) (nameval : virCgroupThreadName) (id : Z)
    (cpumask_arg : option virBitmap) (period quota : Z)
    (sched : option virDomainThreadSchedParam) (w : World) :
  bandwidth_requested period quota = true ->
  virCgroupHasController host (cgroup (privateData (vm w)))
                         VIR_CGROUP_CONTROLLER_CPU = false ->
  virCHProcessSetupPid host pid nameval id cpumask_arg period quota sched w =
    (-1, {| vm := vm w; trace := trace w ++ [bandwidth_error] |}).
Proof.
  unfold bandwidth_requested. intros Hbw Hctl.
  unfold virCHProcessSetupPid, body, bind, read, when; simpl.
  rewrite Hbw, Hctl. reflexivity.
Qed.

Lemma virCHProcessSetupVcpus_bandwidth (w : World) :
  bandwidth_requested (period (cputune (def (vm w))))
                      (quota (cputune (def (vm w)))) = true ->
  virCgroupHasController host (cgroup (privateData (vm w)))
                         VIR_CGROUP_CONTROLLER_CPU = false ->
  virCHProcessSetupVcpus host w =
    (-1, {| vm := vm w; trace := trace w ++ [bandwidth_error] |}).
Proof.
  unfold bandwidth_requested. intros Hbw Hctl.
  unfold virCHProcessSetupVcpus, body, bind, read, when; simpl.
  rewrite Hbw, Hctl. reflexivity.
Qed.

End PlacementProperties.

(** ** virCHProcessSetupVcpus *)

Section VcpuProperties.

Variable host : Host.

Lemma virCHProcessSetupVcpuPids_loop
    (info : list virCHMonitorThreadInfo) (w : World) :
  for_each info (fun th =>
    if bool_decide (thr_type th = virCHThreadTypeVcpu) then
      write (set_def (fun d =>
               with_vcpus (alter (with_tid (thr_tid th)) (cpuid th)
                                 (vcpus d)) d))
    else pure tt) w =
  (Next tt,
   {| vm := set_def (fun d => with_vcpus (record_tids info (vcpus d)) d)
                    (vm w);
      trace := trace w |}).
Proof.
  revert w. induction info as [|th info IH]; intros [d t]; simpl.
  - unfold pure. f_equal. f_equal.
    destruct d as [p [] st rs pr]; reflexivity.
  - unfold record_tids. cbn [for_each fold_left]. unfold bind at 1.
    destruct (bool_decide (thr_type th = virCHThreadTypeVcpu)).
    + unfold write at 1. rewrite IH. reflexivity.
    + unfold pure at 1. rewrite IH. reflexivity.
Qed.

Lemma virCHProcessSetupVcpuPids_run (w : World) :
  virCHProcessSetupVcpuPids host w =
    (0, {| vm := set_def (fun d =>
                   with_vcpus
                     (record_tids
                        (virCHMonitorGetThreadInfo host (priv_monitor (vm w)))
                        (vcpus d)) d) (vm w);
           trace := trace w |}).
Proof.
  unfold virCHProcessSetupVcpuPids, body, bind at 1, read.
  unfold bind. rewrite virCHProcessSetupVcpuPids_loop. reflexivity.
Qed.

(** Storing thread ids changes neither the length of the roster nor what
    the placement policy reads of a vCPU. *)
Lemma record_tids_config (info : list virCHMonitorThreadInfo)
    (l : list virDomainVcpuDef) :
  Forall2 same_config l (record_tids info l).
Proof.
  unfold record_tids. revert l.
  induction info as [|th info IH]; intros l; simpl.
  - apply Forall2_same_length_lookup_2; [reflexivity|].
    intros i v v' H1 H2. rewrite H1 in H2. injection H2 as <-. split; reflexivity.
  - eapply (Forall2_trans same_config same_config same_config);
      [| |apply IH].
    + intros v1 v2 v3 [H1 H2] [H3 H4]. split; congruence.
    + destruct (bool_decide _).
      * apply Forall2_same_length_lookup_2;
          [rewrite length_alter; reflexivity|].
        intros i v v' H1 H2.
        destruct (decide (cpuid th = i)) as [<-|Hne].
        -- rewrite list_lookup_alter_eq, H1 in H2. simpl in H2.
           injection H2 as <-. split; reflexivity.
        -- rewrite list_lookup_alter_ne, H1 in H2 by assumption.
           injection H2 as <-. split; reflexivity.
      * apply Forall2_same_length_lookup_2; [reflexivity|].
        intros i v v' H1 H2. rewrite H1 in H2. injection H2 as <-. split; reflexivity.
Qed.

Lemma custom_affinity_config (d : virDomainDef) (l l' : list virDomainVcpuDef) :
  Forall2 same_config l l' ->
  existsb (custom_affinity host d) l' = existsb (custom_affinity host d) l.
Proof.
  induction 1 as [|v v' l l' [Ho Hm] _ IH]; simpl; [reflexivity|].
  rewrite IH. unfold custom_affinity. rewrite Ho, Hm. reflexivity.
Qed.

Lemma online_from_config (i : nat) (l l' : list virDomainVcpuDef) :
  Forall2 same_config l l' ->
  online_from i l' = online_from i l.
Proof.
  intros H. revert i.
  induction H as [|v v' l l' [Ho Hm] _ IH]; intros i; simpl; [reflexivity|].
  rewrite Ho, IH. reflexivity.
Qed.

(** The rejection loop, run from index [i] to the end of the roster. *)
Lemma virCHProcessSetupVcpus_reject_loop (i k : nat) (w : World) :
  (i + k = length (vcpus (def (vm w))))%nat ->
  for_each (seq i k) (fun i =>
    d <- read def ;;
    match vcpus d !! i with
    | Some vcpu =>
        if negb (online vcpu) then pure tt
        else
          when (bool_decide (vcpu_cpumask vcpu <> None) &&
                negb (virBitmapEqual host (cpumask d) (vcpu_cpumask vcpu)))
               (emit (virReportError VIR_ERR_OPERATION_INVALID
                        "cpu affinity is not supported") ;;
                return_ (-1))
    | None => pure tt
    end) w =
  if existsb (custom_affinity host (def (vm w)))
             (drop i (vcpus (def (vm w))))
  then (Return (-1),
        {| vm := vm w; trace := trace w ++ [affinity_error] |})
  else (Next tt, w).
Proof.
  revert i. induction k as [|k IH]; intros i Hlen.
  - rewrite drop_ge by lia. reflexivity.
  - cbn [seq for_each]. unfold bind at 1. unfold bind at 1. unfold read at 1.
    destruct (lookup_lt_is_Some_2 (vcpus (def (vm w))) i) as [v Hv]; [lia|].
    rewrite Hv. rewrite (drop_S _ _ _ Hv). cbn [existsb].
    unfold custom_affinity at 1.
    destruct (online v); cbn [negb andb orb].
    + destruct (bool_decide (vcpu_cpumask v <> None) &&
                negb (virBitmapEqual host (cpumask (def (vm w)))
                                     (vcpu_cpumask v))); cbn [when orb].
      * reflexivity.
      * unfold pure at 1. apply IH. lia.
    + unfold pure at 1. apply IH. lia.
Qed.

(** The placement loop, run from index [i] to the end of the roster. *)
Lemma virCHProcessSetupVcpus_place_loop (i k : nat) (w : World) :
  (i + k = length (vcpus (def (vm w))))%nat ->
  for_each (seq i k) (fun i =>
    d <- read def ;;
    match vcpus d !! i with
    | Some vcpu =>
        if negb (online vcpu) then pure tt
        else
          r <- invoke (virCHProcessSetupVcpu host i) ;;
          when (r <? 0) (return_ (-1))
    | None => pure tt
    end) w =
  (if fst (place_in_order host
             (online_from i (drop i (vcpus (def (vm w))))) w) <? 0
   then Return (-1) else Next tt,
   snd (place_in_order host
          (online_from i (drop i (vcpus (def (vm w))))) w)).
Proof.
  revert i w. induction k as [|k IH]; intros i w Hlen.
  - rewrite drop_ge by lia. reflexivity.
  - cbn [seq for_each]. unfold bind at 1. unfold bind at 1. unfold read at 1.
    destruct (lookup_lt_is_Some_2 (vcpus (def (vm w))) i) as [v Hv]; [lia|].
    rewrite Hv. rewrite (drop_S _ _ _ Hv). cbn [online_from].
    destruct (online v); cbn [negb].
    + cbn [place_in_order]. unfold bind at 1, invoke at 1.
      pose proof (virCHProcessSetupVcpu_keeps host i w) as Hkeep.
      destruct (virCHProcessSetupVcpu host i w) as [r w1]. simpl in Hkeep.
      destruct (r <? 0); cbn [when].
      * reflexivity.
      * unfold pure at 1. rewrite IH by (rewrite Hkeep; lia).
        rewrite Hkeep. reflexivity.
    + unfold pure at 1. apply IH. lia.
Qed.

Lemma place_in_order_result (ids : list nat) (w : World) :
  fst (place_in_order host ids w) = 0 \/
  fst (place_in_order host ids w) = -1.
Proof.
  revert w. induction ids as [|i ids IH]; intros w; simpl; [auto|].
  destruct (virCHProcessSetupVcpu host i w) as [r w1].
  destruct (r <? 0); simpl; auto.
Qed.

(** virCHProcessSetupVcpus once its first test has let it through. *)
Lemma virCHProcessSetupVcpus_run (w : World) :
  bandwidth_rejected host (vm w) = false ->
  let w1 := snd (virCHProcessSetupVcpuPids host w) in
  virCHProcessSetupVcpus host w =
    if virCHDomainHasVcpuPids host (vm w1) then
      place_in_order host (online_vcpus (vcpus (def (vm w1)))) w1
    else if existsb (custom_affinity host (def (vm w1))) (vcpus (def (vm w1)))
    then (-1, {| vm := vm w1; trace := trace w1 ++ [affinity_error] |})
    else (0, w1).
Proof.
  intros Hpass w1. unfold bandwidth_rejected, bandwidth_requested in Hpass.
  unfold virCHProcessSetupVcpus, body.
  unfold bind at 1, read at 1. unfold bind at 1, read at 1.
  unfold bind at 1. rewrite Hpass. cbn [when pure].
  unfold bind at 1, invoke at 1.
  assert (Hlen : length (vcpus (def (vm w1))) = length (vcpus (def (vm w)))).
  { subst w1. rewrite virCHProcessSetupVcpuPids_run. simpl.
    symmetry. eapply Forall2_length, record_tids_config. }
  destruct (virCHProcessSetupVcpuPids host w) as [r0 w1'] eqn:Epids.
  simpl in w1. subst w1.
  unfold bind at 1, read at 1.
  destruct (virCHDomainHasVcpuPids host (vm w1')); cbn [negb when].
  - unfold bind at 1, pure at 1. rewrite <- Hlen.
    unfold bind at 1.
    rewrite virCHProcessSetupVcpus_place_loop by reflexivity.
    rewrite drop_0. fold (online_vcpus (vcpus (def (vm w1')))).
    destruct (place_in_order_result (online_vcpus (vcpus (def (vm w1')))) w1')
      as [E|E];
      destruct (place_in_order host _ w1') as [r w2]; simpl in *; subst r;
      reflexivity.
  - unfold bind at 1. unfold bind at 1. rewrite <- Hlen.
    rewrite virCHProcessSetupVcpus_reject_loop by reflexivity.
    rewrite drop_0.
    destruct (existsb _ _); reflexivity.
Qed.

End VcpuProperties.

(** ** The CPU mask virCHProcessSetupPid applies *)

Section CpumaskProperties.

Variable host : Host.

Lemma virCHProcessSetupPid_affinity
    (pid : Z) (nameval : virCgroupThreadName) (id : Z)
    (cpumask_arg : option virBitmap) (period quota : Z)
    (sched : option virDomainThreadSchedParam) (w : World) :
  exists l,
    trace (snd (virCHProcessSetupPid host pid nameval id cpumask_arg
                                     period quota sched w)) = trace w ++ l /\
    (forall e, In e l -> is_affinity e = true ->
       exists m, ev e = virProcessSetAffinity pid m /\
                 effective_cpumask host cpumask_arg (vm w) = Some m) /\
    (forall e, In e l -> is_cpuset e = true ->
       exists g m, ev e = chSetupCgroupCpusetCpus g m /\
                   cpuset_cpumask cpumask_arg (vm w) = Some m) /\
    (fst (virCHProcessSetupPid host pid nameval id cpumask_arg
                               period quota sched w) = 0 ->
     map ev (List.filter is_affinity l) =
       match effective_cpumask host cpumask_arg (vm w) with
       | Some m => [virProcessSetAffinity pid m]
       | None => []
       end).
Proof.
  unfold virCHProcessSetupPid, virCHProcessSetupPid_cleanup,
    effective_cpumask, cpuset_cpumask, body, bind, read, call, query, emit,
    when, pure, return_, record.
  destruct w as [d t]; simpl.
  set (bw := negb (period =? 0) || negb (quota =? 0)).
  repeat case_step.
  all: rewrite <- ?app_assoc; simpl; eexists;
    (split; [first [reflexivity|symmetry; apply app_nil_r]|]).
  all: split;
    [ intros e Hin Haff; simpl in Hin;
      repeat (destruct Hin as [<-|Hin]; [try discriminate Haff|]);
      try contradiction; eexists; split; reflexivity
    | split;
      [ intros e Hin Hset; simpl in Hin;
        repeat (destruct Hin as [<-|Hin]; [try discriminate Hset|]);
        try contradiction; eexists; eexists; split; reflexivity
      | intros Hret; try discriminate Hret; reflexivity ] ].
Qed.

End CpumaskProperties.

(** ** virCHProcessReconnect *)

Arguments virCHProcessStop : simpl never.
Arguments virCHProcessUpdateInfo : simpl never.
Arguments virCHConnectMonitor : simpl never.

Section ReconnectProperties.

Variable host : Host.
Variable driver : virCHDriver.

(** virCHProcessReconnect is its reattach part followed by the rest. *)
Lemma virCHProcessReconnect_split (w : World) :
  virCHProcessReconnect host driver w =
    snd ((reconnect_reattach host driver ;; reconnect_finish host driver) w).
Proof.
  unfold virCHProcessReconnect, reconnect_reattach, reconnect_finish,
    void_body, virCHProcessUpdateState, chSetupCgroup_call, body.
  unfold bind, call, emit, read, write, query, invoke, when, pure, return_.
  destruct w as [d t]; simpl.
  repeat case_step; reflexivity.
Qed.

(** The rest of the task when the state found is Shutdown, or Paused while
    shutting down. *)
Lemma reconnect_finish_shutdown (w1 : World) :
  state (vm w1) = VIR_DOMAIN_SHUTDOWN \/
  (state (vm w1) = VIR_DOMAIN_PAUSED /\
   reason (vm w1) = VIR_DOMAIN_PAUSED_SHUTTING_DOWN) ->
  exists l,
    forallb is_release l = true /\
    snd (reconnect_finish host driver w1) =
      {| vm := vm (snd (virCHProcessStop host driver
                          VIR_DOMAIN_SHUTOFF_DAEMON w1));
         trace := trace (snd (virCHProcessStop host driver
                                VIR_DOMAIN_SHUTOFF_DAEMON w1)) ++ l |}.
Proof.
  intros Hst.
  assert (Htest : bool_decide (state (vm w1) = VIR_DOMAIN_SHUTDOWN) ||
                  (bool_decide (state (vm w1) = VIR_DOMAIN_PAUSED) &&
                   (reason (vm w1) =? VIR_DOMAIN_PAUSED_SHUTTING_DOWN))
                  = true).
  { destruct Hst as [->|[-> ->]]; reflexivity. }
  unfold reconnect_finish. unfold bind at 1, read at 1.
  unfold bind at 1, read at 1. unfold bind at 1. rewrite Htest.
  cbn [when]. unfold bind at 1, invoke.
  destruct (virCHProcessStop host driver VIR_DOMAIN_SHUTOFF_DAEMON w1)
    as [r [d t]].
  unfold virCHProcessReconnect_cleanup, bind, read, when, emit, return_,
    pure, record; simpl.
  destruct (virDomainObjIsActive host d); simpl;
    rewrite <- ?app_assoc; eexists; (split; [|reflexivity]); reflexivity.
Qed.

(** Updating the console paths leaves the run state alone. *)
Lemma virCHProcessUpdateConsole_state (info : virJSONValue) (w : World) :
  state (vm (virCHProcessUpdateConsole host info w)) = state (vm w) /\
  reason (vm (virCHProcessUpdateConsole host info w)) = reason (vm w).
Proof.
  unfold virCHProcessUpdateConsole, virCHProcessUpdateConsoleDevice,
    void_body, bind, invoke_void, write, pure, return_.
  destruct w as [d t]; simpl.
  repeat case_step; split; reflexivity.
Qed.

Lemma virCHProcessUpdateInfo_shutdown (w w' : World) (r : Z) :
  reports_shutdown host ->
  virCHProcessUpdateInfo host w = (r, w') ->
  (r <? 0) = false ->
  state (vm w') = VIR_DOMAIN_SHUTDOWN.
Proof.
  intros (st & Hget & Hstr).
  unfold virCHProcessUpdateInfo, body.
  unfold bind at 1, call at 1. destruct (outcome host _ _ <? 0) eqn:Hneg.
  - simpl. intros [= <- <-]. discriminate.
  - cbn [when]. unfold bind at 1, pure at 1. unfold bind at 1, query at 1.
    unfold bind at 1, invoke_void at 1.
    unfold bind at 1, invoke_void at 1. unfold return_.
    intros [= <- <-] _.
    rewrite (proj1 (virCHProcessUpdateConsole_state _ _)).
    unfold virCHProcessUpdateStatus, void_body.
    rewrite Hget, Hstr. reflexivity.
Qed.

(** When the hypervisor reports "Shutdown", a reattach that gets through
    finds the domain in state Shutdown. *)
Lemma reconnect_reattach_shutdown (w w1 : World) :
  reports_shutdown host ->
  reconnect_reattach host driver w = (Next tt, w1) ->
  state (vm w1) = VIR_DOMAIN_SHUTDOWN.
Proof.
  intros Hrep.
  unfold reconnect_reattach, virCHProcessReconnect_error,
    virCHProcessReconnect_cleanup, virCHProcessUpdateState,
    chSetupCgroup_call, body.
  unfold bind, call, emit, read, write, query, invoke, when, pure, return_.
  destruct w as [d t]; simpl.
  repeat case_step; intros E; try discriminate E.
  all: injection E as <-.
  all: match goal with
       | H : virCHProcessUpdateInfo host _ = (?r, ?w') |- _ =>
           eapply virCHProcessUpdateInfo_shutdown; eauto
       end.
Qed.

End ReconnectProperties.

(** ** virCHProcessStart *)

Arguments net_fds : simpl never.
Arguments chProcessAddNetworkDevices : simpl never.
Arguments virCHProcessInitCpuAffinity : simpl never.
Arguments virCHProcessSetupThreads : simpl never.

Section StartProperties.

Variable host : Host.
Variable driver : virCHDriver.


Lemma close_fds_run (fds : list Z) (w : World) :
  for_each fds (fun fd => emit (close fd)) w =
    (Next tt,
     {| vm := vm w;
        trace := trace w ++ map (fun fd => {| ev := close fd; res := 0 |})
                                fds |}).
Proof.
  revert w. induction fds as [|fd fds IH]; intros [d t]; simpl.
  - rewrite app_nil_r. reflexivity.
  - unfold bind at 1. simpl. rewrite IH. simpl.
    rewrite <- app_assoc. reflexivity.
Qed.






(** Everything but the handoff and the boot command only makes plain
    calls. *)
Lemma virCHProcessStop_plain (rsn : virDomainShutoffReason) :
  emits plain (virCHProcessStop host driver rsn).
Proof.
  intros w.
  destruct (virCHProcessStop_run host driver rsn w)
    as (n & ret & post & _ & _ & Hpost & ->).
  eexists; split; [reflexivity|].
  rewrite !forallb_app. repeat (apply andb_true_iff; split).
  - unfold stop_prefix. destruct (bool_decide _); reflexivity.
  - unfold retry_entries. induction n as [|n IH]; simpl; [|exact IH].
    destruct (ret <? 0); reflexivity.
  - revert Hpost. apply forallb_weaken. intros e.
    unfold is_status_cleanup, plain, not_boot, not_handoff, is_boot,
      is_handoff.
    destruct (ev e); intros; try discriminate; reflexivity.
Qed.










Lemma before_boot_app (l1 l2 : list Entry) :
  forallb not_boot l1 = true ->
  before_boot (l1 ++ l2) = l1 ++ before_boot l2.
Proof.
  induction l1 as [|e l1 IH]; simpl; [reflexivity|].
  intros [He Hl]%andb_true_iff. apply negb_true_iff in He. rewrite He.
  rewrite IH by assumption. reflexivity.
Qed.

Lemma after_boot_app (l1 l2 : list Entry) :
  forallb not_boot l1 = true ->
  after_boot (l1 ++ l2) = after_boot l2.
Proof.
  induction l1 as [|e l1 IH]; simpl; [reflexivity|].
  intros [He Hl]%andb_true_iff. apply negb_true_iff in He. rewrite He.
  apply IH. assumption.
Qed.






(** How a start can fail: with -1, and either after a full
    virCHProcessStop with reason failed, or on the spot when bringing the
    host-side network devices up failed, that call being the last one
    made. *)
Lemma virCHProcessStart_failure (reason : Z) (w w' : World) (r : Z) :
  virCHProcessStart host driver reason w = (r, w') ->
  r <> 0 ->
  r = -1 /\
  ((exists w0, w' = snd (virCHProcessStop host driver
                           VIR_DOMAIN_SHUTOFF_FAILED w0)) \/
   (exists tr res,
      trace w' = tr ++ [ {| ev := chInterfaceStartDevices; res := res |} ] /\
      res < 0)).
Proof.
  unfold virCHProcessStart, virCHProcessStart_cleanup,
    virCHProcessConnectMonitor, chSetupCgroup_call,
    virCHMonitorRefreshThreadInfo_call, body.
  unfold bind, call, emit, read, write, query, invoke, when, pure, return_.
  destruct w as [d t]; simpl.
  repeat case_step; intros [= <- <-] Hr; try (exfalso; apply Hr; reflexivity).
  all: split; [reflexivity|].
  all: try (left;
            match goal with
            | H : virCHProcessStop host driver _ ?w0 = (_, ?w1) |- _ =>
                exists w0; rewrite H; reflexivity
            end).
  all: right; eexists; eexists; split; [reflexivity|].
  all: match goal with
       | H : (?res <? 0) = true |- ?res < 0 => apply Z.ltb_lt; exact H
       end.
Qed.

End StartProperties.

(** ** The claims of the specification *)

Lemma shutoff_reason_int_inj (r1 r2 : virDomainShutoffReason) :
  shutoff_reason_int r1 = shutoff_reason_int r2 -> r1 = r2.
Proof. destruct r1, r2; simpl; intros E; try reflexivity; discriminate. Qed.

(** C2.  Stop, with any reason, on any domain and whatever its cleanup
    steps answer (cgroup removal, deletion of the status and pid files),
    returns 0; on return the domain is Shutoff with the supplied reason
    and its process identifier and id are cleared (-1).  None of the calls
    it made reports an error to the caller: failures only show as
    warnings. *)
Theorem virCHProcessStop_always_succeeds
    (host : Host) (driver : virCHDriver)
    (rsn : virDomainShutoffReason) (w : World) :
  let r := fst (virCHProcessStop host driver rsn w) in
  let w' := snd (virCHProcessStop host driver rsn w) in
  r = 0 /\
  state (vm w') = VIR_DOMAIN_SHUTOFF /\
  reason (vm w') = shutoff_reason_int rsn /\
  pid (vm w') = -1 /\
  def_id (def (vm w')) = -1 /\
  exists l, trace w' = trace w ++ l /\
            forallb (fun e => negb (is_error_report e)) l = true.
Proof.
  destruct (virCHProcessStop_run host driver rsn w)
    as (n & ret & post & Hn & Hbusy & Hpost & ->); simpl.
  repeat split.
  eexists; split; [reflexivity|].
  rewrite !forallb_app, stop_prefix_no_report; simpl.
  rewrite (forallb_weaken _ _ _ (fun e H => proj1 (andb_prop _ _ H))
             (retry_entries_quiet n ret)).
  rewrite (forallb_weaken _ _ _ (fun e H => proj1 (andb_prop _ _ H))
             (status_cleanup_quiet post Hpost)).
  reflexivity.
Qed.

(** C4.  The calls Stop makes are: the monitor close and host-device
    release, then the removal loop, then the deletion of status files.
    The loop follows what the host answers to chRemoveCgroup, [answer i]
    being the answer to the removal made after [i] turns: it is [n] turns
    of "chRemoveCgroup answers -EBUSY, sleep 200000 us", each of them an
    answer -EBUSY of the host, followed by one last chRemoveCgroup whose
    answer [ret] is the host's, with [n <= 5]; so it goes round again
    only after -EBUSY, and it stops on -EBUSY only when the 5 retries are
    used up.  When the last answer is a failure of any kind, a warning
    follows and nothing else; Stop then proceeds and returns 0 with the
    domain Shutoff.  So there are at most 6 removals and 5 sleeps, and
    what the host answers decides how many. *)
Theorem virCHProcessStop_cgroup_retry
    (host : Host) (driver : virCHDriver)
    (rsn : virDomainShutoffReason) (w : World) :
  let answer := removal_answer host (trace w ++ stop_prefix (vm w)) in
  exists n ret post l,
    virCHProcessStop host driver rsn w =
      (0, {| vm := stopped rsn (vm w); trace := trace w ++ l |}) /\
    l = stop_prefix (vm w) ++ retry_entries n ret ++ post /\
    (forall i, (i < n)%nat -> answer i = - EBUSY) /\
    ret = answer n /\
    (n <= 5)%nat /\
    (ret = - EBUSY -> n = 5%nat) /\
    forallb is_status_cleanup post = true /\
    count is_cgroup_removal l = S n /\
    count is_sleep l = n /\
    state (stopped rsn (vm w)) = VIR_DOMAIN_SHUTOFF.
Proof.
  intros answer.
  destruct (virCHProcessStop_run_answers host driver rsn w)
    as (n & post & Hn & Hturns & Hlast & Hpost & E).
  fold answer in Hturns, Hlast, E.
  exists n, (answer n), post,
    (stop_prefix (vm w) ++ retry_entries n (answer n) ++ post).
  split; [exact E|]. split; [reflexivity|].
  split; [exact Hturns|]. split; [reflexivity|].
  repeat split; auto.
  - rewrite !count_app, retry_entries_removals.
    rewrite (count_none is_cgroup_removal is_status_cleanup post); auto.
    + unfold stop_prefix. destruct (bool_decide _); simpl; lia.
    + intros e. unfold is_status_cleanup, is_cgroup_removal.
      destruct (ev e); intros; try discriminate; reflexivity.
  - rewrite !count_app, retry_entries_sleeps.
    rewrite (count_none is_sleep is_status_cleanup post); auto.
    + unfold stop_prefix. destruct (bool_decide _); simpl; lia.
    + intros e. unfold is_status_cleanup, is_sleep.
      destruct (ev e); intros; try discriminate; reflexivity.
Qed.

(** C8.  Stop is idempotent: a second Stop with the same reason, run on
    the world the first one left (where no monitor connection is present
    any more), returns 0, leaves the domain object exactly as the first
    call left it (Shutoff, the supplied reason, process identifier
    cleared), closes no monitor and reports no error. *)
Theorem virCHProcessStop_idempotent
    (host : Host) (driver : virCHDriver)
    (rsn : virDomainShutoffReason) (w : World) :
  let w1 := snd (virCHProcessStop host driver rsn w) in
  let r2 := fst (virCHProcessStop host driver rsn w1) in
  let w2 := snd (virCHProcessStop host driver rsn w1) in
  priv_monitor (vm w1) = None /\
  r2 = 0 /\
  vm w2 = vm w1 /\
  state (vm w2) = VIR_DOMAIN_SHUTOFF /\
  reason (vm w2) = shutoff_reason_int rsn /\
  pid (vm w2) = -1 /\
  exists l, trace w2 = trace w1 ++ l /\
            forallb (fun e => negb (is_error_report e) &&
                              negb (is_monitor_close e)) l = true.
Proof.
  cbv zeta.
  destruct (virCHProcessStop_run host driver rsn w)
    as (n & ret & post & Hn & Hbusy & Hpost & ->); cbn [fst snd].
  match goal with
  | |- context [virCHProcessStop host driver rsn ?w1] =>
      destruct (virCHProcessStop_run host driver rsn w1)
        as (n' & ret' & post' & Hn' & Hbusy' & Hpost' & ->)
  end; simpl.
  repeat split.
  eexists; split; [reflexivity|].
  change (forallb ?p (?x :: ?l)) with (p x && forallb p l).
  rewrite !forallb_app, retry_entries_quiet, status_cleanup_quiet; auto.
Qed.

(** C5.  When a nonzero period or quota is requested and the domain's
    cgroup has no CPU controller, virCHProcessSetupPid returns -1 after
    one call only, the report of VIR_ERR_CONFIG_UNSUPPORTED: no cgroup
    sub-scope is created, no affinity and no scheduler is set, the domain
    object is unchanged.  When these are the domain-level period and
    quota, virCHProcessSetupVcpus fails in the same way before any vCPU
    is placed, and so does virCHProcessSetupVcpu for every vCPU. *)
Theorem bandwidth_needs_cpu_controller
    (host : Host) (pid : Z) (nameval : virCgroupThreadName) (id : Z)
    (cpumask_arg : option virBitmap) (req_period req_quota : Z)
    (sched : option virDomainThreadSchedParam) (w : World) :
  req_period <> 0 \/ req_quota <> 0 ->
  virCgroupHasController host (cgroup (privateData (vm w)))
                         VIR_CGROUP_CONTROLLER_CPU = false ->
  let rejected :=
    (-1, {| vm := vm w; trace := trace w ++ [bandwidth_error] |}) in
  virCHProcessSetupPid host pid nameval id cpumask_arg req_period req_quota
                       sched w
    = rejected /\
  (period (cputune (def (vm w))) = req_period ->
   quota (cputune (def (vm w))) = req_quota ->
   virCHProcessSetupVcpus host w = rejected /\
   forall vcpuid, is_Some (vcpus (def (vm w)) !! vcpuid) ->
                  virCHProcessSetupVcpu host vcpuid w = rejected).
Proof.
  intros Hbw%bandwidth_requested_true Hctl rejected. split.
  - apply virCHProcessSetupPid_bandwidth; assumption.
  - intros <- <-. split.
    + apply virCHProcessSetupVcpus_bandwidth; assumption.
    + intros vcpuid [vcpu Hv]. unfold virCHProcessSetupVcpu. rewrite Hv.
      apply virCHProcessSetupPid_bandwidth; assumption.
Qed.

Lemma bandwidth_needs_cpu_controller_witness :
  let w := example_world 100000 0 (Some example_monitor) in
  let host := example_host all_succeed no_controller info_running in
  (100000 <> 0 \/ 0 <> 0) /\
  virCgroupHasController host (cgroup (privateData (vm w)))
                         VIR_CGROUP_CONTROLLER_CPU = false /\
  virCHProcessSetupPid host 101 VIR_CGROUP_THREAD_VCPU 0 None 100000 0
                       None w
    = (-1, {| vm := vm w; trace := [bandwidth_error] |}) /\
  virCHProcessSetupVcpus host w
    = (-1, {| vm := vm w; trace := [bandwidth_error] |}).
Proof.
  intros w host.
  assert (Hbw : 100000 <> 0 \/ 0 <> 0) by (left; discriminate).
  assert (Hctl : virCgroupHasController host (cgroup (privateData (vm w)))
                   VIR_CGROUP_CONTROLLER_CPU = false) by reflexivity.
  split; [exact Hbw|]. split; [exact Hctl|].
  destruct (bandwidth_needs_cpu_controller host 101 VIR_CGROUP_THREAD_VCPU 0
              None 100000 0 None w Hbw Hctl) as [Hpid Hvcpus].
  split; [exact Hpid|].
  exact (proj1 (Hvcpus eq_refl eq_refl)).
Defined.

(** C10.  When the refresh of the thread inventory answers 0 or a negative
    value, virCHProcessSetupThreads returns that value at once (0 for "no
    threads", the negative value as the failure): the refresh is the only
    call it made, so no emulator, IOThread or vCPU thread was placed and
    the domain record was not saved; the domain object only got the
    refreshed thread cache of its monitor. *)
Theorem virCHProcessSetupThreads_nothing_to_place (host : Host) (w : World) :
  outcome host virCHMonitorRefreshThreadInfo (trace w) <= 0 ->
  let ret := outcome host virCHMonitorRefreshThreadInfo (trace w) in
  let refreshed := {| ev := virCHMonitorRefreshThreadInfo; res := ret |} in
  virCHProcessSetupThreads host w =
    (ret,
     {| vm := set_priv (fun p =>
                with_monitor
                  (with_threads (monitor_threads host (trace w ++ [refreshed]))
                     <$> monitor p) p) (vm w);
        trace := trace w ++ [refreshed] |}).
Proof.
  intros Hle ret refreshed.
  unfold virCHProcessSetupThreads, virCHMonitorRefreshThreadInfo_call,
    body, bind, call, query, write, pure, when, return_, record; simpl.
  fold ret. destruct (ret <=? 0) eqn:E; [reflexivity|].
  apply Z.leb_gt in E. lia.
Qed.

Lemma virCHProcessSetupThreads_nothing_to_place_witness :
  let host :=
    example_host (fun _ _ => 0) every_controller info_running in
  let w := example_world 0 0 (Some example_monitor) in
  outcome host virCHMonitorRefreshThreadInfo (trace w) <= 0 /\
  fst (virCHProcessSetupThreads host w) = 0 /\
  trace (snd (virCHProcessSetupThreads host w)) =
    [ {| ev := virCHMonitorRefreshThreadInfo; res := 0 |} ].
Proof.
  intros host w.
  assert (H : outcome host virCHMonitorRefreshThreadInfo (trace w) <= 0)
    by (simpl; lia).
  split; [exact H|].
  rewrite (virCHProcessSetupThreads_nothing_to_place host w H).
  split; reflexivity.
Defined.

(** C6, as the code has it.  Provided the first test of
    virCHProcessSetupVcpus lets the call through (no domain-level period
    or quota, or a CPU controller is there), and with [w1] the world after
    the reported vCPU thread ids were stored (no call is made for that):
    when no vCPU has a thread id, the setup fails with
    VIR_ERR_OPERATION_INVALID, and nothing else done, if some online vCPU
    has its own cpumask that differs from the domain-wide one, and it
    returns 0 having made no call at all if none has; when thread ids are
    there, it is the placement of the online vCPUs, each by
    virCHProcessSetupVcpu, in index order, which the first failing
    placement ends with -1. *)
Theorem virCHProcessSetupVcpus_policy (host : Host) (w : World) :
  bandwidth_rejected host (vm w) = false ->
  let d := def (vm w) in
  let w1 := snd (virCHProcessSetupVcpuPids host w) in
  trace w1 = trace w /\
  (virCHDomainHasVcpuPids host (vm w1) = false ->
   existsb (custom_affinity host d) (vcpus d) = true ->
   virCHProcessSetupVcpus host w =
     (-1, {| vm := vm w1; trace := trace w ++ [affinity_error] |})) /\
  (virCHDomainHasVcpuPids host (vm w1) = false ->
   existsb (custom_affinity host d) (vcpus d) = false ->
   virCHProcessSetupVcpus host w = (0, w1)) /\
  (virCHDomainHasVcpuPids host (vm w1) = true ->
   virCHProcessSetupVcpus host w =
     place_in_order host (online_vcpus (vcpus d)) w1).
Proof.
  intros Hpass d w1.
  pose proof (virCHProcessSetupVcpus_run host w Hpass) as Hrun.
  cbv zeta in Hrun. fold w1 in Hrun.
  assert (Hcfg : Forall2 same_config (vcpus d) (vcpus (def (vm w1)))).
  { subst w1. rewrite virCHProcessSetupVcpuPids_run. simpl.
    apply record_tids_config. }
  assert (Hmask : cpumask (def (vm w1)) = cpumask d).
  { subst w1. rewrite virCHProcessSetupVcpuPids_run. reflexivity. }
  assert (Htrace : trace w1 = trace w).
  { subst w1. rewrite virCHProcessSetupVcpuPids_run. reflexivity. }
  assert (Hcustom : existsb (custom_affinity host (def (vm w1)))
                            (vcpus (def (vm w1)))
                    = existsb (custom_affinity host d) (vcpus d)).
  { rewrite <- (custom_affinity_config host d _ _ Hcfg).
    unfold custom_affinity. rewrite Hmask. reflexivity. }
  split; [exact Htrace|].
  rewrite Hrun, Hcustom, Htrace. repeat split.
  - intros -> ->. reflexivity.
  - intros -> ->. reflexivity.
  - intros ->. unfold online_vcpus.
    rewrite (online_from_config 0 _ _ Hcfg). reflexivity.
Qed.

Lemma virCHProcessSetupVcpus_policy_witness :
  let host := example_host all_succeed every_controller info_running in
  let w := example_world 0 0 (Some example_monitor_threads) in
  bandwidth_rejected host (vm w) = false /\
  virCHProcessSetupVcpus host w =
    place_in_order host [0%nat; 1%nat]
                   (snd (virCHProcessSetupVcpuPids host w)).
Proof.
  intros host w.
  assert (Hpass : bandwidth_rejected host (vm w) = false) by reflexivity.
  split; [exact Hpass|].
  exact (proj2 (proj2 (proj2 (virCHProcessSetupVcpus_policy host w Hpass)))
           eq_refl).
Defined.

(** C6 as stated fails.  (1) No vCPU has a thread id and no vCPU has a
    cpumask of its own, yet the setup does not return success: a period is
    configured and there is no CPU controller, so it fails with
    VIR_ERR_CONFIG_UNSUPPORTED.  (2) Thread ids are there and both vCPUs
    are online, yet vCPU 1 is never placed: the placement of vCPU 0 fails
    and ends the setup. *)
Lemma virCHProcessSetupVcpus_counterexample :
  (let host := example_host all_succeed no_controller info_running in
   let w := example_world 100000 0 None in
   virCHDomainHasVcpuPids host (vm (snd (virCHProcessSetupVcpuPids host w)))
     = false /\
   existsb (custom_affinity host (def (vm w))) (vcpus (def (vm w))) = false /\
   virCHProcessSetupVcpus host w =
     (-1, {| vm := vm w; trace := [bandwidth_error] |})) /\
  (let host := example_host affinity_fails every_controller info_running in
   let w := example_world 0 0 (Some example_monitor_threads) in
   virCHDomainHasVcpuPids host (vm (snd (virCHProcessSetupVcpuPids host w)))
     = true /\
   online_vcpus (vcpus (def (vm w))) = [0%nat; 1%nat] /\
   fst (virCHProcessSetupVcpus host w) = -1 /\
   count (is_vcpu_scope 0) (trace (snd (virCHProcessSetupVcpus host w)))
     = 1%nat /\
   count (is_vcpu_scope 1) (trace (snd (virCHProcessSetupVcpus host w)))
     = 0%nat).
Proof. vm_compute. repeat split. Qed.

(** C7, as the code has it.  Whatever virCHProcessSetupPid does, every
    virProcessSetAffinity it calls is for the thread [pid] with the mask
    [effective_cpumask]: the mask argument if there is one; otherwise,
    when the CPU placement mode of the domain is automatic,
    priv->autoCpuset as it is (no affinity is set when it is absent);
    otherwise the domain-wide mask if there is one; otherwise the online
    host CPUs.  The cpuset of the thread's cgroup sub-scope gets the mask
    of the same precedence without its last level.  When the call
    succeeds, the effective mask, if any, has been applied, once. *)
Theorem virCHProcessSetupPid_cpumask_precedence
    (host : Host) (pid : Z) (nameval : virCgroupThreadName) (id : Z)
    (cpumask_arg : option virBitmap) (period quota : Z)
    (sched : option virDomainThreadSchedParam) (w : World) :
  exists l,
    trace (snd (virCHProcessSetupPid host pid nameval id cpumask_arg
                                     period quota sched w)) = trace w ++ l /\
    (forall e, In e l -> is_affinity e = true ->
       exists m, ev e = virProcessSetAffinity pid m /\
                 effective_cpumask host cpumask_arg (vm w) = Some m) /\
    (forall e, In e l -> is_cpuset e = true ->
       exists g m, ev e = chSetupCgroupCpusetCpus g m /\
                   cpuset_cpumask cpumask_arg (vm w) = Some m) /\
    (fst (virCHProcessSetupPid host pid nameval id cpumask_arg
                               period quota sched w) = 0 ->
     map ev (List.filter is_affinity l) =
       match effective_cpumask host cpumask_arg (vm w) with
       | Some m => [virProcessSetAffinity pid m]
       | None => []
       end).
Proof. apply virCHProcessSetupPid_affinity. Qed.

Lemma virCHProcessSetupPid_cpumask_precedence_witness :
  let host := example_host all_succeed every_controller info_running in
  let w := example_world 0 0 (Some example_monitor_threads) in
  fst (virCHProcessSetupPid host 101 VIR_CGROUP_THREAD_VCPU 0 None 0 0
                            None w) = 0 /\
  exists l,
    trace (snd (virCHProcessSetupPid host 101 VIR_CGROUP_THREAD_VCPU 0 None
                                     0 0 None w)) = l /\
    map ev (List.filter is_affinity l) = [virProcessSetAffinity 101 15%N].
Proof.
  intros host w.
  assert (Hok : fst (virCHProcessSetupPid host 101 VIR_CGROUP_THREAD_VCPU 0
                       None 0 0 None w) = 0) by reflexivity.
  split; [exact Hok|].
  destruct (virCHProcessSetupPid_cpumask_precedence host 101
              VIR_CGROUP_THREAD_VCPU 0 None 0 0 None w)
    as (l & Htrace & _ & _ & Hmask).
  exists l. split; [exact Htrace|]. exact (Hmask Hok).
Defined.

(** C7 as stated fails.  (1) A domain with a single NUMA node and strict
    memory binding, static CPU placement, automatic CPU set {0,1} and
    domain-wide mask {0,1,2,3}: the words of the specification give
    {0,1}, the code applies {0,1,2,3}.  (2) A domain with automatic CPU
    placement, no automatic CPU set and domain-wide mask {0,1,2,3}: the
    words of the specification give {0,1,2,3}, the code applies no mask
    at all. *)
Lemma cpumask_precedence_counterexample :
  let host := example_host all_succeed every_controller info_running in
  (let w := {| vm := placement_domain VIR_DOMAIN_CPU_PLACEMENT_MODE_STATIC
                       (Some VIR_DOMAIN_NUMATUNE_MEM_STRICT) (Some 3%N);
               trace := [] |} in
   let run := virCHProcessSetupPid host 101 VIR_CGROUP_THREAD_VCPU 0 None
                                   0 0 None w in
   spec_effective_cpumask host None (vm w) = Some 3%N /\
   fst run = 0 /\
   map ev (List.filter is_affinity (trace (snd run)))
     = [virProcessSetAffinity 101 15%N]) /\
  (let w := {| vm := placement_domain VIR_DOMAIN_CPU_PLACEMENT_MODE_AUTO
                       None None;
               trace := [] |} in
   let run := virCHProcessSetupPid host 101 VIR_CGROUP_THREAD_VCPU 0 None
                                   0 0 None w in
   spec_effective_cpumask host None (vm w) = Some 15%N /\
   fst run = 0 /\
   map ev (List.filter is_affinity (trace (snd run))) = []).
Proof. vm_compute. repeat split. Qed.

(** C9, as the code has it.  Take a reconnection task whose reattach part gets
    through (job begun, host devices, monitor, machine name and cgroup
    reattached, state query answered), leaving the world [w1].  If the
    hypervisor reports "Shutdown" to the query, or if the state the domain
    object has after the query is Shutdown, or Paused with reason
    "shutting down", the task runs virCHProcessStop with reason daemon
    and then only releases the domain: it ends with the domain object as
    that Stop leaves it, in state Shutoff with reason daemon, and not
    Running. *)
Theorem virCHProcessReconnect_finishes_shutdown
    (host : Host) (driver : virCHDriver) (w w1 : World) :
  reconnect_reattach host driver w = (Next tt, w1) ->
  reports_shutdown host \/
  state (vm w1) = VIR_DOMAIN_SHUTDOWN \/
  (state (vm w1) = VIR_DOMAIN_PAUSED /\
   reason (vm w1) = VIR_DOMAIN_PAUSED_SHUTTING_DOWN) ->
  let w' := virCHProcessReconnect host driver w in
  let stop := virCHProcessStop host driver VIR_DOMAIN_SHUTOFF_DAEMON w1 in
  state (vm w') = VIR_DOMAIN_SHUTOFF /\
  reason (vm w') = shutoff_reason_int VIR_DOMAIN_SHUTOFF_DAEMON /\
  state (vm w') <> VIR_DOMAIN_RUNNING /\
  vm w' = vm (snd stop) /\
  exists l, trace w' = trace (snd stop) ++ l /\
            forallb is_release l = true.
Proof.
  intros Hre Hst w' stop.
  assert (Hst' : state (vm w1) = VIR_DOMAIN_SHUTDOWN \/
                 (state (vm w1) = VIR_DOMAIN_PAUSED /\
                  reason (vm w1) = VIR_DOMAIN_PAUSED_SHUTTING_DOWN)).
  { destruct Hst as [Hrep|Hst]; [|exact Hst].
    left. eapply reconnect_reattach_shutdown; eauto. }
  destruct (reconnect_finish_shutdown host driver w1 Hst')
    as (l & Hl & Hfin).
  assert (Hrun : w' = snd (reconnect_finish host driver w1)).
  { subst w'. rewrite virCHProcessReconnect_split.
    unfold bind at 1. rewrite Hre. reflexivity. }
  fold stop in Hfin. rewrite Hrun, Hfin. clear Hrun Hfin. subst stop.
  destruct (virCHProcessStop_run host driver VIR_DOMAIN_SHUTOFF_DAEMON w1)
    as (n & ret & post & _ & _ & _ & ->). simpl.
  repeat split; try discriminate.
  exists l. split; [reflexivity|exact Hl].
Qed.

Lemma virCHProcessReconnect_finishes_shutdown_witness :
  (let host := example_host all_succeed every_controller info_shutdown in
   let w := {| vm := found_domain VIR_DOMAIN_RUNNING 1; trace := [] |} in
   let w' := virCHProcessReconnect host example_driver w in
   state (vm w') = VIR_DOMAIN_SHUTOFF /\ reason (vm w') = 8) /\
  (let host := example_host all_succeed every_controller info_no_state in
   let w := {| vm := found_domain VIR_DOMAIN_PAUSED 8; trace := [] |} in
   let w' := virCHProcessReconnect host example_driver w in
   state (vm w') = VIR_DOMAIN_SHUTOFF /\ reason (vm w') = 8).
Proof.
  split; intros host w w'.
  - pose proof (virCHProcessReconnect_finishes_shutdown host example_driver
                  w (snd (reconnect_reattach host example_driver w))
                  eq_refl (or_intror (or_introl eq_refl))) as H.
    exact (conj (proj1 H) (proj1 (proj2 H))).
  - pose proof (virCHProcessReconnect_finishes_shutdown host example_driver
                  w (snd (reconnect_reattach host example_driver w))
                  eq_refl (or_intror (or_intror (conj eq_refl eq_refl))))
      as H.
    exact (conj (proj1 H) (proj1 (proj2 H))).
Defined.

(** C9 as stated fails.  The domain object was loaded as Paused with
    reason "shutting down", and the hypervisor answers "Paused" to the
    state query.  The reattach part gets through; the answer is stored as
    PMSuspended with reason 0, so the test for finishing the shutdown
    does not hold: the task does not run virCHProcessStop (no monitor is
    closed, no cgroup removed), saves the domain status, keeps the domain
    in the list and ends with it PMSuspended, neither Shutoff nor with
    reason daemon. *)
Lemma virCHProcessReconnect_paused_counterexample :
  let host := example_host all_succeed every_controller info_paused in
  let w := {| vm := found_domain VIR_DOMAIN_PAUSED
                                 VIR_DOMAIN_PAUSED_SHUTTING_DOWN;
              trace := [] |} in
  let w' := virCHProcessReconnect host example_driver w in
  reports_paused host /\
  fst (reconnect_reattach host example_driver w) = Next tt /\
  state (vm w') = VIR_DOMAIN_PMSUSPENDED /\
  reason (vm w') = 0 /\
  count is_monitor_close (trace w') = 0%nat /\
  count is_cgroup_removal (trace w') = 0%nat /\
  map ev (trace w') =
    [ virIdentitySetCurrent; virCHDomainObjRestoreJob;
      virCHDomainObjBeginJob; chHostdevUpdateActiveDomainDevices;
      virCHMonitorOpen; virCHDomainGetMachineName; chConnectCgroup;
      virCHMonitorGetInfo; virDomainObjSave; virCHDomainObjEndJob;
      virDomainObjEndAPI; virIdentitySetCurrent ] /\
  ~ (state (vm w') = VIR_DOMAIN_SHUTOFF /\
     reason (vm w') = shutoff_reason_int VIR_DOMAIN_SHUTOFF_DAEMON).
Proof.
  intros host w w'. split.
  { exists (VIR_JSON_TYPE_STRING "Paused").
    split; [intros tr; reflexivity|reflexivity]. }
  vm_compute. repeat split. intros [E _]. discriminate E.
Qed.



(** C1, at the input where the code departs from it.  Everything
    succeeds up to chInterfaceStartDevices, which fails: Start returns -1
    at once.  No virCHProcessStop was run: the monitor was not closed, the
    cgroup not removed, the monitor connection and the domain id are
    still there and the domain is not marked as failed; the last call made
    is chInterfaceStartDevices. *)
Theorem virCHProcessStart_netdev_failure_lingers :
  let host := example_host netdev_fails every_controller info_running in
  let w := example_world 0 0 None in
  let run := virCHProcessStart host example_driver 1 w in
  fst run = -1 /\
  count is_monitor_close (trace (snd run)) = 0%nat /\
  count is_cgroup_removal (trace (snd run)) = 0%nat /\
  priv_monitor (vm (snd run)) = Some example_monitor /\
  def_id (def (vm (snd run))) = 4242 /\
  pid (vm (snd run)) = 4242 /\
  reason (vm (snd run)) <> shutoff_reason_int VIR_DOMAIN_SHUTOFF_FAILED /\
  last (trace (snd run)) =
    Some {| ev := chInterfaceStartDevices; res := -1 |}.
Proof. vm_compute. repeat split; discriminate. Qed.

(** The same start with the boot command failing instead: Stop is run,
    the domain is Shutoff with reason failed. *)
Example virCHProcessStart_boot_failure_stops :
  let host := example_host boot_fails every_controller info_running in
  let w := example_world 0 0 None in
  let run := virCHProcessStart host example_driver 1 w in
  fst run = -1 /\
  count is_monitor_close (trace (snd run)) = 1%nat /\
  count is_cgroup_removal (trace (snd run)) = 1%nat /\
  priv_monitor (vm (snd run)) = None /\
  state (vm (snd run)) = VIR_DOMAIN_SHUTOFF /\
  reason (vm (snd run)) = shutoff_reason_int VIR_DOMAIN_SHUTOFF_FAILED.
Proof. vm_compute. repeat split. Qed.

(** With a cgroup that stays busy, Stop removes 6 times, sleeps 5 times,
    warns and succeeds. *)
Example virCHProcessStop_always_busy :
  let host := example_host always_busy every_controller info_running in
  let w := example_world 0 0 (Some example_monitor) in
  let run := virCHProcessStop host example_driver
                              VIR_DOMAIN_SHUTOFF_DESTROYED w in
  fst run = 0 /\
  count is_cgroup_removal (trace (snd run)) = 6%nat /\
  count is_sleep (trace (snd run)) = 5%nat /\
  state (vm (snd run)) = VIR_DOMAIN_SHUTOFF /\
  reason (vm (snd run)) = 2.
Proof. vm_compute. repeat split. Qed.

(** ** Parts of the domain object a program leaves alone *)

Section Preservation.

Variable host : Host.
Context {A : Type}.
Variable f : virDomainObj -> A.

Lemma preserves_pure {B} (a : B) : preserves f (pure a).
Proof. intros w; reflexivity. Qed.

Lemma preserves_return {B} (r : Z) : preserves f (@return_ B r).
Proof. intros w; reflexivity. Qed.

Lemma preserves_read {B} (g : virDomainObj -> B) : preserves f (read g).
Proof. intros w; reflexivity. Qed.

Lemma preserves_query {B} (g : list Entry -> B) : preserves f (query g).
Proof. intros w; reflexivity. Qed.

Lemma preserves_call (e : Event) : preserves f (call host e).
Proof. intros w; reflexivity. Qed.

Lemma preserves_emit (e : Event) : preserves f (emit e).
Proof. intros w; reflexivity. Qed.

Lemma preserves_write (g : virDomainObj -> virDomainObj) :
  (forall d, f (g d) = f d) -> preserves f (write g).
Proof. intros H w. apply H. Qed.

Lemma preserves_bind {B C} (m : Stmt B) (k : B -> Stmt C) :
  preserves f m -> (forall a, preserves f (k a)) -> preserves f (bind m k).
Proof.
  intros Hm Hk w. unfold bind. specialize (Hm w).
  destruct (m w) as [[a|r] w1]; simpl in *; [|exact Hm].
  rewrite (Hk a w1). exact Hm.
Qed.

Lemma preserves_when (c : bool) (s : Stmt unit) :
  preserves f s -> preserves f (when c s).
Proof. intros H. destruct c; simpl; [exact H|apply preserves_pure]. Qed.

Lemma preserves_for_each {B} (l : list B) (s : B -> Stmt unit) :
  (forall x, preserves f (s x)) -> preserves f (for_each l s).
Proof.
  intros H. induction l as [|x l IH]; simpl.
  - apply preserves_pure.
  - apply preserves_bind; [apply H|intros _; exact IH].
Qed.

Lemma preserves_body (b : Stmt unit) : preserves f b -> preserves f (body b).
Proof.
  intros H w. unfold body. specialize (H w).
  destruct (b w) as [[a|r] w1]; exact H.
Qed.

Lemma preserves_invoke (g : Fn) : preserves f g -> preserves f (invoke g).
Proof.
  intros H w. unfold invoke. specialize (H w).
  destruct (g w) as [r w1]; exact H.
Qed.

Lemma preserves_void_body (b : Stmt unit) :
  preserves f b -> preserves_void f (void_body b).
Proof. intros H w. exact (H w). Qed.

Lemma preserves_invoke_void (g : VoidFn) :
  preserves_void f g -> preserves f (invoke_void g).
Proof. intros H w. exact (H w). Qed.

Lemma keeps_preserves {R} (s : World -> R * World) :
  keeps s -> preserves f s.
Proof. intros H w. rewrite (H w). reflexivity. Qed.

End Preservation.

Ltac preserves_step :=
  lazymatch goal with
  | |- preserves _ (bind _ _) => apply preserves_bind; [|intros ?]
  | |- preserves _ (pure _) => apply preserves_pure
  | |- preserves _ (return_ _) => apply preserves_return
  | |- preserves _ (read _) => apply preserves_read
  | |- preserves _ (query _) => apply preserves_query
  | |- preserves _ (call _ _) => apply preserves_call
  | |- preserves _ (emit _) => apply preserves_emit
  | |- preserves _ (write _) =>
      apply preserves_write;
      let d := fresh "d" in
      intros d; try reflexivity;
      unfold has_monitor, priv_monitor; simpl;
      destruct (monitor (privateData d)); reflexivity
  | |- preserves _ (when _ _) => apply preserves_when
  | |- preserves _ (for_each _ _) => apply preserves_for_each; intros ?
  | |- preserves _ (body _) => apply preserves_body
  | |- preserves _ (invoke _) => apply preserves_invoke
  | |- preserves_void _ (void_body _) => apply preserves_void_body
  | |- preserves _ (invoke_void _) => apply preserves_invoke_void
  | |- preserves _ (match ?c with _ => _ end) => destruct c
  | |- preserves_void _ (match ?c with _ => _ end) => destruct c
  | |- preserves _ (let _ := _ in _) => cbv zeta
  end.

(** What a call appended to the record, from the equation of its run
    and a lemma on what the callee emits. *)
Ltac emitted_by H lemma :=
  let l := fresh "l" in
  let Ht := fresh "Ht" in
  let Hl := fresh "Hl" in
  match type of H with
  | ?f ?w0 = _ =>
      destruct (lemma w0) as (l & Ht & Hl);
      rewrite H in Ht; simpl in Ht
  end.

(** What a call of this file left of the identity of the domain, from the
    equation of its run. *)
Ltac identity_by H lemma :=
  let Hp := fresh "Hid" in
  match type of H with
  | ?f ?w0 = _ => pose proof (lemma w0) as Hp; rewrite H in Hp; simpl in Hp
  end.

Section ProcessPreservation.

Variable host : Host.

(** The functions Start calls between its own writes keep the process
    identifier, the domain id and the presence of the monitor. *)
Lemma chProcessAddNetworkDevices_preserves {A} (f : virDomainObj -> A) mon :
  (forall g d, f (set_def (fun d => with_nets (g (nets d)) d) d) = f d) ->
  preserves f (chProcessAddNetworkDevices host mon).
Proof.
  intros Hf.
  unfold chProcessAddNetworkDevices, chProcessAddNetworkDevices_net,
    chProcessAddNetworkDevices_err.
  repeat first
    [ match goal with
      | |- preserves _ (write (set_def (fun d => with_nets (?g (nets d)) d)))
          => apply preserves_write; intros d; apply (Hf g)
      end
    | preserves_step ].
Qed.

Lemma virCHProcessInitCpuAffinity_keeps :
  keeps (virCHProcessInitCpuAffinity host).
Proof. unfold virCHProcessInitCpuAffinity. repeat keeps_step. Qed.

Lemma virCHProcessUpdateInfo_preserves {A} (f : virDomainObj -> A) :
  (forall st rsn d, f (virDomainObjSetState st rsn d) = f d) ->
  (forall g d, f (set_def (fun d => with_consoles (g (consoles d)) d) d)
               = f d) ->
  (forall g d, f (set_def (fun d => with_serials (g (serials d)) d) d)
               = f d) ->
  preserves f (virCHProcessUpdateInfo host).
Proof.
  intros Hst Hcon Hser.
  unfold virCHProcessUpdateInfo, virCHProcessUpdateStatus,
    virCHProcessUpdateConsole, virCHProcessUpdateConsoleDevice.
  repeat first
    [ match goal with
      | |- preserves _ (write (virDomainObjSetState ?st ?rsn)) =>
          apply preserves_write; intros d; apply Hst
      | |- preserves _
             (write (set_def (fun d => with_consoles (?g (consoles d)) d)))
          => apply preserves_write; intros d; apply (Hcon g)
      | |- preserves _
             (write (set_def (fun d => with_serials (?g (serials d)) d)))
          => apply preserves_write; intros d; apply (Hser g)
      end
    | preserves_step ].
Qed.

Lemma virCHProcessSetupThreads_preserves {A} (f : virDomainObj -> A) :
  (forall g d, f (set_def (fun d => with_vcpus (g (vcpus d)) d) d) = f d) ->
  (forall ths d,
     f (set_priv (fun p => with_monitor (with_threads ths <$> monitor p) p) d)
     = f d) ->
  preserves f (virCHProcessSetupThreads host).
Proof.
  intros Hv Hm.
  unfold virCHProcessSetupThreads, virCHMonitorRefreshThreadInfo_call,
    virCHProcessSetupEmulatorThreads, virCHProcessSetupIOThreads,
    virCHProcessSetupVcpus, virCHProcessSetupVcpuPids.
  repeat first
    [ match goal with
      | |- preserves _
             (write (set_def (fun d => with_vcpus (?g (vcpus d)) d)))
          => apply preserves_write; intros d; apply (Hv g)
      | |- preserves _ (write (set_priv _)) =>
          apply preserves_write; intros d; apply Hm
      | |- preserves _ (virCHProcessSetupIOThread _ _) =>
          apply keeps_preserves; intros w; apply virCHProcessSetupPid_keeps
      | |- preserves _ (virCHProcessSetupEmulatorThread _ _) =>
          apply keeps_preserves; intros w; apply virCHProcessSetupPid_keeps
      | |- preserves _ (virCHProcessSetupVcpu _ _) =>
          apply keeps_preserves; apply virCHProcessSetupVcpu_keeps
      end
    | preserves_step ].
Qed.

Lemma has_monitor_threads ths d :
  has_monitor
    (set_priv (fun p => with_monitor (with_threads ths <$> monitor p) p) d)
  = has_monitor d.
Proof.
  unfold has_monitor, priv_monitor; simpl.
  destruct (monitor (privateData d)); reflexivity.
Qed.

Lemma identity_of_threads ths d :
  identity_of
    (set_priv (fun p => with_monitor (with_threads ths <$> monitor p) p) d)
  = identity_of d.
Proof.
  unfold identity_of. rewrite has_monitor_threads. reflexivity.
Qed.

Lemma chProcessAddNetworkDevices_identity mon :
  preserves identity_of (chProcessAddNetworkDevices host mon).
Proof.
  apply chProcessAddNetworkDevices_preserves. reflexivity.
Qed.

Lemma virCHProcessUpdateInfo_identity :
  preserves identity_of (virCHProcessUpdateInfo host).
Proof.
  apply virCHProcessUpdateInfo_preserves; reflexivity.
Qed.

Lemma virCHProcessSetupThreads_identity :
  preserves identity_of (virCHProcessSetupThreads host).
Proof.
  apply virCHProcessSetupThreads_preserves;
    [reflexivity|apply identity_of_threads].
Qed.

End ProcessPreservation.

(** ** The calls of one thread placement *)

Section PlacementCalls.

Variable host : Host.

Lemma virCHProcessSetupPid_calls
    (pid : Z) (nameval : virCgroupThreadName) (id : Z)
    (cpumask_arg : option virBitmap) (period quota : Z)
    (sched : option virDomainThreadSchedParam) (w : World) :
  let r := fst (virCHProcessSetupPid host pid nameval id cpumask_arg
                                     period quota sched w) in
  exists l,
    trace (snd (virCHProcessSetupPid host pid nameval id cpumask_arg
                                     period quota sched w)) = trace w ++ l /\
    (r = 0 \/ r = -1) /\
    (r = 0 -> forallb (fun e => negb (is_scope_removal e)) l = true) /\
    (r <> 0 ->
     forall e rest g,
       l = e :: rest ->
       ev e = virCgroupNewThread nameval id ->
       thread_cgroup host (trace w ++ [e]) = Some g ->
       last l = Some {| ev := virCgroupRemove g; res := 0 |}) /\
    (forall e, In e l -> is_scheduler e = true ->
       nameval <> VIR_CGROUP_THREAD_EMULATOR /\
       exists s, sched = Some s /\
                 ev e = virProcessSetScheduler pid (policy s) (priority s)) /\
    (r = 0 ->
     forall s, sched = Some s -> nameval <> VIR_CGROUP_THREAD_EMULATOR ->
       exists res,
         last l = Some {| ev := virProcessSetScheduler pid (policy s)
                                                       (priority s);
                          res := res |} /\ 0 <= res) /\
    (r = 0 -> increasing_below 7 (map placement_rank l) = true).
Proof.
  unfold virCHProcessSetupPid, virCHProcessSetupPid_cleanup,
    body, bind, read, call, query, emit, when, pure, return_, record.
  destruct w as [d t]; simpl.
  set (bw := negb (period =? 0) || negb (quota =? 0)).
  repeat case_step.
  all: rewrite <- ?app_assoc; simpl; eexists;
    (split; [first [reflexivity|symmetry; apply app_nil_r]|]).
  all: split; [first [left; reflexivity|right; reflexivity]|].
  all: split; [intros Hr; try discriminate Hr; reflexivity|].
  all: split;
    [ intros Hr e rest g Hl Hev Hg;
      try (exfalso; apply Hr; reflexivity);
      try discriminate Hl;
      injection Hl as <- <-; simpl in Hev; try discriminate Hev;
      simpl in Hg;
      match goal with
      | H : thread_cgroup host _ = _ |- _ =>
          rewrite H in Hg; try discriminate Hg; injection Hg as <-;
          reflexivity
      end
    | ].
  all: split;
    [ intros e Hin Hs; simpl in Hin;
      repeat (destruct Hin as [<-|Hin]; [try discriminate Hs|]);
      try contradiction;
      (split;
         [ intros Hn;
           match goal with
           | H : negb (bool_decide _) = true |- _ =>
               rewrite (bool_decide_eq_true_2 _ Hn) in H; discriminate H
           end
         | eexists; split; reflexivity ])
    | ].
  all: split; [|intros Hr; try discriminate Hr; reflexivity].
  all: intros Hr s0 Hs Hne; try discriminate Hr; try discriminate Hs.
  all: injection Hs as <-.
  all: try (exfalso;
            match goal with
            | H : negb (bool_decide _) = false |- _ =>
                apply negb_false_iff, bool_decide_eq_true in H;
                exact (Hne H)
            end).
  all: eexists; split; [reflexivity|apply Z.ltb_ge].
  all: match goal with
       | H : (outcome host (virProcessSetScheduler _ _ _) _ <? 0) = false
         |- _ => rewrite <- ?app_assoc in H; simpl in H; exact H
       end.
Qed.

End PlacementCalls.

(** ** Emulator threads, IOThreads and vCPU thread ids *)

Section ThreadLists.

Variable host : Host.

Lemma place_each_result {A} (place : A -> Fn) (l : list A) (w : World) :
  fst (place_each place l w) = 0 \/ fst (place_each place l w) = -1.
Proof.
  revert w. induction l as [|x l IH]; intros w; simpl; [auto|].
  destruct (place x w) as [r w1].
  destruct (r <? 0); simpl; auto.
Qed.

(** A loop that places every item and leaves at the first failure. *)
Lemma for_each_place {A} (place : A -> Fn) (l : list A) (w : World) :
  for_each l (fun x =>
    r <- invoke (place x) ;;
    when (r <? 0) (return_ (-1))) w =
  (if fst (place_each place l w) <? 0 then Return (-1) else Next tt,
   snd (place_each place l w)).
Proof.
  revert w. induction l as [|x l IH]; intros w; [reflexivity|].
  cbn [for_each place_each]. unfold bind at 1. unfold bind at 1, invoke at 1.
  destruct (place x w) as [r w1].
  destruct (r <? 0); cbn [when]; [reflexivity|].
  unfold pure at 1. apply IH.
Qed.

(** The loop of virCHProcessSetupEmulatorThreads, run from index [i] to
    the end of the thread cache. *)
Lemma virCHProcessSetupEmulatorThreads_loop (i k : nat) (w : World) :
  (i + k = length (monitor_thread_list (vm w)))%nat ->
  for_each (seq i k) (fun i =>
    ths <- read monitor_thread_list ;;
    match ths !! i with
    | Some th =>
        when (bool_decide (thr_type th = virCHThreadTypeEmulator))
             (r <- invoke (virCHProcessSetupEmulatorThread host (thr_tid th)) ;;
              when (r <? 0) (return_ (-1)))
    | None => pure tt
    end) w =
  let run :=
    place_each (fun th => virCHProcessSetupEmulatorThread host (thr_tid th))
               (List.filter is_emulator_thread
                            (drop i (monitor_thread_list (vm w)))) w in
  (if fst run <? 0 then Return (-1) else Next tt, snd run).
Proof.
  cbv zeta. revert i w. induction k as [|k IH]; intros i w Hlen.
  - rewrite drop_ge by lia. reflexivity.
  - cbn [seq for_each]. unfold bind at 1. unfold bind at 1. unfold read at 1.
    destruct (lookup_lt_is_Some_2 (monitor_thread_list (vm w)) i)
      as [th Hth]; [lia|].
    rewrite Hth. rewrite (drop_S _ _ _ Hth). cbn [List.filter].
    change (bool_decide (thr_type th = virCHThreadTypeEmulator))
      with (is_emulator_thread th).
    destruct (is_emulator_thread th); cbn [when].
    + cbn [place_each]. unfold bind at 1, invoke at 1.
      pose proof (virCHProcessSetupPid_keeps host (thr_tid th)
                    VIR_CGROUP_THREAD_EMULATOR 0
                    (emulatorpin (cputune (def (vm w))))
                    (emulator_period (cputune (def (vm w))))
                    (emulator_quota (cputune (def (vm w))))
                    (emulatorsched (cputune (def (vm w)))) w) as Hkeep.
      change (virCHProcessSetupPid host (thr_tid th)
                VIR_CGROUP_THREAD_EMULATOR 0
                (emulatorpin (cputune (def (vm w))))
                (emulator_period (cputune (def (vm w))))
                (emulator_quota (cputune (def (vm w))))
                (emulatorsched (cputune (def (vm w)))) w)
        with (virCHProcessSetupEmulatorThread host (thr_tid th) w) in Hkeep.
      destruct (virCHProcessSetupEmulatorThread host (thr_tid th) w)
        as [r w1]. simpl in Hkeep.
      destruct (r <? 0); cbn [when].
      * reflexivity.
      * unfold pure at 1. rewrite IH by (rewrite Hkeep; lia).
        rewrite Hkeep. reflexivity.
    + unfold pure at 1. apply IH. lia.
Qed.

(** What the roster holds at index [c] once the thread ids are stored. *)
Lemma record_tids_lookup (info : list virCHMonitorThreadInfo)
    (l : list virDomainVcpuDef) (c : nat) :
  record_tids info l !! c = store_tid (reported_tid info c) <$> l !! c.
Proof.
  unfold record_tids, reported_tid. revert l.
  induction info as [|th info IH]; intros l; cbn [fold_left List.filter].
  - simpl. destruct (l !! c); reflexivity.
  - rewrite IH.
    destruct (bool_decide (thr_type th = virCHThreadTypeVcpu)); cbn [andb].
    + destruct (decide (cpuid th = c)) as [->|Hne].
      * rewrite bool_decide_eq_true_2 by reflexivity.
        rewrite list_lookup_alter_eq.
        destruct (l !! c) as [v|]; [|reflexivity]. simpl. f_equal.
        destruct (List.filter _ info) as [|th' rest] eqn:E.
        -- reflexivity.
        -- rewrite last_cons_cons.
           destruct (last (th' :: rest)) eqn:El; [reflexivity|].
           apply last_None in El. discriminate El.
      * rewrite bool_decide_eq_false_2 by assumption.
        rewrite list_lookup_alter_ne by assumption. reflexivity.
    + reflexivity.
Qed.

(** The three placement stages do not save the domain status. *)
Lemma virCHProcessSetupPid_no_save pid nameval id cpumask_arg period quota
    sched :
  emits (fun e => negb (is_save e))
    (virCHProcessSetupPid host pid nameval id cpumask_arg period quota sched).
Proof.
  unfold virCHProcessSetupPid, virCHProcessSetupPid_cleanup.
  repeat emits_step.
Qed.

Lemma virCHProcessSetupVcpu_no_save (vcpuid : nat) :
  emits (fun e => negb (is_save e)) (virCHProcessSetupVcpu host vcpuid).
Proof.
  intros w. unfold virCHProcessSetupVcpu.
  destruct (vcpus (def (vm w)) !! vcpuid).
  - apply virCHProcessSetupPid_no_save.
  - exists []. rewrite app_nil_r. split; reflexivity.
Qed.

Lemma virCHProcessSetupEmulatorThreads_no_save :
  emits (fun e => negb (is_save e)) (virCHProcessSetupEmulatorThreads host).
Proof.
  unfold virCHProcessSetupEmulatorThreads.
  repeat first
    [ emits_step
    | intros w; apply virCHProcessSetupPid_no_save ].
Qed.

Lemma virCHProcessSetupIOThreads_no_save :
  emits (fun e => negb (is_save e)) (virCHProcessSetupIOThreads host).
Proof.
  unfold virCHProcessSetupIOThreads.
  repeat first
    [ emits_step
    | intros w; apply virCHProcessSetupPid_no_save ].
Qed.

Lemma virCHProcessSetupVcpus_no_save :
  emits (fun e => negb (is_save e)) (virCHProcessSetupVcpus host).
Proof.
  unfold virCHProcessSetupVcpus, virCHProcessSetupVcpuPids.
  repeat first
    [ emits_step
    | apply virCHProcessSetupVcpu_no_save ].
Qed.

(** Calls none of which is a save, and the same followed by one save. *)
Lemma count_no_save (l : list Entry) (r : Z) :
  forallb (fun e => negb (is_save e)) l = true ->
  count is_save l = 0%nat /\
  count is_save (l ++ [ {| ev := virDomainObjSave; res := r |} ]) = 1%nat.
Proof.
  intros Hl.
  assert (Hnone : count is_save l = 0%nat).
  { apply (count_none is_save (fun e => negb (is_save e)) l); [|exact Hl].
    intros e He. apply negb_true_iff. exact He. }
  split; [exact Hnone|]. rewrite count_app, Hnone. reflexivity.
Qed.

End ThreadLists.

(** ** The network handoff: queue pairs and the socket *)

Section NetworkHandoff.

Variable host : Host.

Lemma with_nets_of_same (d : virDomainObj) :
  with_nets_of (nets (def d)) d = d.
Proof. destruct d as [p [] st rs pr]; reflexivity. Qed.

(** One turn of the device loop settles the queue pairs of device [i] and
    changes nothing else in the domain; when it leaves early its last call
    closed the socket. *)
Lemma chProcessAddNetworkDevices_net_effect (sock : Z) (i : nat) (w : World)
    (net : virDomainNetDef) :
  nets (def (vm w)) !! i = Some net ->
  let run := chProcessAddNetworkDevices_net host sock i w in
  vm (snd run) =
    with_nets_of (<[i := settled net]> (nets (def (vm w)))) (vm w) /\
  exists l,
    trace (snd run) = trace w ++ l /\
    match fst run with
    | Return r => r = -1 /\ last l = Some {| ev := close sock; res := 0 |}
    | Next _ => True
    end.
Proof.
  intros Hnet run. subst run.
  unfold chProcessAddNetworkDevices_net, chProcessAddNetworkDevices_err.
  unfold bind, read, write, pure, call, query, when, return_.
  destruct w as [d t]; simpl in *. rewrite Hnet.
  unfold settled. destruct (queues net =? 0) eqn:Hq; simpl.
  all: repeat case_step.
  all: try match goal with
       | H : for_each _ (fun fd => emit (close fd)) _ = _ |- _ =>
           rewrite close_fds_run in H; injection H as ? ?; subst
       end; try discriminate.
  all: simpl; rewrite <- ?app_assoc; simpl.
  all: (split;
         [ first [ reflexivity
                 | rewrite (list_insert_id _ _ _ Hnet); symmetry;
                   apply with_nets_of_same ]
         | ]).
  all: eexists; (split; [reflexivity|]); try exact I.
  all: split; [reflexivity|].
  all: rewrite ?last_cons, ?last_app; reflexivity.
Qed.

Lemma settle_one (i : nat) (l : list virDomainNetDef) (x : virDomainNetDef) :
  l !! i = Some x -> <[i := settled x]> l = settle_between i (S i) l.
Proof.
  intros H. unfold settle_between.
  rewrite insert_take_drop by (eapply lookup_lt_Some; eauto).
  replace (S i - i)%nat with 1%nat by lia.
  rewrite (drop_S _ _ _ H). reflexivity.
Qed.

Lemma settle_more (i j : nat) (l : list virDomainNetDef)
    (x : virDomainNetDef) :
  l !! i = Some x -> (i < j)%nat ->
  settle_between (S i) j (<[i := settled x]> l) = settle_between i j l.
Proof.
  intros H Hj. unfold settle_between.
  assert (Hi : (i < length l)%nat) by (eapply lookup_lt_Some; eauto).
  rewrite drop_insert_lt by lia. rewrite drop_insert_lt by lia.
  erewrite take_S_r by (rewrite list_lookup_insert_eq; [reflexivity|lia]).
  rewrite take_insert_ge by lia.
  replace (j - i)%nat with (S (j - S i)) by lia.
  rewrite (drop_S _ _ _ H). simpl. rewrite <- app_assoc. reflexivity.
Qed.

(** The device loop from device [i] on: the devices from [i] up to some
    [j] are settled, all the remaining ones when the loop runs to its
    end; when it leaves early its last call closed the socket. *)
Lemma chProcessAddNetworkDevices_loop_effect (sock : Z) (i k : nat)
    (w : World) :
  (i + k = length (nets (def (vm w))))%nat ->
  let run := for_each (seq i k) (chProcessAddNetworkDevices_net host sock) w in
  exists j l,
    (i <= j <= i + k)%nat /\
    vm (snd run) =
      with_nets_of (settle_between i j (nets (def (vm w)))) (vm w) /\
    trace (snd run) = trace w ++ l /\
    match fst run with
    | Return r => r = -1 /\ last l = Some {| ev := close sock; res := 0 |}
    | Next _ => j = (i + k)%nat
    end.
Proof.
  revert i w. induction k as [|k IH]; intros i w Hlen; cbv zeta.
  - exists i, []. simpl. rewrite app_nil_r.
    split; [lia|]. split; [|split; [reflexivity|lia]].
    unfold settle_between. rewrite Nat.sub_diag. simpl.
    rewrite take_drop. symmetry. apply with_nets_of_same.
  - assert (Hrun :
      for_each (seq i (S k)) (chProcessAddNetworkDevices_net host sock) w =
      match chProcessAddNetworkDevices_net host sock i w with
      | (Next _, w1) =>
          for_each (seq (S i) k) (chProcessAddNetworkDevices_net host sock) w1
      | (Return r, w1) => (Return r, w1)
      end).
    { cbn [seq for_each]. unfold bind.
      destruct (chProcessAddNetworkDevices_net host sock i w)
        as [[[]|r] w1]; reflexivity. }
    rewrite Hrun. clear Hrun.
    destruct (lookup_lt_is_Some_2 (nets (def (vm w))) i) as [net Hnet];
      [lia|].
    destruct (chProcessAddNetworkDevices_net_effect sock i w net Hnet)
      as (Hvm & l1 & Ht1 & Hend).
    destruct (chProcessAddNetworkDevices_net host sock i w) as [[[]|r] w1];
      simpl in Hvm, Ht1, Hend; cbv beta iota.
    + specialize (IH (S i) w1).
      destruct IH as (j & l2 & Hj & Hvm2 & Ht2 & Hend2).
      { rewrite Hvm. simpl. rewrite length_insert. lia. }
      exists j, (l1 ++ l2).
      split; [lia|]. split; [|split].
      * rewrite Hvm2, Hvm. simpl.
        rewrite settle_more by (assumption || lia).
        destruct (vm w) as [p [] st rs pr]; reflexivity.
      * rewrite Ht2, Ht1, app_assoc. reflexivity.
      * destruct (fst (for_each _ _ w1)) as [[]|r].
        -- lia.
        -- destruct Hend2 as (-> & Hlast). split; [reflexivity|].
           rewrite last_app, Hlast. reflexivity.
    + exists (S i), l1. simpl.
      split; [lia|]. split; [|split; assumption].
      rewrite Hvm, settle_one by assumption. reflexivity.
Qed.

Lemma settle_between_0 (j : nat) (l : list virDomainNetDef) :
  settle_between 0 j l = map settled (take j l) ++ drop j l.
Proof. unfold settle_between. rewrite Nat.sub_0_r, drop_0. reflexivity. Qed.

Lemma settled_queues (l : list virDomainNetDef) :
  Forall (fun net => queues net <> 0) (map settled l).
Proof.
  apply Forall_map, Forall_forall. intros net _. unfold settled.
  destruct (queues net =? 0) eqn:E; simpl; [discriminate|].
  apply Z.eqb_neq. exact E.
Qed.

Lemma net_fds_length (fd_len : Z) (stored : list Z) :
  length (net_fds fd_len stored) = Z.to_nat fd_len.
Proof.
  unfold net_fds. rewrite length_take, length_app, length_replicate. lia.
Qed.

Lemma after_closes_map (fds : list Z) (l : list Entry) :
  after_closes fds (map (fun fd => {| ev := close fd; res := 0 |}) fds ++ l)
  = Some l.
Proof.
  induction fds as [|fd fds IH]; simpl; [reflexivity|].
  rewrite Z.eqb_refl. exact IH.
Qed.

Lemma descriptors_closed_closes (fds : list Z) (l : list Entry) :
  descriptors_closed
    (map (fun fd => {| ev := close fd; res := 0 |}) fds ++ l)
  = descriptors_closed l.
Proof. induction fds as [|fd fds IH]; simpl; [reflexivity|exact IH]. Qed.

(** What one turn of the device loop appends keeps the sends of the whole
    record in order. *)
Lemma chProcessAddNetworkDevices_net_closed (sock : Z) (i : nat) (w : World) :
  exists l,
    trace (snd (chProcessAddNetworkDevices_net host sock i w)) =
      trace w ++ l /\
    forall l2, descriptors_closed (l ++ l2) = descriptors_closed l2.
Proof.
  unfold chProcessAddNetworkDevices_net, chProcessAddNetworkDevices_err.
  unfold bind, read, write, pure, call, query, when, return_.
  destruct w as [d t]; simpl.
  repeat case_step.
  all: try match goal with
       | H : for_each _ (fun fd => emit (close fd)) _ = _ |- _ =>
           rewrite close_fds_run in H; injection H as ? ?; subst
       end; try discriminate.
  all: simpl; rewrite <- ?app_assoc; simpl.
  all: eexists; (split; [first [reflexivity|symmetry; apply app_nil_r]|]).
  all: intros l2; simpl; rewrite <- ?app_assoc; simpl.
  all: rewrite ?net_fds_length, ?Nat.eqb_refl; simpl.
  all: try reflexivity.
  all: repeat match goal with
         | H : (?x <? 0) = _ |- context [?x <? 0] => rewrite H
         end.
  all: rewrite ?after_closes_map, ?descriptors_closed_closes; simpl.
  all: rewrite ?Z.eqb_refl; reflexivity.
Qed.

Lemma chProcessAddNetworkDevices_loop_closed (sock : Z) (ids : list nat)
    (w : World) :
  exists l,
    trace (snd (for_each ids (chProcessAddNetworkDevices_net host sock) w)) =
      trace w ++ l /\
    forall l2, descriptors_closed (l ++ l2) = descriptors_closed l2.
Proof.
  revert w. induction ids as [|i ids IH]; intros w.
  - exists []. simpl. rewrite app_nil_r. split; reflexivity.
  - cbn [for_each]. unfold bind.
    destruct (chProcessAddNetworkDevices_net_closed sock i w)
      as (l1 & Ht1 & Hc1).
    destruct (chProcessAddNetworkDevices_net host sock i w) as [[[]|r] w1];
      simpl in Ht1.
    + destruct (IH w1) as (l2 & Ht2 & Hc2).
      exists (l1 ++ l2). rewrite Ht2, Ht1, app_assoc.
      split; [reflexivity|].
      intros l3. rewrite <- app_assoc, Hc1. apply Hc2.
    + exists l1. split; assumption.
Qed.

End NetworkHandoff.

(** ** The calls of a stop and of a reconnection *)

Section ReconnectCalls.

Variable host : Host.
Variable driver : virCHDriver.

Lemma virCHProcessStop_calls (rsn : virDomainShutoffReason) :
  emits is_stop_call (virCHProcessStop host driver rsn).
Proof.
  intros w.
  destruct (virCHProcessStop_run host driver rsn w)
    as (n & ret & post & _ & _ & Hpost & ->).
  eexists; split; [reflexivity|].
  rewrite !forallb_app. repeat (apply andb_true_iff; split).
  - unfold stop_prefix. destruct (bool_decide _); reflexivity.
  - unfold retry_entries. induction n as [|n IH]; simpl; [|exact IH].
    destruct (ret <? 0); reflexivity.
  - revert Hpost. apply forallb_weaken. intros e.
    unfold is_status_cleanup, is_stop_call.
    destruct (ev e); intros; try discriminate; reflexivity.
Qed.

Lemma virCHProcessStop_outside_job (rsn : virDomainShutoffReason) :
  emits outside_job (virCHProcessStop host driver rsn).
Proof.
  intros w. destruct (virCHProcessStop_calls rsn w) as (l & Ht & Hl).
  exists l. split; [exact Ht|].
  revert Hl. apply forallb_weaken. intros e.
  unfold is_stop_call, outside_job, is_job_begin, is_job_end.
  destruct (ev e); intros; try discriminate; reflexivity.
Qed.

Lemma virCHProcessUpdateInfo_outside_job :
  emits outside_job (virCHProcessUpdateInfo host).
Proof.
  unfold virCHProcessUpdateInfo, virCHProcessUpdateStatus,
    virCHProcessUpdateConsole, virCHProcessUpdateConsoleDevice.
  repeat emits_step.
Qed.

Lemma count_cons (p : Entry -> bool) (e : Entry) (l : list Entry) :
  count p (e :: l) = ((if p e then 1 else 0) + count p l)%nat.
Proof. unfold count. simpl. destruct (p e); reflexivity. Qed.

Lemma count_outside_job (l : list Entry) :
  forallb outside_job l = true ->
  count is_job_begin l = 0%nat /\ count is_job_end l = 0%nat.
Proof.
  intros H. split; apply (count_none _ outside_job); try exact H.
  all: intros e He; unfold outside_job in He;
    apply andb_true_iff in He; destruct He as [H1 H2];
    apply negb_true_iff in H1, H2; assumption.
Qed.

(** The state query does not make a domain Paused. *)
Lemma virCHProcessUpdateInfo_paused (w : World) :
  state (vm (snd (virCHProcessUpdateInfo host w))) = VIR_DOMAIN_PAUSED ->
  state (vm w) = VIR_DOMAIN_PAUSED /\
  reason (vm (snd (virCHProcessUpdateInfo host w))) = reason (vm w).
Proof.
  unfold virCHProcessUpdateInfo, virCHProcessUpdateStatus,
    virCHProcessUpdateConsole, virCHProcessUpdateConsoleDevice,
    body, void_body.
  unfold bind, call, emit, read, write, query, invoke, invoke_void,
    when, pure, return_.
  destruct w as [d t]; simpl.
  repeat case_step; simpl; intros H; try discriminate H; auto.
Qed.

(** What is neither the creation of a monitor connection nor of a VM. *)
Lemma virCHProcessStop_no_creation (rsn : virDomainShutoffReason) :
  emits (fun e => negb (is_monitor_creation e))
        (virCHProcessStop host driver rsn).
Proof.
  intros w. destruct (virCHProcessStop_calls rsn w) as (l & Ht & Hl).
  exists l. split; [exact Ht|].
  revert Hl. apply forallb_weaken. intros e.
  unfold is_stop_call, is_monitor_creation.
  destruct (ev e); intros; try discriminate; reflexivity.
Qed.

Lemma chProcessAddNetworkDevices_no_creation (mon : option virCHMonitor) :
  emits (fun e => negb (is_monitor_creation e))
        (chProcessAddNetworkDevices host mon).
Proof.
  unfold chProcessAddNetworkDevices, chProcessAddNetworkDevices_net,
    chProcessAddNetworkDevices_err.
  repeat emits_step.
Qed.

Lemma virCHProcessInitCpuAffinity_no_creation :
  emits (fun e => negb (is_monitor_creation e))
        (virCHProcessInitCpuAffinity host).
Proof.
  unfold virCHProcessInitCpuAffinity.
  repeat emits_step.
Qed.

Lemma virCHProcessUpdateInfo_no_creation :
  emits (fun e => negb (is_monitor_creation e))
        (virCHProcessUpdateInfo host).
Proof.
  unfold virCHProcessUpdateInfo, virCHProcessUpdateStatus,
    virCHProcessUpdateConsole, virCHProcessUpdateConsoleDevice.
  repeat emits_step.
Qed.

Lemma virCHProcessSetupPid_no_creation pid nameval id cpumask_arg period
    quota sched :
  emits (fun e => negb (is_monitor_creation e))
    (virCHProcessSetupPid host pid nameval id cpumask_arg period quota sched).
Proof.
  unfold virCHProcessSetupPid, virCHProcessSetupPid_cleanup.
  repeat emits_step.
Qed.

Lemma virCHProcessSetupThreads_no_creation :
  emits (fun e => negb (is_monitor_creation e))
        (virCHProcessSetupThreads host).
Proof.
  unfold virCHProcessSetupThreads, virCHMonitorRefreshThreadInfo_call,
    virCHProcessSetupEmulatorThreads, virCHProcessSetupIOThreads,
    virCHProcessSetupVcpus, virCHProcessSetupVcpuPids.
  repeat first
    [ emits_step
    | intros w; apply virCHProcessSetupPid_no_creation
    | intros w; unfold virCHProcessSetupVcpu;
      destruct (vcpus (def (vm w)) !! _);
      [ apply virCHProcessSetupPid_no_creation
      | exists []; rewrite app_nil_r; split; reflexivity ] ].
Qed.

End ReconnectCalls.

(** ** What a start does before and after the boot command *)

Section StartOrder.

Variable host : Host.

Lemma chProcessAddNetworkDevices_quiet (mon : option virCHMonitor) :
  emits quiet_before_boot (chProcessAddNetworkDevices host mon).
Proof.
  unfold chProcessAddNetworkDevices, chProcessAddNetworkDevices_net,
    chProcessAddNetworkDevices_err.
  repeat emits_step.
Qed.

Lemma virCHProcessInitCpuAffinity_quiet :
  emits quiet_before_boot (virCHProcessInitCpuAffinity host).
Proof.
  unfold virCHProcessInitCpuAffinity.
  repeat emits_step.
Qed.

Lemma virCHProcessUpdateInfo_quiet :
  emits quiet_after_boot (virCHProcessUpdateInfo host).
Proof.
  unfold virCHProcessUpdateInfo, virCHProcessUpdateStatus,
    virCHProcessUpdateConsole, virCHProcessUpdateConsoleDevice.
  repeat emits_step.
Qed.

Lemma virCHProcessSetupPid_quiet pid nameval id cpumask_arg period quota
    sched :
  emits quiet_after_boot
    (virCHProcessSetupPid host pid nameval id cpumask_arg period quota sched).
Proof.
  unfold virCHProcessSetupPid, virCHProcessSetupPid_cleanup.
  repeat emits_step.
Qed.

Lemma virCHProcessSetupVcpu_quiet (vcpuid : nat) :
  emits quiet_after_boot (virCHProcessSetupVcpu host vcpuid).
Proof.
  intros w. unfold virCHProcessSetupVcpu.
  destruct (vcpus (def (vm w)) !! vcpuid).
  - apply virCHProcessSetupPid_quiet.
  - exists []. rewrite app_nil_r. split; reflexivity.
Qed.

Lemma virCHProcessSetupThreads_quiet :
  emits quiet_after_boot (virCHProcessSetupThreads host).
Proof.
  unfold virCHProcessSetupThreads, virCHMonitorRefreshThreadInfo_call,
    virCHProcessSetupEmulatorThreads, virCHProcessSetupIOThreads,
    virCHProcessSetupVcpus, virCHProcessSetupVcpuPids.
  repeat first
    [ emits_step
    | intros w; apply virCHProcessSetupPid_quiet
    | apply virCHProcessSetupVcpu_quiet ].
Qed.

Lemma quiet_before_boot_facts (l : list Entry) :
  forallb quiet_before_boot l = true ->
  forallb not_boot l = true /\
  count is_domain_cgroup_setup l = 0%nat /\
  count is_netdev_start l = 0%nat /\
  forallb (fun e => negb (is_thread_cgroup_call e) && negb (is_scheduler e))
          l = true.
Proof.
  intros H. repeat split.
  - revert H. apply forallb_weaken. intros e.
    unfold quiet_before_boot. rewrite !andb_true_iff. tauto.
  - apply (count_none _ quiet_before_boot); [|exact H].
    intros e. unfold quiet_before_boot. rewrite !andb_true_iff, !negb_true_iff.
    tauto.
  - apply (count_none _ quiet_before_boot); [|exact H].
    intros e. unfold quiet_before_boot. rewrite !andb_true_iff, !negb_true_iff.
    tauto.
  - revert H. apply forallb_weaken. intros e.
    unfold quiet_before_boot. rewrite !andb_true_iff. tauto.
Qed.

Lemma quiet_after_boot_facts (l : list Entry) :
  forallb quiet_after_boot l = true ->
  count is_domain_cgroup_setup l = 0%nat /\
  count is_netdev_start l = 0%nat.
Proof.
  intros H. split.
  - apply (count_none _ quiet_after_boot); [|exact H].
    intros e. unfold quiet_after_boot. rewrite !andb_true_iff, !negb_true_iff.
    tauto.
  - apply (count_none _ quiet_after_boot); [|exact H].
    intros e. unfold quiet_after_boot. rewrite !andb_true_iff, !negb_true_iff.
    tauto.
Qed.

End StartOrder.

(** ** Further properties of the process supervisor *)

Section StartOutcome.

Variable host : Host.
Variable driver : virCHDriver.

Lemma virCHProcessInitCpuAffinity_pid (w w1 : World) (r : Z) :
  virCHProcessInitCpuAffinity host w = (r, w1) ->
  (r <? 0) = false ->
  HAVE_CPU_AFFINITY host = true ->
  pid (vm w) <> 0.
Proof.
  unfold virCHProcessInitCpuAffinity, body.
  unfold bind, call, emit, read, write, query, invoke, when, pure, return_.
  intros H Hr Hcfg. rewrite Hcfg in H.
  destruct (pid (vm w) =? 0) eqn:E.
  - simpl in H. injection H as <- _. discriminate Hr.
  - apply Z.eqb_neq. exact E.
Qed.

(** X1.  A start that returns 0 leaves the domain Running with the
    reason it was given, the domain id equal to the process identifier,
    and a monitor connection in place; where CPU affinity is supported
    that process identifier is not 0; the last call made is the save of
    the domain status, and it did not fail. *)
Theorem virCHProcessStart_success_state (rsn : Z) (w w' : World) :
  virCHProcessStart host driver rsn w = (0, w') ->
  state (vm w') = VIR_DOMAIN_RUNNING /\
  reason (vm w') = rsn /\
  domain_id (vm w') = pid (vm w') /\
  has_monitor (vm w') = true /\
  (HAVE_CPU_AFFINITY host = true -> pid (vm w') <> 0) /\
  exists tr r,
    trace w' = tr ++ [ {| ev := virDomainObjSave; res := r |} ] /\ 0 <= r.
Proof.
  unfold virCHProcessStart, virCHProcessStart_cleanup,
    virCHProcessConnectMonitor, chSetupCgroup_call,
    virCHMonitorRefreshThreadInfo_call, body.
  unfold bind, call, emit, read, write, query, invoke, when, pure, return_.
  destruct w as [d t]; simpl.
  repeat case_step; intros E; try discriminate E.
  all: injection E as <-.
  all: simpl.
  all: repeat match goal with
         | H : chProcessAddNetworkDevices host ?m _ = _ |- _ =>
             identity_by H (chProcessAddNetworkDevices_identity host m);
             clear H
         | H : virCHProcessInitCpuAffinity host _ = (?z, _),
           Hz : (?z <? 0) = false |- _ =>
             pose proof (virCHProcessInitCpuAffinity_pid _ _ _ H Hz) as Hpid;
             identity_by H
               (keeps_preserves identity_of _
                  (virCHProcessInitCpuAffinity_keeps host));
             clear H
         | H : virCHProcessUpdateInfo host _ = _ |- _ =>
             identity_by H (virCHProcessUpdateInfo_identity host); clear H
         | H : virCHProcessSetupThreads host _ = _ |- _ =>
             identity_by H (virCHProcessSetupThreads_identity host); clear H
         end.
  all: rewrite identity_of_threads in *.
  all: assert (Hfinal : identity_of (vm w2) = (pid d, pid d, true))
    by (repeat match goal with
               | H : identity_of (vm ?w) = _
                 |- context [identity_of (vm ?w)] => rewrite H; clear H
               | |- context [identity_of (set_priv (with_cgroup ?g) ?x)] =>
                   change (identity_of (set_priv (with_cgroup g) x))
                     with (identity_of x)
               end;
        unfold identity_of, has_monitor, domain_id, priv_monitor in *; simpl;
        match goal with
        | H : bool_decide (?m = None) = false |- _ =>
            apply bool_decide_eq_false in H; destruct m;
            [reflexivity|contradiction]
        end).
  all: unfold identity_of in Hfinal; injection Hfinal as Hp Hi Hm.
  all: assert (Hstarted : HAVE_CPU_AFFINITY host = true -> pid d <> 0)
    by (intros Hcfg; apply Hpid in Hcfg; simpl in Hcfg;
        match type of Hcfg with
        | pid (vm ?w) <> 0 =>
            match goal with
            | H : identity_of (vm w) = _ |- _ =>
                apply (f_equal (fun x => fst (fst x))) in H; simpl in H;
                rewrite <- H; exact Hcfg
            end
        end).
  all: simpl in Hp, Hi.
  all: repeat split; try assumption.
  all: try (unfold domain_id in *; simpl; congruence).
  all: try (intros Hcfg; simpl; rewrite Hp; exact (Hstarted Hcfg)).
  all: eexists; eexists; split; [reflexivity|].
  all: apply Z.ltb_ge; assumption.
Qed.

(** X2.  A start returns 0 or -1 and nothing else.  When it returns -1,
    either the domain was stopped on the way out and is now Shutoff with
    reason failed, process identifier and id -1 and no monitor, or the
    last call made is a failed chInterfaceStartDevices. *)
Theorem virCHProcessStart_failure_state (rsn : Z) (w w' : World) (r : Z) :
  virCHProcessStart host driver rsn w = (r, w') ->
  r <> 0 ->
  r = -1 /\
  ((state (vm w') = VIR_DOMAIN_SHUTOFF /\
    reason (vm w') = shutoff_reason_int VIR_DOMAIN_SHUTOFF_FAILED /\
    pid (vm w') = -1 /\ domain_id (vm w') = -1 /\
    has_monitor (vm w') = false) \/
   (exists tr res,
      trace w' = tr ++ [ {| ev := chInterfaceStartDevices; res := res |} ] /\
      res < 0)).
Proof.
  intros Hrun Hr.
  destruct (virCHProcessStart_failure host driver rsn w w' r Hrun Hr)
    as (-> & [(w0 & ->)|Hnet]); (split; [reflexivity|]).
  - left.
    destruct (virCHProcessStop_run host driver VIR_DOMAIN_SHUTOFF_FAILED w0)
      as (n & ret & post & _ & _ & _ & ->). simpl.
    repeat split.
  - right. exact Hnet.
Qed.

(** X17.  In every start that returns 0, the calls made before the
    boot command create the domain's cgroup exactly once and bring the
    host-side network devices up exactly once, and place no thread: no
    per-thread cgroup call and no scheduler call comes before the boot.
    After the boot command neither of the two steps is made again. *)
Theorem virCHProcessStart_confined_before_boot (rsn : Z) (w w' : World) :
  virCHProcessStart host driver rsn w = (0, w') ->
  exists l,
    trace w' = trace w ++ l /\
    count is_domain_cgroup_setup (before_boot l) = 1%nat /\
    count is_netdev_start (before_boot l) = 1%nat /\
    forallb (fun e => negb (is_thread_cgroup_call e) &&
                      negb (is_scheduler e)) (before_boot l) = true /\
    count is_domain_cgroup_setup (after_boot l) = 0%nat /\
    count is_netdev_start (after_boot l) = 0%nat.
Proof.
  unfold virCHProcessStart, virCHProcessStart_cleanup,
    virCHProcessConnectMonitor, chSetupCgroup_call,
    virCHMonitorRefreshThreadInfo_call, body.
  unfold bind, call, emit, read, write, query, invoke, when, pure, return_.
  destruct w as [d t]; simpl.
  repeat case_step; intros E; try discriminate E.
  all: injection E as <-.
  all: repeat match goal with
         | H : chProcessAddNetworkDevices host ?m _ = _ |- _ =>
             emitted_by H (chProcessAddNetworkDevices_quiet host m);
             clear H
         | H : virCHProcessInitCpuAffinity host _ = _ |- _ =>
             emitted_by H (virCHProcessInitCpuAffinity_quiet host); clear H
         | H : virCHProcessUpdateInfo host _ = _ |- _ =>
             emitted_by H (virCHProcessUpdateInfo_quiet host); clear H
         | H : virCHProcessSetupThreads host _ = _ |- _ =>
             emitted_by H (virCHProcessSetupThreads_quiet host); clear H
         end.
  all: repeat match goal with
         | H : (_ <? 0) = false |- _ => clear H
         | H : bool_decide _ = _ |- _ => clear H
         end.
  all: repeat match goal with
         | H : forallb quiet_before_boot ?l0 = true |- _ =>
             destruct (quiet_before_boot_facts l0 H) as (? & ? & ? & ?);
             clear H
         | H : forallb quiet_after_boot ?l0 = true |- _ =>
             destruct (quiet_after_boot_facts l0 H) as (? & ?); clear H
         end.
  all: simpl.
  all: repeat match goal with
         | Ht : trace ?w0 = _ |- _ => rewrite Ht in *; clear Ht
         end.
  all: rewrite <- ?app_assoc; simpl.
  all: eexists; (split; [reflexivity|]).
  all: repeat (simpl;
               rewrite ?before_boot_app, ?after_boot_app by assumption).
  all: rewrite ?count_cons, ?count_app, ?forallb_app.
  all: repeat (simpl; rewrite ?count_cons, ?count_app, ?forallb_app).
  all: repeat match goal with
         | H : count _ _ = 0%nat |- _ => rewrite H; clear H
         | H : forallb _ _ = true |- _ => rewrite H; clear H
         end.
  all: repeat split; reflexivity.
Qed.

(** X25.  A start on a domain that already holds a monitor connection
    uses that connection: it calls neither virCHMonitorNew nor
    virCHMonitorCreateVM, whether it succeeds or fails. *)
Theorem virCHProcessStart_reuses_monitor (rsn : Z) (w : World) :
  has_monitor (vm w) = true ->
  exists l,
    trace (snd (virCHProcessStart host driver rsn w)) = trace w ++ l /\
    forallb (fun e => negb (is_monitor_creation e)) l = true.
Proof.
  intros Hmon.
  assert (Hnone : bool_decide (priv_monitor (vm w) = None) = false).
  { apply bool_decide_eq_false. unfold has_monitor in Hmon.
    destruct (priv_monitor (vm w)); [discriminate|discriminate Hmon]. }
  unfold virCHProcessStart, virCHProcessStart_cleanup,
    virCHProcessConnectMonitor, chSetupCgroup_call,
    virCHMonitorRefreshThreadInfo_call, body.
  unfold bind, call, emit, read, write, query, invoke, when, pure, return_.
  destruct w as [d t]; simpl in *.
  repeat case_step.
  all: try discriminate Hnone.
  all: repeat match goal with
         | H : chProcessAddNetworkDevices host ?m _ = _ |- _ =>
             emitted_by H (chProcessAddNetworkDevices_no_creation host m);
             clear H
         | H : virCHProcessInitCpuAffinity host _ = _ |- _ =>
             emitted_by H (virCHProcessInitCpuAffinity_no_creation host);
             clear H
         | H : virCHProcessUpdateInfo host _ = _ |- _ =>
             emitted_by H (virCHProcessUpdateInfo_no_creation host);
             clear H
         | H : virCHProcessSetupThreads host _ = _ |- _ =>
             emitted_by H (virCHProcessSetupThreads_no_creation host);
             clear H
         | H : virCHProcessStop host driver ?r _ = _ |- _ =>
             emitted_by H (virCHProcessStop_no_creation host driver r);
             clear H
         end.
  all: repeat match goal with
         | H : (_ <? 0) = _ |- _ => clear H
         end.
  all: simpl.
  all: repeat match goal with
         | Ht : trace ?w0 = _ |- _ => rewrite Ht in *; clear Ht
         end.
  all: rewrite <- ?app_assoc; simpl.
  all: eexists; (split; [reflexivity|]).
  all: repeat (simpl; rewrite ?forallb_app).
  all: repeat match goal with
         | H : forallb _ _ = true |- _ => rewrite H; clear H
         end.
  all: reflexivity.
Qed.

End StartOutcome.

Lemma virCHProcessStart_success_state_witness :
  let host := example_host all_succeed every_controller info_running in
  let w := example_world 0 0 None in
  let w' := snd (virCHProcessStart host example_driver 5 w) in
  virCHProcessStart host example_driver 5 w = (0, w') /\
  state (vm w') = VIR_DOMAIN_RUNNING /\ reason (vm w') = 5 /\
  domain_id (vm w') = pid (vm w') /\ has_monitor (vm w') = true.
Proof.
  intros h w w'.
  assert (Hrun : virCHProcessStart h example_driver 5 w = (0, w'))
    by (vm_compute; reflexivity).
  split; [exact Hrun|].
  destruct (virCHProcessStart_success_state h example_driver 5 w w' Hrun)
    as (Hst & Hrsn & Hid & Hmon & _).
  repeat split; assumption.
Defined.

Lemma virCHProcessStart_confined_before_boot_witness :
  let host := example_host all_succeed every_controller info_running in
  let w := example_world 0 0 None in
  let w' := snd (virCHProcessStart host example_driver 1 w) in
  virCHProcessStart host example_driver 1 w = (0, w') /\
  exists l,
    trace w' = trace w ++ l /\
    count is_domain_cgroup_setup (before_boot l) = 1%nat /\
    count is_netdev_start (before_boot l) = 1%nat.
Proof.
  intros h w w'.
  assert (Hrun : virCHProcessStart h example_driver 1 w = (0, w'))
    by (vm_compute; reflexivity).
  split; [exact Hrun|].
  destruct (virCHProcessStart_confined_before_boot h example_driver 1 w w'
              Hrun) as (l & Ht & Hc & Hn & _).
  exists l. repeat split; assumption.
Defined.

Lemma virCHProcessStart_reuses_monitor_witness :
  let host := example_host all_succeed every_controller info_running in
  let w := example_world 0 0 (Some example_monitor) in
  exists l,
    trace (snd (virCHProcessStart host example_driver 1 w)) = trace w ++ l /\
    forallb (fun e => negb (is_monitor_creation e)) l = true.
Proof.
  intros h w.
  apply (virCHProcessStart_reuses_monitor h example_driver 1 w).
  reflexivity.
Defined.

Lemma virCHProcessStart_failure_state_witness :
  let host := example_host boot_fails every_controller info_running in
  let w := example_world 0 0 None in
  let w' := snd (virCHProcessStart host example_driver 1 w) in
  virCHProcessStart host example_driver 1 w = (-1, w') /\
  state (vm w') = VIR_DOMAIN_SHUTOFF /\ pid (vm w') = -1.
Proof.
  intros h w w'.
  assert (Hrun : virCHProcessStart h example_driver 1 w = (-1, w'))
    by (vm_compute; reflexivity).
  split; [exact Hrun|].
  destruct (virCHProcessStart_failure_state h example_driver 1 w w' (-1) Hrun)
    as (_ & [(Hst & _ & Hpid & _)|(tr & res & Ht & _)]); [lia| |].
  - split; assumption.
  - exfalso.
    apply (f_equal (fun l => ev <$> last l)) in Ht.
    rewrite last_snoc in Ht. vm_compute in Ht. discriminate Ht.
Defined.

Section Placement.

Variable host : Host.

(** X3.  A thread placement returns 0 or -1.  When it fails and its
    first call, virCgroupNewThread, handed back the cgroup sub-scope of
    the thread, the last call it makes is the removal of that sub-scope;
    a placement that succeeds removes nothing. *)
Theorem virCHProcessSetupPid_scope_removed
    (pid : Z) (nameval : virCgroupThreadName) (id : Z)
    (cpumask_arg : option virBitmap) (period quota : Z)
    (sched : option virDomainThreadSchedParam) (w : World) :
  let r := fst (virCHProcessSetupPid host pid nameval id cpumask_arg
                                     period quota sched w) in
  exists l,
    trace (snd (virCHProcessSetupPid host pid nameval id cpumask_arg
                                     period quota sched w)) = trace w ++ l /\
    (r = 0 \/ r = -1) /\
    (r = 0 -> forallb (fun e => negb (is_scope_removal e)) l = true) /\
    (r <> 0 ->
     forall e rest g,
       l = e :: rest ->
       ev e = virCgroupNewThread nameval id ->
       thread_cgroup host (trace w ++ [e]) = Some g ->
       last l = Some {| ev := virCgroupRemove g; res := 0 |}).
Proof.
  intros r.
  destruct (virCHProcessSetupPid_calls host pid nameval id cpumask_arg
              period quota sched w) as (l & Ht & Hr & Hok & Hfail & _).
  exists l. repeat split; assumption.
Qed.

(** X4.  Placing an emulator thread or an IOThread never sets a
    scheduler, whatever the domain configuration says, emulatorsched
    included. *)
Theorem virCHProcessSetupPid_no_scheduler_for_helpers
    (tid : Z) (iothread : virDomainIOThreadInfo) (w : World) :
  (exists l,
     trace (snd (virCHProcessSetupEmulatorThread host tid w)) = trace w ++ l /\
     forallb (fun e => negb (is_scheduler e)) l = true) /\
  (exists l,
     trace (snd (virCHProcessSetupIOThread host iothread w)) = trace w ++ l /\
     forallb (fun e => negb (is_scheduler e)) l = true).
Proof.
  split.
  - unfold virCHProcessSetupEmulatorThread.
    destruct (virCHProcessSetupPid_calls host tid VIR_CGROUP_THREAD_EMULATOR
                0 (emulatorpin (cputune (def (vm w))))
                (emulator_period (cputune (def (vm w))))
                (emulator_quota (cputune (def (vm w))))
                (emulatorsched (cputune (def (vm w)))) w)
      as (l & Ht & _ & _ & _ & Hs & _).
    exists l. split; [exact Ht|].
    apply forallb_forall. intros e Hin.
    destruct (is_scheduler e) eqn:E; [|reflexivity].
    destruct (Hs e Hin E) as (Hne & _). exfalso. apply Hne. reflexivity.
  - unfold virCHProcessSetupIOThread.
    destruct (virCHProcessSetupPid_calls host (iothread_id iothread)
                VIR_CGROUP_THREAD_IOTHREAD (iothread_id iothread)
                (autoCpuset (privateData (vm w)))
                (iothread_period (cputune (def (vm w))))
                (iothread_quota (cputune (def (vm w))))
                None w)
      as (l & Ht & _ & _ & _ & Hs & _).
    exists l. split; [exact Ht|].
    apply forallb_forall. intros e Hin.
    destruct (is_scheduler e) eqn:E; [|reflexivity].
    destruct (Hs e Hin E) as (_ & s & Hsome & _). discriminate Hsome.
Qed.

(** X5.  Placing vCPU [i] of the roster, when it succeeds, ends by
    setting the scheduler of the vCPU's thread to the policy and priority
    configured for that vCPU, and that call did not fail. *)
Theorem virCHProcessSetupVcpu_scheduler
    (i : nat) (vcpu : virDomainVcpuDef) (w : World) :
  vcpus (def (vm w)) !! i = Some vcpu ->
  fst (virCHProcessSetupVcpu host i w) = 0 ->
  exists tr res,
    trace (snd (virCHProcessSetupVcpu host i w)) =
      tr ++ [ {| ev := virProcessSetScheduler (tid vcpu)
                         (policy (sched vcpu)) (priority (sched vcpu));
                 res := res |} ] /\
    0 <= res.
Proof.
  unfold virCHProcessSetupVcpu. intros -> Hr.
  destruct (virCHProcessSetupPid_calls host (tid vcpu) VIR_CGROUP_THREAD_VCPU
              (Z.of_nat i) (vcpu_cpumask vcpu)
              (period (cputune (def (vm w)))) (quota (cputune (def (vm w))))
              (Some (sched vcpu)) w)
    as (l & Ht & _ & _ & _ & _ & Hlast & _).
  destruct (Hlast Hr (sched vcpu) eq_refl) as (res & Hl & Hres);
    [discriminate|].
  apply last_Some in Hl. destruct Hl as (l0 & ->).
  exists (trace w ++ l0), res. rewrite Ht, app_assoc.
  split; [reflexivity|exact Hres].
Qed.

(** X23.  A thread placement that succeeds makes its calls in one order,
    each at most once and nothing else: the sub-scope is created, its
    cpuset CPUs, its cpuset memory nodes and its bandwidth are set, the
    thread joins the sub-scope, then the affinity and the scheduler of the
    thread are set. *)
Theorem virCHProcessSetupPid_order
    (pid : Z) (nameval : virCgroupThreadName) (id : Z)
    (cpumask_arg : option virBitmap) (period quota : Z)
    (sched : option virDomainThreadSchedParam) (w : World) :
  fst (virCHProcessSetupPid host pid nameval id cpumask_arg
                            period quota sched w) = 0 ->
  exists l,
    trace (snd (virCHProcessSetupPid host pid nameval id cpumask_arg
                                     period quota sched w)) = trace w ++ l /\
    increasing_below 7 (map placement_rank l) = true.
Proof.
  intros Hr.
  destruct (virCHProcessSetupPid_calls host pid nameval id cpumask_arg
              period quota sched w) as (l & Ht & _ & _ & _ & _ & _ & Hord).
  exists l. split; [exact Ht|exact (Hord Hr)].
Qed.

(** X6.  When the domain's cgroup offers neither the cpu nor the cpuset
    controller, a thread placement makes no call to the cgroup backend at
    all: no sub-scope is created, limited, joined or removed. *)
Theorem virCHProcessSetupPid_without_controllers
    (pid : Z) (nameval : virCgroupThreadName) (id : Z)
    (cpumask_arg : option virBitmap) (period quota : Z)
    (sched : option virDomainThreadSchedParam) (w : World) :
  virCgroupHasController host (cgroup (privateData (vm w)))
                         VIR_CGROUP_CONTROLLER_CPU = false ->
  virCgroupHasController host (cgroup (privateData (vm w)))
                         VIR_CGROUP_CONTROLLER_CPUSET = false ->
  exists l,
    trace (snd (virCHProcessSetupPid host pid nameval id cpumask_arg
                                     period quota sched w)) = trace w ++ l /\
    forallb (fun e => negb (is_thread_cgroup_call e)) l = true.
Proof.
  intros Hcpu Hcpuset.
  unfold virCHProcessSetupPid, virCHProcessSetupPid_cleanup,
    body, bind, read, call, query, emit, when, pure, return_, record.
  destruct w as [d t]; simpl in *.
  rewrite Hcpu, Hcpuset; simpl.
  set (bw := negb (period =? 0) || negb (quota =? 0)).
  repeat case_step.
  all: rewrite <- ?app_assoc; simpl; eexists;
    (split; [first [reflexivity|symmetry; apply app_nil_r]|]).
  all: reflexivity.
Qed.

(** X7.  Setting the affinity of the hypervisor process changes nothing
    in the domain object.  Built without CPU affinity support it makes no
    call and returns 0.  Otherwise, on a domain whose process identifier
    is 0 it reports an error, makes no other call and returns -1; any
    virProcessSetAffinity call it makes is for the domain's process and
    the mask of [initial_cpumask]: the CPUs of the NUMA node set under a
    single node with strict binding, else emulatorpin, else the online
    host CPUs; when it returns 0 that call, if there is a mask, is the
    only call made. *)
Theorem virCHProcessInitCpuAffinity_mask (w : World) :
  let r := fst (virCHProcessInitCpuAffinity host w) in
  exists l,
    snd (virCHProcessInitCpuAffinity host w) =
      {| vm := vm w; trace := trace w ++ l |} /\
    (HAVE_CPU_AFFINITY host = false -> r = 0 /\ l = []) /\
    (HAVE_CPU_AFFINITY host = true -> pid (vm w) = 0 ->
     r = -1 /\ l = [affinity_unstarted_error]) /\
    (forall e, In e l -> is_affinity e = true ->
       exists m, ev e = virProcessSetAffinity (pid (vm w)) m /\
                 initial_cpumask host (vm w) = Some m) /\
    (HAVE_CPU_AFFINITY host = true -> r = 0 ->
     map ev l =
       match initial_cpumask host (vm w) with
       | Some m => [virProcessSetAffinity (pid (vm w)) m]
       | None => []
       end).
Proof.
  unfold virCHProcessInitCpuAffinity, initial_cpumask, single_node_strict,
    body, bind, read, call, query, emit, when, pure, return_, record.
  destruct w as [d t]; simpl.
  repeat case_step.
  all: rewrite <- ?app_assoc; simpl; eexists;
    (split; [first [reflexivity
                   |f_equal; symmetry; apply app_nil_r]|]).
  all: split; [intros Hc; try discriminate Hc; split; reflexivity|].
  all: split;
    [ intros Hc Hp; try discriminate Hc;
      try (apply Z.eqb_eq in Hp; congruence); split; reflexivity
    | ].
  all: split;
    [ intros e Hin Haff; simpl in Hin;
      repeat (destruct Hin as [<-|Hin]; [try discriminate Haff|]);
      try contradiction; eexists; split; reflexivity
    | intros Hc Hr; try discriminate Hc; try discriminate Hr; reflexivity ].
Qed.

End Placement.

Lemma virCHProcessSetupVcpu_scheduler_witness :
  let host := example_host all_succeed every_controller info_running in
  let w := example_world 0 0 None in
  exists tr res,
    trace (snd (virCHProcessSetupVcpu host 1 w)) =
      tr ++ [ {| ev := virProcessSetScheduler 0 0 0; res := res |} ] /\
    0 <= res.
Proof.
  intros h w.
  apply (virCHProcessSetupVcpu_scheduler h 1 (example_vcpu None) w);
    vm_compute; reflexivity.
Defined.

Lemma virCHProcessSetupPid_order_witness :
  let host := example_host all_succeed every_controller info_running in
  let w := example_world 1000 500 None in
  exists l,
    trace (snd (virCHProcessSetupPid host 101 VIR_CGROUP_THREAD_VCPU 0
                  (Some 3%N) 1000 500 (Some {| policy := 1; priority := 2 |})
                  w)) = trace w ++ l /\
    increasing_below 7 (map placement_rank l) = true.
Proof.
  intros h w.
  apply (virCHProcessSetupPid_order h 101 VIR_CGROUP_THREAD_VCPU 0
           (Some 3%N) 1000 500 (Some {| policy := 1; priority := 2 |}) w).
  reflexivity.
Defined.

Lemma virCHProcessSetupPid_without_controllers_witness :
  let host := example_host all_succeed no_controller info_running in
  let w := example_world 0 0 None in
  exists l,
    trace (snd (virCHProcessSetupPid host 101 VIR_CGROUP_THREAD_VCPU 0 None
                                     0 0 None w)) = trace w ++ l /\
    forallb (fun e => negb (is_thread_cgroup_call e)) l = true.
Proof.
  intros h w.
  apply (virCHProcessSetupPid_without_controllers h 101 VIR_CGROUP_THREAD_VCPU
           0 None 0 0 None w); reflexivity.
Defined.

Section Threads.

Variable host : Host.

#[local] Arguments virCHProcessSetupEmulatorThreads : simpl never.
#[local] Arguments virCHProcessSetupIOThreads : simpl never.
#[local] Arguments virCHProcessSetupVcpus : simpl never.

(** X8.  The emulator stage places the threads of the monitor's cache
    whose type is Emulator, and no other, in the order of the cache, each
    by its thread id; the first placement that fails ends the stage with
    -1 and the threads after it are not placed. *)
Theorem virCHProcessSetupEmulatorThreads_in_order (w : World) :
  virCHProcessSetupEmulatorThreads host w =
    place_each (fun th => virCHProcessSetupEmulatorThread host (thr_tid th))
               (List.filter is_emulator_thread (monitor_thread_list (vm w)))
               w.
Proof.
  unfold virCHProcessSetupEmulatorThreads, body.
  unfold bind at 1, read at 1. unfold bind at 1.
  rewrite virCHProcessSetupEmulatorThreads_loop by reflexivity.
  cbv zeta. rewrite drop_0.
  destruct (place_each_result
              (fun th => virCHProcessSetupEmulatorThread host (thr_tid th))
              (List.filter is_emulator_thread (monitor_thread_list (vm w)))
              w) as [E|E];
    destruct (place_each _ _ w) as [r w1]; simpl in *; subst r; reflexivity.
Qed.

(** X9.  The IOThread stage asks the monitor for the IOThreads once and
    places every IOThread it lists, in that order; the first placement
    that fails ends the stage with -1. *)
Theorem virCHProcessSetupIOThreads_in_order (w : World) :
  let w0 := record virCHMonitorGetIOThreads 0 w in
  virCHProcessSetupIOThreads host w =
    place_each (virCHProcessSetupIOThread host)
               (monitor_iothreads host (trace w0)) w0.
Proof.
  intros w0. unfold virCHProcessSetupIOThreads, body.
  unfold bind at 1, emit at 1. unfold bind at 1, query at 1.
  unfold bind at 1. fold w0.
  rewrite for_each_place.
  destruct (place_each_result (virCHProcessSetupIOThread host)
              (monitor_iothreads host (trace w0)) w0) as [E|E];
    destruct (place_each _ _ w0) as [r w1]; simpl in *; subst r; reflexivity.
Qed.

(** X10.  In virCHProcessSetupThreads the domain status is saved at
    most once, as the last call, and the answer of the save is the
    result: the calls made are calls [l] none of which is a save,
    followed or not by one save answered with the result.  When the
    refreshed thread count is positive and the result is 0 the save was
    made; when the count is 0 or negative the count is the result and the
    refresh is the only call. *)
Theorem virCHProcessSetupThreads_save (w : World) :
  let r := fst (virCHProcessSetupThreads host w) in
  let w' := snd (virCHProcessSetupThreads host w) in
  let n := outcome host virCHMonitorRefreshThreadInfo (trace w) in
  let save := {| ev := virDomainObjSave; res := r |} in
  exists l made,
    trace w' = trace w ++ made /\
    forallb (fun e => negb (is_save e)) l = true /\
    (made = l \/ made = l ++ [save]) /\
    (count is_save made <= 1)%nat /\
    (0 < n -> r = 0 -> made = l ++ [save]) /\
    (n <= 0 ->
     r = n /\
     made = [ {| ev := virCHMonitorRefreshThreadInfo; res := n |} ]).
Proof.
  unfold virCHProcessSetupThreads, virCHMonitorRefreshThreadInfo_call, body.
  unfold bind, call, emit, read, write, query, invoke, when, pure, return_.
  destruct w as [d t]; simpl.
  repeat case_step.
  all: repeat match goal with
         | H : virCHProcessSetupEmulatorThreads host _ = _ |- _ =>
             emitted_by H (virCHProcessSetupEmulatorThreads_no_save host);
             clear H
         | H : virCHProcessSetupIOThreads host _ = _ |- _ =>
             emitted_by H (virCHProcessSetupIOThreads_no_save host);
             clear H
         | H : virCHProcessSetupVcpus host _ = _ |- _ =>
             emitted_by H (virCHProcessSetupVcpus_no_save host);
             clear H
         end.
  all: simpl.
  all: repeat match goal with
         | Ht : trace ?w0 = _ |- _ => rewrite Ht in *; clear Ht
         end.
  all: rewrite <- ?app_assoc; simpl.
  all: try match goal with
           | H : true = false |- _ => discriminate H
           | H : false = true |- _ => discriminate H
           end.
  all: repeat match goal with
         | H : (_ <=? 0) = true |- _ => apply Z.leb_le in H
         | H : (_ <=? 0) = false |- _ => apply Z.leb_gt in H
         | H : (_ =? 0) = false |- _ => apply Z.eqb_neq in H
         end.
  (* the calls before the save, if one was made *)
  all: match goal with
       | |- exists _ _, ?t0 ++ ?made = _ /\ _ =>
           lazymatch made with
           | ?x :: ?a ++ ?b ++ ?c ++ [ {| ev := virDomainObjSave |} ] =>
               exists (x :: a ++ b ++ c)
           | _ => exists made
           end
       end.
  all: eexists; (split; [reflexivity|]).
  all: match goal with
       | |- ?P /\ _ =>
           assert (Hquiet : P)
             by (simpl; rewrite ?forallb_app;
                 repeat match goal with
                        | H : forallb _ _ = true |- _ => rewrite H; clear H
                        end;
                 reflexivity);
           split; [exact Hquiet|]
       end.
  all: match goal with
       | |- ?P /\ _ =>
           assert (Hmade : P)
             by first [ left; reflexivity
                      | right; simpl; rewrite <- ?app_assoc; reflexivity ];
           split; [exact Hmade|]
       end.
  all: split;
    [ first
        [ rewrite (proj1 (count_no_save _ 0 Hquiet)); lia
        | destruct Hmade as [Hmade|Hmade]; rewrite Hmade;
          [ rewrite (proj1 (count_no_save _ 0 Hquiet))
          | rewrite (proj2 (count_no_save _ _ Hquiet)) ]; lia ]
    | ].
  all: split;
    [ intros Hn Hr; try lia; try congruence;
      simpl; rewrite <- ?app_assoc; reflexivity
    | intros Hn; try lia; split; reflexivity ].
Qed.

(** X11.  Collecting the vCPU thread ids makes no call and returns 0.
    Afterwards the roster has its length; the vCPU at each index [c] has
    the thread id of the last vCPU thread record the monitor reports for
    cpuid [c], or its old thread id if there is none, and is otherwise as
    it was; records of other thread types are ignored; nothing else in
    the domain object changes. *)
Theorem virCHProcessSetupVcpuPids_tids (w : World) :
  let info := virCHMonitorGetThreadInfo host (priv_monitor (vm w)) in
  let w' := snd (virCHProcessSetupVcpuPids host w) in
  fst (virCHProcessSetupVcpuPids host w) = 0 /\
  trace w' = trace w /\
  length (vcpus (def (vm w'))) = length (vcpus (def (vm w))) /\
  (forall c, vcpus (def (vm w')) !! c =
             store_tid (reported_tid info c) <$> vcpus (def (vm w)) !! c) /\
  vm w' = set_def (with_vcpus (vcpus (def (vm w')))) (vm w).
Proof.
  intros info w'. subst w'. rewrite virCHProcessSetupVcpuPids_run. simpl.
  split; [reflexivity|]. split; [reflexivity|]. split; [|split].
  - symmetry. eapply Forall2_length, record_tids_config.
  - intros c. apply record_tids_lookup.
  - reflexivity.
Qed.

End Threads.

Section StateQuery.

Variable host : Host.

(** X12.  The state query returns 0 or -1 and makes one call,
    virCHMonitorGetInfo.  When that call fails the domain object is left
    as it is.  Otherwise the run state becomes the one that
    [reported_state] finds in the answer, with
    reason 0 (Created: no state, Running: running, Shutdown: shutdown,
    Paused: PM-suspended), and state and reason stay as they were when
    the answer has no state or another string.  So the query never makes a
    domain Paused, Blocked, Shutoff or Crashed.  The process identifier,
    the domain id and the monitor connection are kept. *)
Theorem virCHProcessUpdateInfo_state (w : World) :
  let r := fst (virCHProcessUpdateInfo host w) in
  let w' := snd (virCHProcessUpdateInfo host w) in
  let res := outcome host virCHMonitorGetInfo (trace w) in
  let answered := trace w ++ [ {| ev := virCHMonitorGetInfo; res := res |} ] in
  let report := reported_state host (monitor_info host answered) in
  trace w' = answered /\
  (res < 0 -> r = -1 /\ vm w' = vm w) /\
  (0 <= res ->
   r = 0 /\
   (state (vm w'), reason (vm w')) =
     match report with
     | Some st => (st, 0)
     | None => (state (vm w), reason (vm w))
     end) /\
  (state (vm w') <> state (vm w) ->
   In (state (vm w'))
      [ VIR_DOMAIN_NOSTATE; VIR_DOMAIN_RUNNING; VIR_DOMAIN_SHUTDOWN;
        VIR_DOMAIN_PMSUSPENDED ]) /\
  identity_of (vm w') = identity_of (vm w).
Proof.
  intros r w' res answered report.
  subst r w' res answered report.
  split; [|split; [|split; [|split]]].
  5: apply virCHProcessUpdateInfo_identity.
  all: unfold virCHProcessUpdateInfo, virCHProcessUpdateStatus,
         virCHProcessUpdateConsole, virCHProcessUpdateConsoleDevice,
         reported_state, state_of_report, body, void_body.
  all: unfold bind, call, emit, read, write, query, invoke, invoke_void,
         when, pure, return_.
  all: destruct w as [d t]; simpl.
  all: repeat case_step.
  all: simpl.
  all: try reflexivity.
  all: try (intros Hres; try (apply Z.ltb_ge in Hres; congruence);
            try (apply Z.ltb_lt in Hres; congruence);
            split; reflexivity).
  all: try (intros Hne; try (exfalso; apply Hne; reflexivity);
            simpl; tauto).
Qed.

End StateQuery.

Section NetworkDevices.

Variable host : Host.

(** X13.  The network handoff changes nothing in the domain object but
    the queue pairs of network devices, and only from 0 to 1: the devices
    it reached, the first [j] of them, are settled and the others are
    as they were.  It returns 0 or -1, and when it returns 0 every device
    is settled: none has 0 queue pairs left. *)
Theorem chProcessAddNetworkDevices_queues
    (mon : option virCHMonitor) (w : World) :
  let r := fst (chProcessAddNetworkDevices host mon w) in
  let w' := snd (chProcessAddNetworkDevices host mon w) in
  let devices := nets (def (vm w)) in
  (r = 0 \/ r = -1) /\
  (exists j,
     (j <= length devices)%nat /\
     vm w' = with_nets_of (map settled (take j devices) ++ drop j devices)
                          (vm w)) /\
  (r = 0 ->
   nets (def (vm w')) = map settled devices /\
   Forall (fun net => queues net <> 0) (nets (def (vm w')))).
Proof.
  intros r w' devices. subst r w' devices.
  unfold chProcessAddNetworkDevices, body.
  unfold bind, call, when, emit, read, return_, pure; simpl.
  repeat case_step.
  all: try match goal with
       | H : for_each (seq 0 ?n) (chProcessAddNetworkDevices_net host ?sock)
               ?w0 = _ |- _ =>
           destruct (chProcessAddNetworkDevices_loop_effect host sock 0 n w0
                       eq_refl) as (j & l & Hj & Hvm & _ & Hend);
           rewrite H in Hvm, Hend; simpl in Hj, Hvm, Hend;
           rewrite settle_between_0 in Hvm
       end.
  1-3: split; [right; reflexivity|];
       (split; [exists 0%nat; split; [lia|]; simpl; rewrite drop_0; symmetry;
                apply with_nets_of_same
               |discriminate]).
  - split; [left; reflexivity|]. split; [exists j; split; [lia|exact Hvm]|].
    intros _. rewrite Hvm. subst j. simpl.
    rewrite firstn_all, drop_all, app_nil_r.
    split; [reflexivity|apply settled_queues].
  - destruct Hend as (-> & _).
    split; [right; reflexivity|].
    split; [exists j; split; [lia|exact Hvm]|discriminate].
Qed.

(** X14.  Once the handoff has called connect on its socket, the last
    call it makes is the close of that socket, whether it succeeds or
    fails.  When the socket path of the monitor does not fit, it reports
    the error and returns -1 with the socket it has just opened still
    open: no close is made. *)
Theorem chProcessAddNetworkDevices_socket
    (mon : option virCHMonitor) (w : World) :
  let r := fst (chProcessAddNetworkDevices host mon w) in
  let w' := snd (chProcessAddNetworkDevices host mon w) in
  let sock := outcome host socket (trace w) in
  exists l,
    trace w' = trace w ++ l /\
    (existsb is_connect l = true ->
     last l = Some {| ev := close sock; res := 0 |}) /\
    (0 <= sock ->
     virStrcpyStatic_sun_path host (from_option socketpath "" mon) < 0 ->
     r = -1 /\
     l = [ {| ev := socket; res := sock |};
           {| ev := virReportError VIR_ERR_INTERNAL_ERROR
                      "UNIX socket path '%1$s' too long";
              res := 0 |} ]).
Proof.
  intros r w' sock. subst r w' sock.
  unfold chProcessAddNetworkDevices, body.
  unfold bind, call, when, emit, read, return_, pure; simpl.
  repeat case_step.
  all: try match goal with
       | H : for_each (seq 0 ?n) (chProcessAddNetworkDevices_net host ?sock)
               ?w0 = _ |- _ =>
           destruct (chProcessAddNetworkDevices_loop_effect host sock 0 n w0
                       eq_refl) as (j & l & _ & _ & Ht & Hend);
           rewrite H in Ht, Hend; simpl in Ht, Hend; rewrite Ht
       end.
  all: simpl; rewrite <- ?app_assoc; simpl.
  all: eexists; (split; [reflexivity|]).
  all: repeat match goal with
         | H : (_ <? 0) = true |- _ => apply Z.ltb_lt in H
         | H : (_ <? 0) = false |- _ => apply Z.ltb_ge in H
         end.
  all: split; [|intros Hs Hp; try lia; split; reflexivity].
  all: simpl; try discriminate; intros _.
  all: rewrite ?last_cons, ?last_app; simpl; try reflexivity.
  destruct Hend as (_ & ->). reflexivity.
Qed.

(** X26.  In every run of the network handoff, each message sent
    carries as many descriptors as it announces, and after each send that
    did not fail the descriptors it carried are closed at once, one by
    one in order, before the response is read from the same socket. *)
Theorem chProcessAddNetworkDevices_descriptors_closed
    (mon : option virCHMonitor) (w : World) :
  exists l,
    trace (snd (chProcessAddNetworkDevices host mon w)) = trace w ++ l /\
    descriptors_closed l = true.
Proof.
  unfold chProcessAddNetworkDevices, body.
  unfold bind, call, when, emit, read, return_, pure; simpl.
  repeat case_step.
  all: try match goal with
       | H : for_each ?ids (chProcessAddNetworkDevices_net host ?sock)
               ?w0 = _ |- _ =>
           destruct (chProcessAddNetworkDevices_loop_closed host sock ids w0)
             as (l & Ht & Hc);
           rewrite H in Ht; simpl in Ht; rewrite Ht
       end.
  all: simpl; rewrite <- ?app_assoc; simpl.
  all: eexists; (split; [reflexivity|]).
  all: simpl; try reflexivity.
  all: try (rewrite Hc; reflexivity).
  rewrite <- (app_nil_r l). apply Hc.
Qed.

(** The check is not an empty one: a record in which a descriptor that
    was sent is not closed before the response is read does not pass. *)
Example descriptors_closed_rejects_open_descriptor :
  descriptors_closed
    [ {| ev := virSocketSendMsgWithFD 5 "" [7; 8] 2; res := 0 |};
      {| ev := close 7; res := 0 |};
      {| ev := virSocketRecvHttpResponse 5; res := 204 |} ] = false.
Proof. reflexivity. Qed.

End NetworkDevices.

Section Reconnection.

Variable host : Host.
Variable driver : virCHDriver.

(** X15.  Every reconnection task opens with virIdentitySetCurrent, the
    job restore and one virCHDomainObjBeginJob, and closes with
    virDomainObjEndAPI and virIdentitySetCurrent, on every path.  It
    begins a job once.  When the begin fails no job is ended; when it
    succeeds the job is ended exactly once, as the last call before the
    release, whatever failed or was stopped in between. *)
Theorem virCHProcessReconnect_job (w : World) :
  let w' := virCHProcessReconnect host driver w in
  let rb := outcome host virCHDomainObjBeginJob
              (trace w ++ [ entry virIdentitySetCurrent 0;
                            entry virCHDomainObjRestoreJob 0 ]) in
  exists l,
    trace w' = trace w ++ l /\
    prefix [ entry virIdentitySetCurrent 0;
             entry virCHDomainObjRestoreJob 0;
             entry virCHDomainObjBeginJob rb ] l /\
    suffix [ entry virDomainObjEndAPI 0; entry virIdentitySetCurrent 0 ] l /\
    count is_job_begin l = 1%nat /\
    (rb < 0 -> count is_job_end l = 0%nat) /\
    (0 <= rb ->
     count is_job_end l = 1%nat /\
     suffix [ entry virCHDomainObjEndJob 0; entry virDomainObjEndAPI 0;
              entry virIdentitySetCurrent 0 ] l).
Proof.
  intros w' rb. subst w' rb.
  unfold virCHProcessReconnect, virCHProcessReconnect_error,
    virCHProcessReconnect_cleanup, virCHProcessUpdateState,
    virCHConnectMonitor, chSetupCgroup_call, void_body, body, entry.
  unfold bind, call, emit, read, write, query, invoke, when, pure, return_.
  destruct w as [d t]; simpl.
  repeat case_step.
  all: repeat match goal with
         | H : virCHProcessStop host driver ?rsn _ = _ |- _ =>
             emitted_by H (virCHProcessStop_outside_job host driver rsn);
             clear H
         | H : virCHProcessUpdateInfo host _ = _ |- _ =>
             emitted_by H (virCHProcessUpdateInfo_outside_job host);
             clear H
         end.
  all: repeat match goal with
         | H : forallb outside_job ?l = true |- _ =>
             destruct (count_outside_job l H); clear H
         end.
  all: simpl.
  all: repeat match goal with
         | Ht : trace ?w0 = _ |- _ => rewrite Ht in *; clear Ht
         end.
  all: rewrite <- ?app_assoc in *; simpl in *.
  all: repeat match goal with
         | H : (_ <? 0) = true |- _ => apply Z.ltb_lt in H
         | H : (_ <? 0) = false |- _ => apply Z.ltb_ge in H
         end.
  all: eexists; (split; [reflexivity|]).
  all: split; [eexists; reflexivity|].
  all: split;
    [ repeat first [ reflexivity | apply suffix_cons_r | apply suffix_app_r ]
    | ].
  all: unfold count in *.
  all: repeat (progress (simpl; rewrite ?List.filter_app, ?length_app)).
  all: repeat match goal with
         | H : length (List.filter _ _) = 0%nat |- _ => rewrite H; clear H
         end.
  all: split; [reflexivity|].
  all: split; [intros Hrb; try lia; reflexivity|].
  all: intros Hrb; try lia.
  all: split; [reflexivity|].
  all: repeat first [ reflexivity | apply suffix_cons_r | apply suffix_app_r ].
Qed.

(** X16.  A reconnection task ends in one of three ways, whatever its
    collaborators answer: the domain status was saved without failure,
    the domain then having its monitor connection, its id equal to its
    process identifier and a state other than Shutdown; or the domain was
    stopped and is Shutoff with reason unknown or daemon, process
    identifier -1 and no monitor; or the domain was dropped from the
    driver's list. *)
Theorem virCHProcessReconnect_outcomes (w : World) :
  let w' := virCHProcessReconnect host driver w in
  exists l,
    trace w' = trace w ++ l /\
    ((exists r,
        In (entry virDomainObjSave r) l /\ 0 <= r /\
        has_monitor (vm w') = true /\
        domain_id (vm w') = pid (vm w') /\
        pid (vm w') = pid (vm w) /\
        state (vm w') <> VIR_DOMAIN_SHUTDOWN) \/
     (state (vm w') = VIR_DOMAIN_SHUTOFF /\
      (reason (vm w') = shutoff_reason_int VIR_DOMAIN_SHUTOFF_UNKNOWN \/
       reason (vm w') = shutoff_reason_int VIR_DOMAIN_SHUTOFF_DAEMON) /\
      pid (vm w') = -1 /\
      has_monitor (vm w') = false) \/
     existsb is_list_removal l = true).
Proof.
  intros w'. subst w'.
  unfold virCHProcessReconnect, virCHProcessReconnect_error,
    virCHProcessReconnect_cleanup, virCHProcessUpdateState,
    virCHConnectMonitor, chSetupCgroup_call, void_body, body, entry.
  unfold bind, call, emit, read, write, query, invoke, when, pure, return_.
  destruct w as [d t]; simpl.
  repeat case_step.
  all: repeat match goal with
         | H : virCHProcessUpdateInfo host ?w0 = _ |- _ =>
             identity_by H (virCHProcessUpdateInfo_identity host);
             emitted_by H (virCHProcessUpdateInfo_outside_job host);
             clear H
         end.
  all: repeat match goal with
         | H : virCHProcessStop host driver ?rsn ?w0 = _ |- _ =>
             destruct (virCHProcessStop_run host driver rsn w0)
               as (n & ret & post & _ & _ & _ & Hrun);
             rewrite Hrun in H; injection H as <- <-
         end.
  all: simpl.
  all: repeat match goal with
         | Ht : trace ?w0 = _ |- _ => rewrite Ht in *; clear Ht
         end.
  all: rewrite <- ?app_assoc; simpl.
  all: try match goal with
           | H1 : ?x = _, H2 : negb ?x = _ |- _ =>
               rewrite H1 in H2; discriminate H2
           end.
  all: eexists; (split; [reflexivity|]).
  all: try (right; left; repeat split; auto; fail).
  all: try (right; right; simpl;
            repeat (rewrite ?existsb_app; simpl);
            rewrite ?orb_true_r; reflexivity).
  left. eexists.
  split; [rewrite !app_comm_cons; apply in_elt|].
  split; [apply Z.ltb_ge; rewrite <- ?app_assoc in Heqb6; exact Heqb6|].
  unfold identity_of, has_monitor, domain_id, priv_monitor in *.
  simpl in Hid. injection Hid as Hp Hi Hm.
  apply bool_decide_eq_false in Heqb1.
  apply orb_false_iff in Heqb5. destruct Heqb5 as [Hst _].
  apply bool_decide_eq_false in Hst.
  rewrite Hm, Hi, Hp.
  destruct (monitor_open host _); [|contradiction].
  repeat split; assumption.
Qed.

(** X24.  In a reconnection task whose reattach part gets through, a
    domain found Paused after the state query was Paused before the task
    began, with the same reason: the answer of the hypervisor never makes
    a domain Paused, so the test for "Paused while shutting down" can only
    hold on the state the domain object was loaded with. *)
Theorem virCHProcessReconnect_paused_is_stale (w w1 : World) :
  reconnect_reattach host driver w = (Next tt, w1) ->
  state (vm w1) = VIR_DOMAIN_PAUSED ->
  state (vm w) = VIR_DOMAIN_PAUSED /\ reason (vm w1) = reason (vm w).
Proof.
  unfold reconnect_reattach, virCHProcessReconnect_error,
    virCHProcessReconnect_cleanup, virCHProcessUpdateState,
    virCHConnectMonitor, chSetupCgroup_call, body.
  unfold bind, call, emit, read, write, query, invoke, when, pure, return_.
  destruct w as [d t]; simpl.
  repeat case_step; intros E; try discriminate E.
  all: injection E as <-.
  all: match goal with
       | H : virCHProcessUpdateInfo host ?w0 = (_, ?w') |- _ =>
           pose proof (virCHProcessUpdateInfo_paused host w0) as Hp;
           rewrite H in Hp; simpl in Hp; exact Hp
       end.
Qed.

End Reconnection.

Lemma virCHProcessReconnect_paused_is_stale_witness :
  let host := example_host all_succeed every_controller info_no_state in
  let w := {| vm := found_domain VIR_DOMAIN_PAUSED 8; trace := [] |} in
  let w1 := snd (reconnect_reattach host example_driver w) in
  state (vm w1) = VIR_DOMAIN_PAUSED /\ reason (vm w1) = 8.
Proof.
  intros h w w1.
  destruct (virCHProcessReconnect_paused_is_stale h example_driver w w1)
    as [_ Hr]; [reflexivity|reflexivity|].
  split; [reflexivity|exact Hr].
Defined.

(** ** The version parser of ch_conf.c *)

Section VersionParser.

#[local] Arguments scan_int : simpl never.
#[local] Arguments pretty : simpl never.
#[local] Arguments append : simpl nomatch.

Lemma pretty_N_char_digit (d : N) :
  (d < 10)%N ->
  isdigit (pretty_N_char d) = true /\
  digit_value (pretty_N_char d) = Z.of_N d.
Proof.
  intros H.
  assert (Hd : (d = 0 \/ d = 1 \/ d = 2 \/ d = 3 \/ d = 4 \/ d = 5 \/
                d = 6 \/ d = 7 \/ d = 8 \/ d = 9)%N) by lia.
  repeat destruct Hd as [->|Hd]; try subst d; split; reflexivity.
Qed.

Lemma scan_digits_pretty_go (x : N) (s : string) :
  scan_digits 0 (pretty_N_go x s) = scan_digits (Z.of_N x) s.
Proof.
  revert s. induction (N.lt_wf_0 x) as [x _ IH]. intros s.
  destruct (decide (0 < x)%N) as [Hx|Hx].
  - rewrite pretty_N_go_step by assumption.
    rewrite IH by (apply N.div_lt; lia).
    destruct (pretty_N_char_digit (x `mod` 10)) as [Hd Hv];
      [apply N.mod_lt; lia|].
    cbn [scan_digits]. rewrite Hd, Hv. f_equal.
    rewrite (N.div_mod x 10) at 3 by lia. lia.
  - replace x with 0%N by lia. rewrite pretty_N_go_0. reflexivity.
Qed.

Lemma pretty_N_go_app (x : N) (s rest : string) :
  (pretty_N_go x s +:+ rest)%string = pretty_N_go x (s +:+ rest).
Proof.
  revert s. induction (N.lt_wf_0 x) as [x _ IH]. intros s.
  destruct (decide (0 < x)%N) as [Hx|Hx].
  - rewrite (pretty_N_go_step x s), (pretty_N_go_step x (s +:+ rest))
      by assumption.
    rewrite IH by (apply N.div_lt; lia). reflexivity.
  - replace x with 0%N by lia. rewrite !pretty_N_go_0. reflexivity.
Qed.

Lemma all_digits_pretty_go (x : N) (s : string) :
  all_digits (pretty_N_go x s) = all_digits s.
Proof.
  revert s. induction (N.lt_wf_0 x) as [x _ IH]. intros s.
  destruct (decide (0 < x)%N) as [Hx|Hx].
  - rewrite pretty_N_go_step by assumption.
    rewrite IH by (apply N.div_lt; lia).
    destruct (pretty_N_char_digit (x `mod` 10)) as [Hd _];
      [apply N.mod_lt; lia|].
    cbn [all_digits]. rewrite Hd. reflexivity.
  - replace x with 0%N by lia. rewrite pretty_N_go_0. reflexivity.
Qed.

Lemma pretty_N_go_empty (x : N) (s : string) :
  pretty_N_go x s = EmptyString -> x = 0%N /\ s = EmptyString.
Proof.
  revert s. induction (N.lt_wf_0 x) as [x _ IH]. intros s.
  destruct (decide (0 < x)%N) as [Hx|Hx].
  - rewrite pretty_N_go_step by assumption. intros H.
    apply IH in H; [|apply N.div_lt; lia]. destruct H as [_ H].
    discriminate H.
  - replace x with 0%N by lia. rewrite pretty_N_go_0. auto.
Qed.

(** The decimal notation of a number: digits only, at least one. *)
Lemma pretty_N_digits (x : N) :
  all_digits (pretty x) = true /\ pretty x <> EmptyString.
Proof.
  unfold pretty, pretty_N. destruct (decide (x = 0%N)) as [->|Hx].
  - split; [reflexivity|discriminate].
  - split; [rewrite all_digits_pretty_go; reflexivity|].
    intros H. apply pretty_N_go_empty in H. tauto.
Qed.

Lemma scan_digits_pretty (x : N) (rest : string) :
  starts_with_digit rest = false ->
  scan_digits 0 (pretty x +:+ rest) = (Z.of_N x, rest).
Proof.
  intros Hrest.
  assert (Hstop : forall acc, scan_digits acc rest = (acc, rest)).
  { intros acc. destruct rest as [|c rest]; [reflexivity|].
    simpl in *. rewrite Hrest. reflexivity. }
  unfold pretty, pretty_N. destruct (decide (x = 0%N)) as [->|Hx].
  - simpl. apply Hstop.
  - rewrite pretty_N_go_app, scan_digits_pretty_go. apply Hstop.
Qed.

Lemma isdigit_plain (c : ascii) :
  isdigit c = true ->
  isspace c = false /\ Ascii.eqb c "-" = false /\ Ascii.eqb c "+" = false /\
  Ascii.eqb c "." = false /\ Ascii.eqb c "/" = false.
Proof.
  unfold isdigit, isspace. intros H.
  apply andb_true_iff in H. destruct H as [H1 H2].
  apply Nat.leb_le in H1, H2.
  assert (Hne : forall c', (nat_of_ascii c' < 48)%nat -> Ascii.eqb c c' = false).
  { intros c' Hc'. apply Ascii.eqb_neq. intros ->. lia. }
  repeat split; try (apply Hne; vm_compute; lia).
  apply orb_false_iff. split.
  - apply Nat.eqb_neq. lia.
  - apply andb_false_iff. right. apply Nat.leb_gt. lia.
Qed.

Lemma all_digits_head (s : string) :
  all_digits s = true -> s <> EmptyString ->
  exists c s', s = String c s' /\ isdigit c = true.
Proof.
  destruct s as [|c s']; [congruence|]. simpl.
  intros H _. apply andb_true_iff in H. exists c, s'. tauto.
Qed.

(** %d on the decimal notation of a number followed by something that is
    not a digit. *)
Lemma scan_int_pretty (x : N) (rest : string) :
  starts_with_digit rest = false ->
  scan_int (pretty x +:+ rest) = Converted (Z.of_N x) rest.
Proof.
  intros Hrest.
  pose proof (scan_digits_pretty x rest Hrest) as Hscan.
  destruct (pretty_N_digits x) as [Hall Hne].
  destruct (all_digits_head _ Hall Hne) as (c & s' & Heq & Hc).
  rewrite Heq in *. clear Heq.
  destruct (isdigit_plain c Hc) as (Hsp & Hminus & Hplus & _).
  unfold scan_int. cbn [String.append skip_spaces].
  rewrite Hsp, Hminus, Hplus, Hc.
  cbn [String.append] in Hscan. rewrite Hscan. reflexivity.
Qed.

Lemma strrchr_app_none (s1 s2 : string) (c : ascii) :
  strrchr s1 c = None -> strrchr s2 c = None ->
  strrchr (s1 +:+ s2) c = None.
Proof.
  intros H1 H2. induction s1 as [|a s1 IH]; simpl in *; [exact H2|].
  destruct (strrchr s1 c); [discriminate|].
  rewrite IH by reflexivity. exact H1.
Qed.

Lemma strrchr_digits (s : string) :
  all_digits s = true -> strrchr s "/" = None.
Proof.
  induction s as [|a s IH]; simpl; [reflexivity|].
  intros H. apply andb_true_iff in H. destruct H as [Ha Hs].
  rewrite IH by assumption.
  destruct (isdigit_plain a Ha) as (_ & _ & _ & _ & ->). reflexivity.
Qed.

Lemma strrchr_pretty (x : N) : strrchr (pretty x) "/" = None.
Proof. apply strrchr_digits, pretty_N_digits. Qed.

Lemma strrchr_last (s1 s2 : string) (c : ascii) :
  strrchr s2 c = None ->
  strrchr (s1 +:+ String c s2) c = Some (String.length s1).
Proof.
  intros H2. induction s1 as [|a s1 IH]; simpl.
  - rewrite H2, Ascii.eqb_refl. reflexivity.
  - rewrite IH. reflexivity.
Qed.

Lemma string_from_app (s1 s2 : string) :
  string_from (String.length s1) (s1 +:+ s2) = s2.
Proof. induction s1 as [|a s1 IH]; simpl; [destruct s2|]; auto. Qed.

Lemma ends_number_no_digit (s : string) :
  ends_number s = true -> starts_with_digit s = false.
Proof.
  destruct s as [|c s]; simpl; [reflexivity|].
  intros H. apply andb_true_iff in H. destruct H as [H _].
  apply negb_true_iff in H. exact H.
Qed.

(** The two formats on a version with three numbers, and on one with
    two. *)
Lemma sscanf_three (major minor micro : N) (rest : string) :
  starts_with_digit rest = false ->
  sscanf ("v" +:+ pretty major +:+ "." +:+ pretty minor +:+ "." +:+
          pretty micro +:+ rest)
         format_major_minor_micro =
    (3, [Z.of_N major; Z.of_N minor; Z.of_N micro]).
Proof.
  intros Hrest. unfold sscanf, format_major_minor_micro.
  cbn [sscanf_from String.append]. rewrite Ascii.eqb_refl.
  rewrite scan_int_pretty by reflexivity.
  cbn [sscanf_from String.append]. rewrite Ascii.eqb_refl.
  rewrite scan_int_pretty by reflexivity.
  cbn [sscanf_from String.append]. rewrite Ascii.eqb_refl.
  rewrite scan_int_pretty by assumption.
  reflexivity.
Qed.

Lemma sscanf_two (major minor : N) (rest : string) :
  ends_number rest = true ->
  sscanf ("v" +:+ pretty major +:+ "." +:+ pretty minor +:+ rest)
         format_major_minor_micro =
    (2, [Z.of_N major; Z.of_N minor]) /\
  sscanf ("v" +:+ pretty major +:+ "." +:+ pretty minor +:+ rest)
         format_major_minor =
    (2, [Z.of_N major; Z.of_N minor]).
Proof.
  intros Hrest. pose proof (ends_number_no_digit rest Hrest) as Hd.
  unfold sscanf, format_major_minor_micro, format_major_minor.
  split.
  all: cbn [sscanf_from String.append]; rewrite Ascii.eqb_refl.
  all: rewrite scan_int_pretty by reflexivity.
  all: cbn [sscanf_from String.append]; rewrite Ascii.eqb_refl.
  all: rewrite scan_int_pretty by assumption.
  all: cbn [sscanf_from app length].
  2: reflexivity.
  destruct rest as [|c rest]; [reflexivity|].
  simpl in Hrest. apply andb_true_iff in Hrest. destruct Hrest as [_ Hdot].
  apply negb_true_iff in Hdot. rewrite Hdot. reflexivity.
Qed.

Lemma to_unsigned_int_small (v : Z) :
  0 <= v < 2 ^ 32 -> to_unsigned_int v = v.
Proof. intros H. unfold to_unsigned_int. apply Z.mod_small. exact H. Qed.

Lemma virCHVersionString_at (prefix text : string) :
  strstr (prefix +:+ text) "cloud-hypervisor " = Some 0%nat ->
  (strrchr (prefix +:+ text) "/" = None /\ String.length prefix = 17%nat) \/
  (exists before, prefix = (before +:+ "/")%string /\
                  strrchr text "/" = None) ->
  virCHVersionString (prefix +:+ text) =
    let args := [0; 0; 0] in
    let (n, values) := sscanf text format_major_minor_micro in
    let args := store_converted values args in
    let result :=
      if negb (n =? 3) then
        let (n, values) := sscanf text format_major_minor in
        let args := store_converted values args in
        if negb (n =? 2) then None else Some args
      else Some args in
    match result with
    | Some [major; minor; micro] =>
        inr (to_unsigned_int (1000000 * major + 1000 * minor + micro))
    | _ => inl can_not_extract
    end.
Proof.
  intros Hstart Hslash. unfold virCHVersionString. rewrite Hstart.
  destruct Hslash as [[Hnone Hlen]|(before & -> & Hnone)].
  - rewrite Hnone. change (strlen "cloud-hypervisor ") with 17%nat.
    rewrite <- Hlen, string_from_app. reflexivity.
  - assert (Hlast : strrchr ((before +:+ "/") +:+ text) "/" =
                    Some (String.length before)).
    { replace ((before +:+ "/") +:+ text)%string
        with (before +:+ String "/" text)%string.
      - apply strrchr_last. exact Hnone.
      - clear. induction before as [|a before IH]; simpl; [reflexivity|].
        rewrite IH. reflexivity. }
    rewrite Hlast. cbn [Nat.ltb Nat.leb].
    replace (string_from (S (String.length before))
               ((before +:+ "/") +:+ text))
      with text; [reflexivity|].
    clear. induction before as [|a before IH]; simpl; [destruct text|];
      auto.
Qed.

End VersionParser.

Section Version.

#[local] Arguments append : simpl nomatch.
#[local] Arguments pretty : simpl never.

(** X18.  The version of a release: for the text "cloud-hypervisor v",
    three numbers in decimal separated by dots, and anything after them
    that starts with no digit and holds no slash, virCHVersionString
    returns 0 and gives 1000000 * major + 1000 * minor + micro, as long
    as that number fits 32 bits and each of the three fits an int. *)
Theorem virCHVersionString_release (major minor micro : N) (rest : string) :
  starts_with_digit rest = false ->
  strrchr rest "/" = None ->
  Z.of_N micro < 2 ^ 31 ->
  version_number major minor micro < 2 ^ 32 ->
  virCHVersionString
    ("cloud-hypervisor v" +:+ pretty major +:+ "." +:+ pretty minor +:+
     "." +:+ pretty micro +:+ rest)
  = inr (version_number major minor micro).
Proof.
  intros Hrest Hslash _ Hfit. unfold version_number in *.
  change ("cloud-hypervisor v" +:+ pretty major +:+ "." +:+ pretty minor +:+
          "." +:+ pretty micro +:+ rest)%string
    with ("cloud-hypervisor " +:+
          ("v" +:+ pretty major +:+ "." +:+ pretty minor +:+
           "." +:+ pretty micro +:+ rest))%string.
  rewrite virCHVersionString_at.
  - rewrite sscanf_three by assumption. cbn [store_converted].
    change (negb (3 =? 3)) with false. cbv iota.
    rewrite (to_unsigned_int_small (Z.of_N major)),
      (to_unsigned_int_small (Z.of_N minor)),
      (to_unsigned_int_small (Z.of_N micro)) by lia.
    rewrite to_unsigned_int_small by lia. reflexivity.
  - reflexivity.
  - left. split; [|reflexivity].
    apply (strrchr_app_none "cloud-hypervisor v"); [reflexivity|].
    repeat first
      [ exact Hslash
      | apply strrchr_app_none; [first [apply strrchr_pretty|reflexivity]|] ].
Qed.

(** X19.  A version with two numbers, as a build from the main branch
    prints it: when the text after "cloud-hypervisor v", major, a dot
    and minor goes on with neither a digit nor a dot, the micro number
    is taken as 0. *)
Theorem virCHVersionString_two_numbers (major minor : N) (rest : string) :
  ends_number rest = true ->
  strrchr rest "/" = None ->
  version_number major minor 0 < 2 ^ 32 ->
  virCHVersionString
    ("cloud-hypervisor v" +:+ pretty major +:+ "." +:+ pretty minor +:+ rest)
  = inr (version_number major minor 0).
Proof.
  intros Hrest Hslash Hfit. unfold version_number in *.
  change ("cloud-hypervisor v" +:+ pretty major +:+ "." +:+ pretty minor +:+
          rest)%string
    with ("cloud-hypervisor " +:+
          ("v" +:+ pretty major +:+ "." +:+ pretty minor +:+ rest))%string.
  rewrite virCHVersionString_at.
  - destruct (sscanf_two major minor rest Hrest) as [-> ->].
    cbn [store_converted].
    change (negb (2 =? 3)) with true. change (negb (2 =? 2)) with false.
    cbv iota.
    rewrite (to_unsigned_int_small (Z.of_N major)),
      (to_unsigned_int_small (Z.of_N minor)) by lia.
    rewrite to_unsigned_int_small by lia. reflexivity.
  - reflexivity.
  - left. split; [|reflexivity].
    apply (strrchr_app_none "cloud-hypervisor v"); [reflexivity|].
    repeat first
      [ exact Hslash
      | apply strrchr_app_none; [first [apply strrchr_pretty|reflexivity]|] ].
Qed.

(** X20.  A vendor prefix is skipped: whatever stands between
    "cloud-hypervisor " and the last slash of the text does not count,
    the version is read after that slash. *)
Theorem virCHVersionString_vendor (vendor text : string) :
  strrchr text "/" = None ->
  virCHVersionString ("cloud-hypervisor " +:+ vendor +:+ "/" +:+ text)
  = virCHVersionString ("cloud-hypervisor " +:+ text).
Proof.
  intros Hslash.
  rewrite (virCHVersionString_at "cloud-hypervisor " text);
    [|destruct text; reflexivity|left; split; [|reflexivity]].
  - replace ("cloud-hypervisor " +:+ vendor +:+ "/" +:+ text)%string
      with ((("cloud-hypervisor " +:+ vendor) +:+ "/") +:+ text)%string.
    + apply virCHVersionString_at.
      * destruct vendor; reflexivity.
      * right. exists ("cloud-hypervisor " +:+ vendor)%string.
        split; [reflexivity|exact Hslash].
    + simpl. do 17 f_equal.
      induction vendor as [|a vendor IH]; simpl; [reflexivity|].
      rewrite IH. reflexivity.
  - apply (strrchr_app_none "cloud-hypervisor "); [reflexivity|exact Hslash].
Qed.

Lemma virCHVersionString_range (str : string) (version : Z) :
  virCHVersionString str = inr version -> 0 <= version < 2 ^ 32.
Proof.
  unfold virCHVersionString. intros H.
  repeat case_match; try discriminate H.
  all: injection H as <-; unfold to_unsigned_int; apply Z.mod_pos_bound; lia.
Qed.

(** X21.  The minimum version: once the command has run and its output
    was understood as [version], chExtractVersionInfo returns 0 exactly
    when [version] is at least 9000, the number of v0.9.0, and then
    hands the version back; below that it reports that the version is
    too old, returns -1 and hands back 0.  The command is run once in
    either case. *)
Theorem chExtractVersionInfo_minimum (run : Z) (help : string) (version : Z) :
  0 <= run ->
  virCHVersionString help = inr version ->
  chExtractVersionInfo (run, help) =
    if 9000 <=? version
    then (0, to_int version, [RunVersionCommand])
    else (-1, 0, [RunVersionCommand; ReportError version_too_old]).
Proof.
  intros Hrun Hv. pose proof (virCHVersionString_range help version Hv) as Hr.
  unfold chExtractVersionInfo. rewrite Hv.
  replace (run <? 0) with false by (symmetry; apply Z.ltb_ge; exact Hrun).
  assert (H1 : 0 <= version / 1000000 < 2 ^ 32).
  { split; [apply Z.div_pos; lia|].
    apply Z.div_lt_upper_bound; lia. }
  assert (H2 : 0 <= version mod 1000000 < 1000000)
    by (apply Z.mod_pos_bound; lia).
  rewrite !to_unsigned_int_small by lia.
  destruct (9000 <=? version) eqn:E.
  - apply Z.leb_le in E.
    destruct (version / 1000000 <? 1) eqn:E1; [|reflexivity].
    apply Z.ltb_lt in E1.
    assert (version < 1000000).
    { assert (version / 1000000 = 0) by lia.
      apply Z.div_small_iff in H; lia. }
    rewrite Z.mod_small by lia.
    replace (version / 1000 <? 9) with false; [reflexivity|].
    symmetry. apply Z.ltb_ge. apply Z.div_le_lower_bound; lia.
  - apply Z.leb_gt in E.
    rewrite Z.div_small by lia. rewrite Z.mod_small by lia.
    replace (version / 1000 <? 9) with true; [reflexivity|].
    symmetry. apply Z.ltb_lt. apply Z.div_lt_upper_bound; lia.
Qed.

(** X22.  chExtractVersion returns 0 or -1.  With a version already
    known (greater than 0) it returns 0 at once: the command is not run
    and the version is kept.  Otherwise the command is run once; when it
    returns -1 the version it leaves is 0 and its last call is the report
    that the version could not be extracted. *)
Theorem chExtractVersion_cached (command : Z * string) (version : Z) :
  let '(r, version', calls) := chExtractVersion command version in
  (r = 0 \/ r = -1) /\
  (0 < version -> r = 0 /\ version' = version /\ calls = []) /\
  (version <= 0 ->
   length (List.filter is_version_command calls) = 1%nat) /\
  (r = -1 ->
   version' = 0 /\ last calls = Some (ReportError could_not_extract)).
Proof.
  unfold chExtractVersion, chExtractVersionInfo.
  destruct command as [run help].
  destruct (0 <? version) eqn:E.
  - apply Z.ltb_lt in E. repeat split; auto; try lia; discriminate.
  - apply Z.ltb_ge in E.
    destruct (run <? 0); [|destruct (virCHVersionString help);
                            [|destruct (_ && _)]]; simpl.
    all: repeat split; auto; try lia; try discriminate.
Qed.

End Version.

Lemma virCHVersionString_release_witness :
  virCHVersionString "cloud-hypervisor v32.0.0" = inr 32000000.
Proof.
  apply (virCHVersionString_release 32 0 0 ""); reflexivity.
Defined.

Lemma virCHVersionString_two_numbers_witness :
  virCHVersionString "cloud-hypervisor v33.0-104-ge0e3779e-dirty"
  = inr 33000000.
Proof.
  apply (virCHVersionString_two_numbers 33 0 "-104-ge0e3779e-dirty");
    reflexivity.
Defined.

Lemma virCHVersionString_vendor_witness :
  virCHVersionString "cloud-hypervisor msft/v32.0.131-1-ga5d6db5c-dirty"
  = virCHVersionString "cloud-hypervisor v32.0.131-1-ga5d6db5c-dirty".
Proof.
  apply (virCHVersionString_vendor "msft" "v32.0.131-1-ga5d6db5c-dirty").
  reflexivity.
Defined.

Lemma chExtractVersionInfo_minimum_witness :
  chExtractVersionInfo (0, "cloud-hypervisor v0.8.1000"%string) =
    (0, 9000, [RunVersionCommand]) /\
  chExtractVersionInfo (0, "cloud-hypervisor v0.8.999"%string) =
    (-1, 0, [RunVersionCommand; ReportError version_too_old]).
Proof.
  split.
  - apply (chExtractVersionInfo_minimum 0 "cloud-hypervisor v0.8.1000" 9000);
      [lia|reflexivity].
  - apply (chExtractVersionInfo_minimum 0 "cloud-hypervisor v0.8.999" 8999);
      [lia|reflexivity].
Defined.
